(** * Tenant-isolated, resilient request pipeline: a shallow embedding

    The development follows the middleware of the backend:
    - [middleware/error_handling.py]  circuit breaker, retry executor,
      error classifier;
    - [middleware/rate_limiting.py]   sliding-window rate limiter;
    - [middleware/tenant_context.py]  tenant context resolver;
    - [services/database/models/subscription/crud.py] and
      [services/billing/usage_service.py]  quota checks and recorded usage;
    - [services/cache/redis_cache.py]  the cache manager without Redis;
    - [decorators/quota.py] and [middleware/usage_tracking.py]  quota
      enforcement in front of the endpoints;
    - [services/database/models/flow/crud.py]  the queries that go around
      row security.

    Wall-clock readings ([time.time()]) are exact rationals [Q]; Python
    integers are [Z]; Python dictionaries keyed by strings are [gmap string].
    Every function that reads the clock takes the reading as an argument.

    Part I holds the embedding, Part II the vocabulary the properties are
    stated in together with sample inputs, Parts III and IV the
    properties. *)

From Stdlib Require Import ZArith QArith Qround Lqa String Ascii List Bool Lia.
From Stdlib Require Import DecimalString Sorted Qpower.
From stdpp Require Import base option gmap strings list.
Import ListNotations.

Local Open Scope Z_scope.

(** * Part I: the embedding *)

(** ** Clock readings and Python string helpers *)

Module Clock.

Definition Time := Q.

(** Python's [a < b] and [a >= b] on clock readings, as booleans. *)
Definition ltb (a b : Q) : bool := negb (Qle_bool b a).
Definition geb (a b : Q) : bool := Qle_bool b a.

(** Python's [int(x)] on a float: truncation toward zero. *)
Definition int_of (x : Q) : Z := Z.quot (Qnum x) (Z.pos (Qden x)).

End Clock.

Module Py.

(** [str(n)] for an integer. *)
Definition str_of_Z (n : Z) : string := NilZero.string_of_int (Z.to_int n).

Definition is_upper (c : ascii) : bool :=
  let n := nat_of_ascii c in (65 <=? n)%nat && (n <=? 90)%nat.
Definition is_lower (c : ascii) : bool :=
  let n := nat_of_ascii c in (97 <=? n)%nat && (n <=? 122)%nat.

Definition lower_ascii (c : ascii) : ascii :=
  if is_upper c then ascii_of_nat (nat_of_ascii c + 32) else c.
Definition upper_ascii (c : ascii) : ascii :=
  if is_lower c then ascii_of_nat (nat_of_ascii c - 32) else c.

Fixpoint map_string (f : ascii -> ascii) (s : string) : string :=
  match s with
  | EmptyString => EmptyString
  | String c r => String (f c) (map_string f r)
  end.

(** [s.lower()], [s.upper()] and [s.replace('_', '-')] on ASCII text. *)
Definition lower (s : string) : string := map_string lower_ascii s.
Definition upper (s : string) : string := map_string upper_ascii s.
Definition underscore_to_dash (s : string) : string :=
  map_string (fun c => if Ascii.eqb c "_" then "-"%char else c) s.

(** [s.startswith(p)]. *)
Definition startswith (s p : string) : bool := String.prefix p s.

(** [needle in hay]. *)
Fixpoint contains (needle hay : string) : bool :=
  String.prefix needle hay ||
  match hay with
  | EmptyString => false
  | String _ rest => contains needle rest
  end.

(** Truthiness of an optional string: [None] and the empty string are falsy. *)
Definition truthy (o : option string) : bool :=
  match o with
  | Some s => negb (String.eqb s EmptyString)
  | None => false
  end.

(** [l[:n]] *)
Definition slice_to {A} (l : list A) (n : Z) : list A :=
  if 0 <=? n then firstn (Z.to_nat n) l
  else firstn (Z.to_nat (Z.of_nat (length l) + n)) l.

End Py.

(** ** [middleware/error_handling.py] *)

Module ErrorHandling.

Inductive ErrorType :=
  | VALIDATION | AUTHENTICATION | AUTHORIZATION | NOT_FOUND | RATE_LIMIT
  | SERVICE_UNAVAILABLE | DATABASE | EXTERNAL_API | INTERNAL_SERVER
  | TIMEOUT | NETWORK.

(** [ErrorType.value] *)
Definition error_type_value (t : ErrorType) : string :=
  match t with
  | VALIDATION => "validation"
  | AUTHENTICATION => "authentication"
  | AUTHORIZATION => "authorization"
  | NOT_FOUND => "not_found"
  | RATE_LIMIT => "rate_limit"
  | SERVICE_UNAVAILABLE => "service_unavailable"
  | DATABASE => "database"
  | EXTERNAL_API => "external_api"
  | INTERNAL_SERVER => "internal_server"
  | TIMEOUT => "timeout"
  | NETWORK => "network"
  end.

Inductive CircuitState := CLOSED | OPEN | HALF_OPEN.

Definition CircuitState_eqb (a b : CircuitState) : bool :=
  match a, b with
  | CLOSED, CLOSED | OPEN, OPEN | HALF_OPEN, HALF_OPEN => true
  | _, _ => false
  end.

Record CircuitBreakerConfig := {
  failure_threshold : Z;
  recovery_timeout : Z;
  success_threshold : Z;
  monitoring_window : Z
}.

(** The dataclass defaults: [CircuitBreakerConfig(failure_threshold=ft,
    recovery_timeout=rt)] keeps [success_threshold=3] and
    [monitoring_window=300]. *)
Definition mkCircuitBreakerConfig (ft rt : Z) : CircuitBreakerConfig :=
  {| failure_threshold := ft; recovery_timeout := rt;
     success_threshold := 3; monitoring_window := 300 |}.

Definition default_circuit_config : CircuitBreakerConfig :=
  mkCircuitBreakerConfig 5 60.

Record RetryConfig := {
  max_attempts : nat;
  initial_delay : Q;
  max_delay : Q;
  exponential_base : Q;
  jitter : bool
}.

Definition mkRetryConfig (n : nat) (d : Q) : RetryConfig :=
  {| max_attempts := n; initial_delay := d; max_delay := 30;
     exponential_base := 2; jitter := true |}.

Definition default_retry_config : RetryConfig := mkRetryConfig 3 (1 # 2).

(** [self.circuit_configs], in insertion order. *)
Definition circuit_configs : list (string * CircuitBreakerConfig) :=
  [ ("/api/v1/chat"%string, mkCircuitBreakerConfig 10 30);
    ("/api/v1/flows"%string, mkCircuitBreakerConfig 5 60);
    ("/api/v1/billing"%string, mkCircuitBreakerConfig 3 120);
    ("/api/v1/admin"%string, mkCircuitBreakerConfig 2 300);
    ("default"%string, default_circuit_config) ].

(** [self.retry_configs], in insertion order. *)
Definition retry_configs : list (string * RetryConfig) :=
  [ ("/api/v1/chat"%string, mkRetryConfig 2 (1 # 10));
    ("/api/v1/flows"%string, mkRetryConfig 3 (1 # 2));
    ("/api/v1/billing"%string, mkRetryConfig 3 1);
    ("default"%string, default_retry_config) ].

(** [d.get(key, default)] on an insertion-ordered dict. *)
Fixpoint dict_get {V} (d : list (string * V)) (key : string) (default : V) : V :=
  match d with
  | [] => default
  | (k, v) :: rest => if String.eqb k key then v else dict_get rest key default
  end.

(** [self.error_messages] *)
Definition error_messages (t : ErrorType) : string :=
  match t with
  | VALIDATION => "Invalid input data. Please check your request and try again."
  | AUTHENTICATION => "Authentication failed. Please check your credentials."
  | AUTHORIZATION => "Access denied. You don't have permission to perform this action."
  | NOT_FOUND => "The requested resource was not found."
  | RATE_LIMIT => "Too many requests. Please slow down and try again later."
  | SERVICE_UNAVAILABLE => "Service is temporarily unavailable. Please try again later."
  | DATABASE => "Database error occurred. Please try again later."
  | EXTERNAL_API => "External service error. Please try again later."
  | INTERNAL_SERVER => "An internal error occurred. Our team has been notified."
  | TIMEOUT => "Request timed out. Please try again."
  | NETWORK => "Network error occurred. Please check your connection."
  end.

Definition skip_paths : list string :=
  [ "/health"; "/health_check"; "/api/v1/health"; "/static/"; "/docs";
    "/redoc"; "/openapi.json" ]%string.

Definition _should_skip_error_handling (path : string) : bool :=
  existsb (fun skip_path => Py.startswith path skip_path) skip_paths.

Fixpoint first_matching_pattern (keys : list string) (path : string) : string :=
  match keys with
  | [] => "default"
  | pattern :: rest =>
      if negb (String.eqb pattern "default") && Py.startswith path pattern
      then pattern
      else first_matching_pattern rest path
  end.

Definition _get_endpoint_pattern (path : string) : string :=
  first_matching_pattern (map fst circuit_configs) path.

Definition _get_circuit_config (pattern : string) : CircuitBreakerConfig :=
  dict_get circuit_configs pattern default_circuit_config.

Definition _get_retry_config (pattern : string) : RetryConfig :=
  dict_get retry_configs pattern default_retry_config.

(** *** The circuit record and the shared store

    Every dictionary the middleware writes under a circuit key carries the
    four keys ["state"], ["failure_count"], ["success_count"] and
    ["last_failure_time"], so the dictionary is a record here. *)

Record CircuitData := {
  state : CircuitState;
  failure_count : Z;
  success_count : Z;
  last_failure_time : Q
}.

(** The dictionary written when no record is found. *)
Definition fresh_circuit_data : CircuitData :=
  {| state := CLOSED; failure_count := 0; success_count := 0;
     last_failure_time := 0 |}.

(** [RedisCacheManager]: a value lives until [ttl] seconds after it was
    set ([setex], and [expiry > utcnow()] in the local fallback).  Keys are
    the joined key parts; the MD5 digest [_generate_key] applies to them is
    taken to be injective.  [get] and [set] catch their own exceptions. *)
Record CacheEntry := { entry_value : CircuitData; entry_expiry : Q }.

Abbreviation Cache := (gmap string CacheEntry).

Definition cache_get (c : Cache) (key : string) (now : Q) : option CircuitData :=
  match c !! key with
  | Some e => if Clock.ltb now (entry_expiry e) then Some (entry_value e) else None
  | None => None
  end.

Definition cache_set (c : Cache) (key : string) (v : CircuitData) (ttl : Z)
    (now : Q) : Cache :=
  <[ key := {| entry_value := v; entry_expiry := (now + inject_Z ttl)%Q |} ]> c.

Definition circuit_key (endpoint_pattern : string) : string :=
  ("circuit:" ++ endpoint_pattern)%string.

(** [_check_circuit_breaker]: the admission decision and the store after
    the call.  [cm = None] is [self.cache_manager] not being available. *)
Definition _check_circuit_breaker (cm : option Cache) (endpoint_pattern : string)
    (config : CircuitBreakerConfig) (now : Q) : bool * option Cache :=
  match cm with
  | None => (true, None)
  | Some c =>
      let key := circuit_key endpoint_pattern in
      match cache_get c key now with
      | None => (true, cm)
      | Some circuit_data =>
          match state circuit_data with
          | CLOSED => (true, cm)
          | OPEN =>
              if Clock.geb (now - last_failure_time circuit_data)%Q
                           (inject_Z (recovery_timeout config))
              then
                let circuit_data' :=
                  {| state := HALF_OPEN;
                     failure_count := failure_count circuit_data;
                     success_count := 0;
                     last_failure_time := last_failure_time circuit_data |} in
                (true, Some (cache_set c key circuit_data'
                               (monitoring_window config) now))
              else (false, cm)
          | HALF_OPEN => (true, cm)
          end
      end
  end.

Definition _record_circuit_success (cm : option Cache) (endpoint_pattern : string)
    (config : CircuitBreakerConfig) (now : Q) : option Cache :=
  match cm with
  | None => None
  | Some c =>
      let key := circuit_key endpoint_pattern in
      let circuit_data :=
        match cache_get c key now with
        | None => fresh_circuit_data
        | Some d => d
        end in
      let st := state circuit_data in
      let success_count' := success_count circuit_data + 1 in
      let circuit_data' :=
        match st with
        | HALF_OPEN =>
            if success_count' >=? success_threshold config
            then fresh_circuit_data
            else {| state := state circuit_data;
                    failure_count := failure_count circuit_data;
                    success_count := success_count';
                    last_failure_time := last_failure_time circuit_data |}
        | _ => circuit_data
        end in
      Some (cache_set c key circuit_data' (monitoring_window config) now)
  end.

Definition _record_circuit_failure (cm : option Cache) (endpoint_pattern : string)
    (config : CircuitBreakerConfig) (now : Q) : option Cache :=
  match cm with
  | None => None
  | Some c =>
      let key := circuit_key endpoint_pattern in
      let circuit_data :=
        match cache_get c key now with
        | None => fresh_circuit_data
        | Some d => d
        end in
      let st := state circuit_data in
      let failure_count' := failure_count circuit_data + 1 in
      let state' :=
        if negb (CircuitState_eqb st OPEN)
           && (failure_count' >=? failure_threshold config)
        then OPEN
        else if CircuitState_eqb st HALF_OPEN then OPEN
        else st in
      let circuit_data' :=
        {| state := state'; failure_count := failure_count';
           success_count := 0; last_failure_time := now |} in
      Some (cache_set c key circuit_data' (monitoring_window config) now)
  end.

(** The state an endpoint class is seen in at a clock reading: an absent or
    expired record is read as [CLOSED], as the admission check does. *)
Definition circuit_record (cm : option Cache) (endpoint_pattern : string)
    (now : Q) : option CircuitData :=
  match cm with
  | None => None
  | Some c => cache_get c (circuit_key endpoint_pattern) now
  end.

(** *** Failures, classification and the error envelope *)

(** A raised exception.  [str_of_error] is [str(error)]: for an
    [HTTPException] the framework prints the status code and the detail. *)
Inductive PyError :=
  | HTTPException (status_code : Z) (detail : string)
  | OtherError (text : string).

Definition str_of_error (e : PyError) : string :=
  match e with
  | HTTPException sc d => (Py.str_of_Z sc ++ ": " ++ d)%string
  | OtherError t => t
  end.

(** The text-matching tail of [_classify_error]. *)
Definition classify_by_text (error : PyError)
    : ErrorType * Z * string * option string :=
  let error_str := Py.lower (str_of_error error) in
  if Py.contains "timeout" error_str || Py.contains "timed out" error_str
  then (TIMEOUT, 408, error_messages TIMEOUT, Some (str_of_error error))
  else if Py.contains "connection" error_str || Py.contains "network" error_str
  then (NETWORK, 503, error_messages NETWORK, Some (str_of_error error))
  else if Py.contains "database" error_str || Py.contains "sql" error_str
  then (DATABASE, 503, error_messages DATABASE, None)
  else if Py.contains "api" error_str
          && (Py.contains "external" error_str || Py.contains "third" error_str)
  then (EXTERNAL_API, 503, error_messages EXTERNAL_API, None)
  else (INTERNAL_SERVER, 500, error_messages INTERNAL_SERVER, None).

(** [_classify_error]: kind, status code, user message, detail. *)
Definition _classify_error (error : PyError)
    : ErrorType * Z * string * option string :=
  match error with
  | HTTPException sc d =>
      if sc =? 400 then (VALIDATION, sc, error_messages VALIDATION, Some d)
      else if sc =? 401 then (AUTHENTICATION, sc, error_messages AUTHENTICATION, None)
      else if sc =? 403 then (AUTHORIZATION, sc, error_messages AUTHORIZATION, None)
      else if sc =? 404 then (NOT_FOUND, sc, error_messages NOT_FOUND, None)
      else if sc =? 429 then (RATE_LIMIT, sc, error_messages RATE_LIMIT, None)
      else if sc >=? 500 then (INTERNAL_SERVER, sc, error_messages INTERNAL_SERVER, None)
      else classify_by_text error
  | OtherError _ => classify_by_text error
  end.

(** [ErrorResponse] *)
Record ErrorResponse := {
  er_error : bool;
  er_error_type : string;
  er_message : string;
  er_detail : option string;
  er_code : option string;
  er_timestamp : string;
  er_request_id : string;
  er_retry_after : option Z;
  er_help_url : option string
}.

Definition Headers := list (string * string).

(** [headers[k] = v] *)
Fixpoint set_header (h : Headers) (k v : string) : Headers :=
  match h with
  | [] => [(k, v)]
  | (k', v') :: rest =>
      if String.eqb k' k then (k, v) :: rest else (k', v') :: set_header rest k v
  end.

Fixpoint get_header (h : Headers) (k : string) : option string :=
  match h with
  | [] => None
  | (k', v') :: rest => if String.eqb k' k then Some v' else get_header rest k
  end.

Record Response := { resp_status : Z; resp_headers : Headers }.

Record JSONResponse := {
  json_status : Z;
  json_content : ErrorResponse;
  json_headers : Headers
}.

(** [_create_error_response]; [timestamp] is [datetime.utcnow().isoformat()]. *)
Definition _create_error_response (timestamp : string) (error_type : ErrorType)
    (message : string) (request_id : string) (status_code : Z)
    (detail : option string) (retry_after : option Z) : JSONResponse :=
  let error_response :=
    {| er_error := true;
       er_error_type := error_type_value error_type;
       er_message := message;
       er_detail := detail;
       er_code := Some ("E" ++ Py.str_of_Z status_code ++ "_"
                          ++ Py.upper (error_type_value error_type))%string;
       er_timestamp := timestamp;
       er_request_id := request_id;
       er_retry_after := retry_after;
       er_help_url := Some ("https://docs.langflow.org/errors#"
                          ++ Py.underscore_to_dash (error_type_value error_type))%string
    |} in
  let headers := [("X-Request-ID"%string, request_id)] in
  let headers :=
    match retry_after with
    | Some n => if n =? 0 then headers
                else set_header headers "Retry-After" (Py.str_of_Z n)
    | None => headers
    end in
  {| json_status := status_code; json_content := error_response;
     json_headers := headers |}.

(** [_handle_error] (logging left out). *)
Definition _handle_error (timestamp : string) (error : PyError)
    (request_id : string) : JSONResponse :=
  let '(error_type, status_code, user_message, detail) := _classify_error error in
  _create_error_response timestamp error_type user_message request_id
    status_code detail None.

(** *** The retry executor and [dispatch]

    The middleware's mutable surroundings: the shared store (after the
    lazy initialisation in [dispatch]; [None] when it could not be
    obtained), the wall clock, and the trace of what was done. *)

Inductive Event :=
  | EvAttempt (attempt : nat)
  | EvRecordSuccess
  | EvRecordFailure
  | EvSleep (delay : Q).

Record World := {
  cache_manager : option Cache;
  clock : Q;
  trace : list Event
}.

Definition emit (e : Event) (w : World) : World :=
  {| cache_manager := cache_manager w; clock := clock w;
     trace := trace w ++ [e] |}.

Definition advance (d : Q) (w : World) : World :=
  {| cache_manager := cache_manager w; clock := (clock w + d)%Q;
     trace := trace w |}.

Definition with_cache (cm : option Cache) (w : World) : World :=
  {| cache_manager := cm; clock := clock w; trace := trace w |}.

Definition record_success (endpoint_pattern : string)
    (config : CircuitBreakerConfig) (w : World) : World :=
  emit EvRecordSuccess
    (with_cache (_record_circuit_success (cache_manager w) endpoint_pattern
                   config (clock w)) w).

Definition record_failure (endpoint_pattern : string)
    (config : CircuitBreakerConfig) (w : World) : World :=
  emit EvRecordFailure
    (with_cache (_record_circuit_failure (cache_manager w) endpoint_pattern
                   config (clock w)) w).

(** What one call of the downstream handler does: it answers or raises,
    after [took] seconds. *)
Inductive AttemptOutcome :=
  | Responded (r : Response) (took : Q)
  | Threw (e : PyError) (took : Q).

Section Executor.

(** The downstream handler, by invocation number; the random source of
    [random.uniform(lo, hi)], by attempt; [f"{t:.3f}s"]. *)
Variable call_next : nat -> AttemptOutcome.
Variable uniform : nat -> Q -> Q -> Q.
Variable format_seconds : Q -> string.

Definition _calculate_retry_delay (attempt : nat) (config : RetryConfig) : Q :=
  let delay :=
    (initial_delay config * Qpower (exponential_base config) (Z.of_nat attempt))%Q in
  let delay := if Clock.ltb (max_delay config) delay then max_delay config else delay in
  let delay :=
    if jitter config
    then let jitter_range := (delay * (1 # 4))%Q in
         (delay + uniform attempt (- jitter_range) jitter_range)%Q
    else delay in
  if Clock.ltb (1 # 10) delay then delay else (1 # 10)%Q.

(** The pause after a failed attempt that is not the last one. *)
Definition pause_before_retry (attempt : nat) (retry_config : RetryConfig)
    (w : World) : World :=
  if Z.of_nat attempt <? Z.of_nat (max_attempts retry_config) - 1
  then let delay := _calculate_retry_delay attempt retry_config in
       advance delay (emit (EvSleep delay) w)
  else w.

(** The body of [for attempt in range(max_attempts)] and what follows the
    loop; [remaining] attempts are left, the next one is [attempt]. *)
Fixpoint retry_loop (endpoint_pattern : string) (retry_config : RetryConfig)
    (circuit_config : CircuitBreakerConfig) (request_id : string)
    (remaining attempt : nat) (last_exception : option PyError) (w : World)
    : (PyError + Response) * World :=
  match remaining with
  | O =>
      let w := record_failure endpoint_pattern circuit_config w in
      match last_exception with
      | Some e => (inl e, w)
      | None =>
          (inl (HTTPException 500 "Request failed after all retry attempts"), w)
      end
  | S remaining' =>
      let w := emit (EvAttempt attempt) w in
      match call_next attempt with
      | Responded response execution_time =>
          let w := advance execution_time w in
          if resp_status response <? 500
          then
            let w := record_success endpoint_pattern circuit_config w in
            let h := set_header (resp_headers response) "X-Request-ID" request_id in
            let h := set_header h "X-Execution-Time" (format_seconds execution_time) in
            let h := set_header h "X-Retry-Attempt"
                       (Py.str_of_Z (Z.of_nat attempt + 1)) in
            (inr {| resp_status := resp_status response; resp_headers := h |}, w)
          else
            let last_exception :=
              HTTPException (resp_status response)
                ("Server error: " ++ Py.str_of_Z (resp_status response)) in
            retry_loop endpoint_pattern retry_config circuit_config request_id
              remaining' (S attempt) (Some last_exception)
              (pause_before_retry attempt retry_config w)
      | Threw e execution_time =>
          let w := advance execution_time w in
          retry_loop endpoint_pattern retry_config circuit_config request_id
            remaining' (S attempt) (Some e)
            (pause_before_retry attempt retry_config w)
      end
  end.

Definition _execute_with_retry (endpoint_pattern : string)
    (retry_config : RetryConfig) (circuit_config : CircuitBreakerConfig)
    (request_id : string) (w : World) : (PyError + Response) * World :=
  retry_loop endpoint_pattern retry_config circuit_config request_id
    (max_attempts retry_config) 0%nat None w.

Inductive DispatchResult :=
  | Passed (r : Response)
  | ErrorEnvelope (j : JSONResponse)
  | Propagated (e : PyError).

(** [dispatch]; [request_id] is the fresh UUID, [timestamp] the time stamp
    an error envelope would carry. *)
Definition dispatch (path request_id timestamp : string) (w : World)
    : DispatchResult * World :=
  if _should_skip_error_handling path
  then
    let w := emit (EvAttempt 0) w in
    match call_next 0%nat with
    | Responded r took => (Passed r, advance took w)
    | Threw e took => (Propagated e, advance took w)
    end
  else
    let endpoint_pattern := _get_endpoint_pattern path in
    let circuit_config := _get_circuit_config endpoint_pattern in
    let retry_config := _get_retry_config endpoint_pattern in
    let '(allowed, cm) :=
      _check_circuit_breaker (cache_manager w) endpoint_pattern circuit_config
        (clock w) in
    let w := with_cache cm w in
    if negb allowed
    then
      (ErrorEnvelope
         (_create_error_response timestamp SERVICE_UNAVAILABLE
            "Service is temporarily unavailable due to high error rate"
            request_id 503 None (Some (recovery_timeout circuit_config))), w)
    else
      match _execute_with_retry endpoint_pattern retry_config circuit_config
              request_id w with
      | (inr response, w) => (Passed response, w)
      | (inl e, w) =>
          let w := record_failure endpoint_pattern circuit_config w in
          (ErrorEnvelope (_handle_error timestamp e request_id), w)
      end.

End Executor.

End ErrorHandling.

(** ** [middleware/rate_limiting.py] *)

Module RateLimiting.

(** [self.rate_limits], endpoint to [(requests, window_seconds)], in
    insertion order. *)
Definition rate_limits : list (string * (Z * Z)) :=
  [ ("default", (100, 60));
    ("/api/v1/login", (5, 60));
    ("/api/v1/register", (3, 3600));
    ("/api/v1/chat", (60, 60));
    ("/api/v1/flows", (30, 60));
    ("/api/v1/endpoints", (20, 60));
    ("/api/v1/files/upload", (10, 60));
    ("/api/v1/files/download", (20, 60));
    ("/api/v1/admin", (5, 60)) ]%string.

Fixpoint first_prefix (items : list (string * (Z * Z))) (path : string)
    : option (string * (Z * Z)) :=
  match items with
  | [] => None
  | (endpoint, limit) :: rest =>
      if Py.startswith path endpoint then Some (endpoint, limit)
      else first_prefix rest path
  end.

(** [_get_rate_limit]; the [method] argument is not used by the source. *)
Definition _get_rate_limit (path : string) : string * (Z * Z) :=
  match first_prefix rate_limits path with
  | Some r => r
  | None => ("default"%string, (100, 60))
  end.

(** [self.request_records]: a [defaultdict(deque)] of clock readings. *)
Abbreviation Records := (gmap string (list Q)).

Definition records_at (rr : Records) (key : string) : list Q :=
  default [] (rr !! key).

Definition record_key (client_id limit_key : string) : string :=
  (client_id ++ ":" ++ limit_key)%string.

(** [while d and d[0] < cutoff: d.popleft()] *)
Fixpoint popleft_while_older (d : list Q) (cutoff : Q) : list Q :=
  match d with
  | [] => []
  | x :: rest => if Clock.ltb x cutoff then popleft_while_older rest cutoff else d
  end.

(** [_check_rate_limit]; [now] is its [time.time()].  The background
    compaction task it starts is advisory and left out. *)
Definition _check_rate_limit (client_id path : string) (now : Q) (rr : Records)
    : bool * Records :=
  let '(limit_key, (max_requests, window_seconds)) := _get_rate_limit path in
  let key := record_key client_id limit_key in
  let d := popleft_while_older (records_at rr key) (now - inject_Z window_seconds)%Q in
  if Z.of_nat (length d) >=? max_requests
  then (false, <[ key := d ]> rr)
  else (true, <[ key := d ++ [now] ]> rr).

(** [_get_retry_after]; [now] is its own [time.time()]. *)
Definition _get_retry_after (client_id path : string) (now : Q) (rr : Records) : Z :=
  let '(limit_key, (_, window_seconds)) := _get_rate_limit path in
  let key := record_key client_id limit_key in
  match records_at rr key with
  | [] => 60
  | oldest_request :: _ =>
      let retry_after :=
        Clock.int_of (oldest_request + inject_Z window_seconds - now)%Q in
      Z.max 1 retry_after
  end.

Inductive Admission :=
  | Allowed
  | TooManyRequests (retry_after : Z).

(** The admission step of [dispatch]: a rejected request raises the 429
    [HTTPException] carrying [_get_retry_after], read at [now']. *)
Definition admission (client_id path : string) (now now' : Q) (rr : Records)
    : Admission * Records :=
  let '(ok, rr') := _check_rate_limit client_id path now rr in
  if ok then (Allowed, rr')
  else (TooManyRequests (_get_retry_after client_id path now' rr'), rr').

(** *** Client identity, response headers, compaction and [dispatch] *)

Definition skip_paths : list string :=
  [ "/health"; "/health_check"; "/api/v1/health"; "/api/v1/health_check";
    "/static/"; "/docs"; "/redoc"; "/openapi.json" ]%string.

Definition _should_skip_rate_limit (path : string) : bool :=
  existsb (fun skip_path => Py.startswith path skip_path) skip_paths.

(** What [_get_client_id] reads of a request: the identifier of
    [request.state.user] when there is such a user, the [X-API-Key],
    [Authorization] and [X-Forwarded-For] headers, and
    [request.client.host] when there is a client. *)
Record ClientInfo := {
  state_user_id : option string;
  header_api_key : option string;
  header_authorization : option string;
  header_forwarded_for : option string;
  client_host : option string
}.

(** The characters [str.strip()] removes from a header value (header
    values are decoded as Latin-1). *)
Definition is_space (c : ascii) : bool :=
  let n := nat_of_ascii c in
  ((9 <=? n)%nat && (n <=? 13)%nat) || ((28 <=? n)%nat && (n <=? 32)%nat)
  || (n =? 133)%nat || (n =? 160)%nat.

Fixpoint lstrip (s : string) : string :=
  match s with
  | String c rest => if is_space c then lstrip rest else s
  | EmptyString => EmptyString
  end.

(** [s.rstrip()]: a character stays when it is not a space or something
    that stays follows it. *)
Fixpoint rstrip (s : string) : string :=
  match s with
  | String c rest =>
      match rstrip rest with
      | EmptyString => if is_space c then EmptyString else String c EmptyString
      | kept => String c kept
      end
  | EmptyString => EmptyString
  end.

Definition strip (s : string) : string := rstrip (lstrip s).

(** [s.split(',')[0]] *)
Fixpoint before_comma (s : string) : string :=
  match s with
  | String c rest => if Ascii.eqb c "," then EmptyString else String c (before_comma rest)
  | EmptyString => EmptyString
  end.

(** [a or b] on optional header values. *)
Definition py_or (a b : option string) : option string :=
  if Py.truthy a then a else b.

(** [_get_client_id] *)
Definition _get_client_id (request : ClientInfo) : string :=
  match state_user_id request with
  | Some user_id => ("user:" ++ user_id)%string
  | None =>
      let api_key := py_or (header_api_key request) (header_authorization request) in
      if Py.truthy api_key
      then ("api_key:" ++ substring 0 16 (default EmptyString api_key))%string
      else if Py.truthy (header_forwarded_for request)
      then ("ip:" ++ strip (before_comma
                              (default EmptyString (header_forwarded_for request))))%string
      else ("ip:" ++ default "unknown"%string (client_host request))%string
  end.

(** The number [_add_rate_limit_headers] reports as remaining, and the
    store with the window pruned as the function leaves it. *)
Definition remaining_requests (client_id path : string) (now : Q) (rr : Records)
    : Z * Records :=
  let '(limit_key, (max_requests, window_seconds)) := _get_rate_limit path in
  let key := record_key client_id limit_key in
  let d := popleft_while_older (records_at rr key) (now - inject_Z window_seconds)%Q in
  (Z.max 0 (max_requests - Z.of_nat (length d)), <[ key := d ]> rr).

(** [_add_rate_limit_headers] *)
Definition _add_rate_limit_headers (response : ErrorHandling.Response)
    (client_id path : string) (now : Q) (rr : Records)
    : ErrorHandling.Response * Records :=
  let '(_, (max_requests, window_seconds)) := _get_rate_limit path in
  let '(remaining, rr') := remaining_requests client_id path now rr in
  let h := ErrorHandling.resp_headers response in
  let h := ErrorHandling.set_header h "X-RateLimit-Limit" (Py.str_of_Z max_requests) in
  let h := ErrorHandling.set_header h "X-RateLimit-Remaining" (Py.str_of_Z remaining) in
  let h := ErrorHandling.set_header h "X-RateLimit-Reset"
             (Py.str_of_Z (Clock.int_of (now + inject_Z window_seconds)%Q)) in
  ({| ErrorHandling.resp_status := ErrorHandling.resp_status response;
      ErrorHandling.resp_headers := h |}, rr').

(** One round of [_cleanup_old_records], at clock reading [now]: every
    window loses its leading readings older than an hour, and windows
    left empty are deleted. *)
Definition cleanup_round (now : Q) (rr : Records) : Records :=
  omap (fun records =>
          match popleft_while_older records (now - 3600)%Q with
          | [] => None
          | kept => Some kept
          end) rr.

(** What the downstream handler does when called. *)
Inductive HandlerOutcome :=
  | Returns (response : ErrorHandling.Response)
  | Raises (e : ErrorHandling.PyError).

Inductive DispatchResult :=
  | Through (response : ErrorHandling.Response)
  | RateLimited (retry_after : Z)
  | Propagates (e : ErrorHandling.PyError).

(** [dispatch]: [now] is the clock of the check, [now'] the clock when a
    refusal computes its [retry_after], [later] the clock when the headers
    are added, after the handler has returned. *)
Definition dispatch (call_next : HandlerOutcome) (request : ClientInfo)
    (path : string) (now now' later : Q) (rr : Records)
    : DispatchResult * Records :=
  if _should_skip_rate_limit path
  then (match call_next with
        | Returns response => Through response
        | Raises e => Propagates e
        end, rr)
  else
    let client_id := _get_client_id request in
    let '(ok, rr) := _check_rate_limit client_id path now rr in
    if negb ok
    then (RateLimited (_get_retry_after client_id path now' rr), rr)
    else
      match call_next with
      | Returns response =>
          let '(response, rr) :=
            _add_rate_limit_headers response client_id path later rr in
          (Through response, rr)
      | Raises e => (Propagates e, rr)
      end.

End RateLimiting.

(** ** [models/subscription/crud.py] and [services/billing/usage_service.py] *)

Module Usage.

Inductive MetricType :=
  | API_CALLS | FLOW_EXECUTIONS | STORAGE_MB | COMPUTE_MINUTES | TEAM_MEMBERS.

Definition MetricType_eqb (a b : MetricType) : bool :=
  match a, b with
  | API_CALLS, API_CALLS | FLOW_EXECUTIONS, FLOW_EXECUTIONS
  | STORAGE_MB, STORAGE_MB | COMPUTE_MINUTES, COMPUTE_MINUTES
  | TEAM_MEMBERS, TEAM_MEMBERS => true
  | _, _ => false
  end.

(** [MetricType.value] *)
Definition metric_value (m : MetricType) : string :=
  match m with
  | API_CALLS => "api_calls"
  | FLOW_EXECUTIONS => "flow_executions"
  | STORAGE_MB => "storage_mb"
  | COMPUTE_MINUTES => "compute_minutes"
  | TEAM_MEMBERS => "team_members"
  end.

Inductive SubscriptionStatus :=
  | ACTIVE | CANCELED | PAST_DUE | UNPAID | TRIALING | INCOMPLETE
  | INCOMPLETE_EXPIRED.

(** A UTC [datetime]. *)
Record DateTime := {
  year : Z; month : Z; day : Z; hour : Z; minute : Z; second : Z;
  microsecond : Z
}.

Definition dt_compare (a b : DateTime) : comparison :=
  match year a ?= year b with
  | Eq =>
    match month a ?= month b with
    | Eq =>
      match day a ?= day b with
      | Eq =>
        match hour a ?= hour b with
        | Eq =>
          match minute a ?= minute b with
          | Eq =>
            match second a ?= second b with
            | Eq => microsecond a ?= microsecond b
            | c => c
            end
          | c => c
          end
        | c => c
        end
      | c => c
      end
    | c => c
    end
  | c => c
  end.

Definition dt_leb (a b : DateTime) : bool :=
  match dt_compare a b with Gt => false | _ => true end.

(** A [Subscription] row with the [limits] of its plan (a JSON object from
    metric names to integers). *)
Record Subscription := {
  sub_organization_id : string;
  sub_status : SubscriptionStatus;
  sub_plan_limits : gmap string Z;
  current_period_start : DateTime;
  current_period_end : DateTime;
  sub_created_at : DateTime
}.

Record UsageMetric := {
  um_organization_id : string;
  um_metric_type : MetricType;
  um_value : Z;
  um_period_start : DateTime;
  um_period_end : DateTime
}.

(** The two tables the quota check reads; [db_available = false] makes
    every statement raise. *)
Record Database := {
  db_available : bool;
  subscriptions : list Subscription;
  usage_metrics : list UsageMetric
}.

Definition is_current (s : Subscription) : bool :=
  match sub_status s with
  | ACTIVE | TRIALING => true
  | _ => false
  end.

(** [ORDER BY created_at DESC] then [first()]. *)
Fixpoint newest (l : list Subscription) : option Subscription :=
  match l with
  | [] => None
  | s :: rest =>
      match newest rest with
      | Some s' => if dt_leb (sub_created_at s') (sub_created_at s)
                   then Some s else Some s'
      | None => Some s
      end
  end.

(** [SubscriptionCRUD.get_organization_subscription] *)
Definition get_organization_subscription (db : Database) (org_id : string)
    : option Subscription :=
  newest (List.filter (fun s => String.eqb (sub_organization_id s) org_id
                                && is_current s) (subscriptions db)).

(** [UsageMetricCRUD._get_current_billing_period]; [now] is
    [datetime.now(timezone.utc)]. *)
Definition _get_current_billing_period (db : Database) (organization_id : string)
    (now : DateTime) : DateTime * DateTime :=
  match get_organization_subscription db organization_id with
  | Some subscription =>
      (current_period_start subscription, current_period_end subscription)
  | None =>
      let period_start :=
        {| year := year now; month := month now; day := 1; hour := 0;
           minute := 0; second := 0; microsecond := 0 |} in
      let period_end :=
        if month now =? 12
        then {| year := year now + 1; month := 1; day := 1; hour := 0;
                minute := 0; second := 0; microsecond := 0 |}
        else {| year := year now; month := month now + 1; day := 1; hour := 0;
                minute := 0; second := 0; microsecond := 0 |} in
      (period_start, period_end)
  end.

Definition all_metric_types : list MetricType :=
  [ API_CALLS; FLOW_EXECUTIONS; STORAGE_MB; COMPUTE_MINUTES; TEAM_MEMBERS ].

Definition is_metric_name (k : string) : bool :=
  existsb (fun m => String.eqb (metric_value m) k) all_metric_types.

(** The validation of the field [limits: dict[MetricType, int]] when a
    [UsageSummary] is built: every key has to name a metric. *)
Definition valid_limits (l : gmap string Z) : bool :=
  forallb (fun kv => is_metric_name (fst kv)) (map_to_list l).

(** [UsageSummary]: [metrics] is the dictionary of the grouped sums (a
    metric without rows has no entry), [limits] the plan's limits. *)
Record UsageSummary := {
  us_period_start : DateTime;
  us_period_end : DateTime;
  metrics : MetricType -> option Z;
  limits : gmap string Z;
  usage_percentage : MetricType -> Q
}.

(** The rows [SELECT metric_type, SUM(value) ... GROUP BY metric_type]
    sums for one metric. *)
Definition rows_in_period (db : Database) (organization_id : string)
    (period_start period_end : DateTime) (m : MetricType) : list UsageMetric :=
  List.filter (fun r => String.eqb (um_organization_id r) organization_id
                        && dt_leb period_start (um_period_start r)
                        && dt_leb (um_period_end r) period_end
                        && MetricType_eqb (um_metric_type r) m)
              (usage_metrics db).

Definition usage_data (db : Database) (organization_id : string)
    (period_start period_end : DateTime) (m : MetricType) : option Z :=
  match rows_in_period db organization_id period_start period_end m with
  | [] => None
  | rows => Some (fold_right Z.add 0 (map um_value rows))
  end.

(** [UsageMetricCRUD.get_usage_summary] called without a period; [None]
    when building the [UsageSummary] raises. *)
Definition get_usage_summary (db : Database) (organization_id : string)
    (now : DateTime) : option UsageSummary :=
  let '(period_start, period_end) :=
    _get_current_billing_period db organization_id now in
  let usage := usage_data db organization_id period_start period_end in
  let limits :=
    match get_organization_subscription db organization_id with
    | Some subscription => sub_plan_limits subscription
    | None => ∅
    end in
  let percentage (m : MetricType) : Q :=
    let used := default 0 (usage m) in
    let limit := default 0 (limits !! metric_value m) in
    if limit >? 0 then ((inject_Z used / inject_Z limit) * 100)%Q else 0%Q in
  if valid_limits limits
  then Some {| us_period_start := period_start; us_period_end := period_end;
               metrics := usage; limits := limits;
               usage_percentage := percentage |}
  else None.

(** [UsageMetricCRUD.check_usage_limit]:
    (may be used, current usage, limit); [None] when the summary raises. *)
Definition check_usage_limit (db : Database) (organization_id : string)
    (metric_type : MetricType) (increment : Z) (now : DateTime)
    : option (bool * Z * Z) :=
  match get_usage_summary db organization_id now with
  | Some summary =>
      let current_usage := default 0 (metrics summary metric_type) in
      let limit := default 0 (limits summary !! metric_value metric_type) in
      if limit =? -1 then Some (true, current_usage, limit)
      else
        let can_use := current_usage + increment <=? limit in
        Some (can_use, current_usage, limit)
  | None => None
  end.

(** The dictionary [check_quota] returns next to its verdict. *)
Inductive QuotaInfo :=
  | Quota (metric_type : string) (current_usage limit requested_amount
           remaining : Z) (unlimited : bool)
  | QuotaError (default_allowed : bool).

(** [UsageService.check_quota] *)
Definition check_quota (db : Database) (organization_id : string)
    (metric_type : MetricType) (requested_amount : Z) (now : DateTime)
    : bool * QuotaInfo :=
  if db_available db
  then
    match check_usage_limit db organization_id metric_type requested_amount now with
    | Some (can_use, current_usage, limit) =>
        let quota_info :=
          Quota (metric_value metric_type) current_usage limit requested_amount
            (if limit >? 0 then limit - current_usage else -1)
            (limit =? -1) in
        (can_use, quota_info)
    | None => (true, QuotaError true)
    end
  else (true, QuotaError true).

(** *** Recording usage *)

(** [UsageMetricCRUD.record_usage]: the row is added with the billing
    period of the moment; [None] when a statement raises. *)
Definition record_usage (db : Database) (organization_id : string)
    (metric_type : MetricType) (value : Z) (now : DateTime) : option Database :=
  if db_available db
  then
    let '(period_start, period_end) :=
      _get_current_billing_period db organization_id now in
    let metric :=
      {| um_organization_id := organization_id; um_metric_type := metric_type;
         um_value := value; um_period_start := period_start;
         um_period_end := period_end |} in
    Some {| db_available := db_available db;
            subscriptions := subscriptions db;
            usage_metrics := usage_metrics db ++ [metric] |}
  else None.

(** [UsageService._track_usage]: the verdict of [check_quota] is logged
    only; the result is whether the usage was recorded. *)
Definition _track_usage (db : Database) (organization_id : string)
    (metric_type : MetricType) (value : Z) (now : DateTime) : bool * Database :=
  let '(can_use, quota_info) :=
    check_quota db organization_id metric_type value now in
  match record_usage db organization_id metric_type value now with
  | Some db' => (true, db')
  | None => (false, db)
  end.

Definition track_api_call (db : Database) (organization_id : string)
    (now : DateTime) : bool * Database :=
  _track_usage db organization_id API_CALLS 1 now.

(** [track_flow_execution]; [now] and [now'] are the moments of the two
    recordings. *)
Definition track_flow_execution (db : Database) (organization_id : string)
    (execution_time_ms : Z) (now now' : DateTime) : bool * Database :=
  let '(success, db) := _track_usage db organization_id FLOW_EXECUTIONS 1 now in
  let compute_minutes := Z.max 1 (execution_time_ms / 60000) in
  let '(_, db) :=
    _track_usage db organization_id COMPUTE_MINUTES compute_minutes now' in
  (success, db).

Definition track_storage_usage (db : Database) (organization_id : string)
    (size_mb : Z) (now : DateTime) : bool * Database :=
  _track_usage db organization_id STORAGE_MB size_mb now.

Definition track_team_member (db : Database) (organization_id : string)
    (action : string) (now : DateTime) : bool * Database :=
  let value := if String.eqb action "add" then 1 else -1 in
  _track_usage db organization_id TEAM_MEMBERS value now.

End Usage.

(** ** [services/cache/redis_cache.py]: the manager without Redis

    When Redis cannot be reached [initialize] leaves [is_connected] false
    and the manager works on [self._local_cache] alone: a dictionary, in
    insertion order, from the generated key to the pair of the value and
    the moment it expires.  Keys are the generated ones; values are taken
    to be serializable. *)

Module LocalCache.

Section Manager.

Variable V : Type.

Definition Entry : Type := string * (V * Q).

Definition entry_key (e : Entry) : string := fst e.
Definition entry_expiry (e : Entry) : Q := snd (snd e).

(** [d.get(key)], [d[key] = item] and [del d[key]] on the dictionary. *)
Fixpoint dict_lookup (d : list Entry) (key : string) : option (V * Q) :=
  match d with
  | [] => None
  | (k, item) :: rest => if String.eqb k key then Some item else dict_lookup rest key
  end.

Fixpoint dict_store (d : list Entry) (key : string) (item : V * Q) : list Entry :=
  match d with
  | [] => [(key, item)]
  | (k, old) :: rest =>
      if String.eqb k key then (key, item) :: rest
      else (k, old) :: dict_store rest key item
  end.

Definition dict_remove (d : list Entry) (key : string) : list Entry :=
  List.filter (fun e => negb (String.eqb (entry_key e) key)) d.

(** [sorted(items, key=expiry, reverse=True)]: the sort is stable, items
    of equal expiry keep their order. *)
Fixpoint insert_by_expiry (e : Entry) (sorted : list Entry) : list Entry :=
  match sorted with
  | [] => [e]
  | e' :: rest =>
      if Clock.ltb (entry_expiry e) (entry_expiry e')
      then e' :: insert_by_expiry e rest
      else e :: sorted
  end.

Definition sorted_by_expiry_desc (d : list Entry) : list Entry :=
  fold_right insert_by_expiry [] d.

(** [_cleanup_local_cache] *)
Definition _cleanup_local_cache (d : list Entry) (current_time : Q) : list Entry :=
  let d :=
    List.filter (fun e => negb (Qle_bool (entry_expiry e) current_time)) d in
  if (500 <? length d)%nat
  then firstn 500 (sorted_by_expiry_desc d)
  else d.

(** [get]: the value, and the dictionary afterwards (an entry found
    expired is deleted). *)
Definition get (d : list Entry) (key : string) (now : Q)
    : option V * list Entry :=
  match dict_lookup d key with
  | Some (value, expiry) =>
      if Clock.ltb now expiry then (Some value, d)
      else (None, dict_remove d key)
  | None => (None, d)
  end.

(** [set]; [now'] is the clock when the cleanup runs. *)
Definition set (d : list Entry) (key : string) (value : V) (ttl : Z)
    (now now' : Q) : bool * list Entry :=
  let expiry := (now + inject_Z ttl)%Q in
  let d := dict_store d key (value, expiry) in
  let d := if (1000 <? length d)%nat then _cleanup_local_cache d now' else d in
  (true, d).

(** [delete] *)
Definition delete (d : list Entry) (key : string) : bool * list Entry :=
  (true, dict_remove d key).

End Manager.

End LocalCache.

(** ** [decorators/quota.py] *)

Module QuotaDecorators.

Import Usage.

(** What one call of the decorated endpoint function does.  What the
    function itself writes to the tables is not part of the wrappers. *)
Inductive Completion (A : Type) :=
  | Returned (a : A)
  | RaisedHTTP (status_code : Z)
  | RaisedOther.

Arguments Returned {A} a.
Arguments RaisedHTTP {A} status_code.
Arguments RaisedOther {A}.

(** What a wrapper does: it returns the result of the function, raises
    [HTTPException(429)] or [HTTPException(403)] of its own, or lets an
    exception of the function out. *)
Inductive Wrapped (A : Type) :=
  | Result (a : A)
  | QuotaExceeded (message : string) (quota_info : QuotaInfo)
  | SubscriptionRequired (message required_plan current_plan : string)
  | LetOutHTTP (status_code : Z)
  | LetOutOther.

Arguments Result {A} a.
Arguments QuotaExceeded {A} message quota_info.
Arguments SubscriptionRequired {A} message required_plan current_plan.
Arguments LetOutHTTP {A} status_code.
Arguments LetOutOther {A}.

(** [return await func(...)] *)
Definition returning {A} (c : Completion A) : Wrapped A :=
  match c with
  | Returned a => Result a
  | RaisedHTTP status_code => LetOutHTTP status_code
  | RaisedOther => LetOutOther
  end.

(** The keyword arguments the wrappers look at: whether one of them is an
    [AsyncSession], and the string passed as [org_id] or
    [organization_id]. *)
Record Kwargs := {
  has_session : bool;
  kw_org_id : option string
}.

(** [session and org_id] *)
Definition checkable (kwargs : Kwargs) : option string :=
  if has_session kwargs
  then match kw_org_id kwargs with
       | Some org_id => if Py.truthy (Some org_id) then Some org_id else None
       | None => None
       end
  else None.

(** [a or b] on an optional message *)
Definition message_or (error_message : option string) (default : string)
    : string :=
  match error_message with
  | Some message => if Py.truthy (Some message) then message else default
  | None => default
  end.

Section Wrappers.

Context {A : Type}.

(** The decorated function, by the number of the call. *)
Variable func : nat -> Completion A.

(** [check_quota(metric_type, amount, error_message)(func)]: the outcome,
    the number of calls of the function, and the tables afterwards; [now]
    and [now'] are the moments of the check and of the recording. *)
Definition check_quota_wrapper (metric_type : MetricType) (amount : Z)
    (error_message : option string) (kwargs : Kwargs) (db : Database)
    (now now' : DateTime) : Wrapped A * nat * Database :=
  match checkable kwargs with
  | None => (returning (func 0%nat), 1%nat, db)
  | Some org_id =>
      let '(can_use, quota_info) :=
        check_quota db org_id metric_type amount now in
      if negb can_use
      then
        let message :=
          message_or error_message
            ("Usage quota exceeded for " ++ metric_value metric_type) in
        (QuotaExceeded message quota_info, 0%nat, db)
      else
        match func 0%nat with
        | Returned result =>
            let '(_, db) := _track_usage db org_id metric_type amount now' in
            (Result result, 1%nat, db)
        | RaisedHTTP status_code => (LetOutHTTP status_code, 1%nat, db)
        | RaisedOther => (returning (func 1%nat), 2%nat, db)
        end
  end.

(** [track_usage(metric_type, amount)(func)] *)
Definition track_usage_wrapper (metric_type : MetricType) (amount : Z)
    (kwargs : Kwargs) (db : Database) (now : DateTime)
    : Wrapped A * nat * Database :=
  match func 0%nat with
  | Returned result =>
      match checkable kwargs with
      | Some org_id =>
          let '(_, db) := _track_usage db org_id metric_type amount now in
          (Result result, 1%nat, db)
      | None => (Result result, 1%nat, db)
      end
  | RaisedHTTP status_code => (LetOutHTTP status_code, 1%nat, db)
  | RaisedOther => (LetOutOther, 1%nat, db)
  end.

Definition plan_hierarchy : list (string * Z) :=
  [ ("free", 0); ("basic", 1); ("professional", 2); ("enterprise", 3) ]%string.

(** [require_subscription(min_plan_type, error_message)(func)];
    [plan_type] is [subscription.plan.plan_type.value]. *)
Definition require_subscription_wrapper (plan_type : Subscription -> string)
    (min_plan_type : string) (error_message : option string)
    (kwargs : Kwargs) (db : Database) : Wrapped A * nat :=
  let message :=
    message_or error_message
      ("This feature requires a " ++ min_plan_type ++ " subscription") in
  match checkable kwargs with
  | Some org_id =>
      if db_available db
      then
        match get_organization_subscription db org_id with
        | None => (SubscriptionRequired message min_plan_type "free", 0%nat)
        | Some subscription =>
            let current_level :=
              ErrorHandling.dict_get plan_hierarchy (plan_type subscription) 0 in
            let required_level :=
              ErrorHandling.dict_get plan_hierarchy min_plan_type 1 in
            if current_level <? required_level
            then (SubscriptionRequired message min_plan_type
                    (plan_type subscription), 0%nat)
            else (returning (func 0%nat), 1%nat)
        end
      else (returning (func 0%nat), 1%nat)
  | None => (returning (func 0%nat), 1%nat)
  end.

End Wrappers.

End QuotaDecorators.

(** ** [middleware/usage_tracking.py] *)

Module UsageTracking.

Import Usage.

(** The keys of [self.tracked_endpoints] (all mapped to API calls), and
    [self.quota_enforced_endpoints]. *)
Definition tracked_endpoints : list string :=
  [ "/api/v1/chat"; "/api/v1/flows"; "/api/v1/endpoints"; "/api/v1/validate" ]%string.

Definition quota_enforced_endpoints : list string :=
  [ "/api/v1/chat"; "/api/v1/flows/run"; "/api/v1/endpoints/run" ]%string.

Definition _should_track_endpoint (path : string) : bool :=
  existsb (fun tracked_path => Py.startswith path tracked_path) tracked_endpoints.

Definition _should_enforce_quota (path : string) : bool :=
  existsb (fun enforced_path => Py.startswith path enforced_path)
          quota_enforced_endpoints.

(** What the middleware reads of a request. *)
Record Request := {
  url_path : string;
  header_org_id : option string;
  query_org_id : option string;
  state_user_id : option string;
  has_db_session : bool
}.

(** [_get_organization_id]; [user_organizations] is what
    [OrganizationCRUD.get_user_organizations] gives, [None] when it
    raises. *)
Definition _get_organization_id (user_organizations : string -> option (list string))
    (request : Request) : option string :=
  if Py.truthy (header_org_id request) then header_org_id request
  else if Py.truthy (query_org_id request) then query_org_id request
  else
    match state_user_id request with
    | Some user_id =>
        if Py.truthy (Some user_id) && has_db_session request
        then match user_organizations user_id with
             | Some (org :: _) => Some org
             | Some [] => None
             | None => None
             end
        else None
    | None => None
    end.

(** The moments of the quota check and of the three recordings. *)
Record Readings := {
  at_check : DateTime;
  at_api_call : DateTime;
  at_execution : DateTime;
  at_minutes : DateTime
}.

(** [_track_request_usage]: nothing without a session; the exceptions of
    the recordings are caught where they are made. *)
Definition _track_request_usage (request : Request) (org_id : string)
    (execution_time_ms : Z) (t : Readings) (db : Database) : Database :=
  if has_db_session request
  then
    let '(_, db) := track_api_call db org_id (at_api_call t) in
    if Py.contains "run" (url_path request)
       || Py.contains "execute" (url_path request)
    then snd (track_flow_execution db org_id execution_time_ms
                (at_execution t) (at_minutes t))
    else db
  else db.

Inductive Outcome :=
  | Answered (status_code : Z)
  | QuotaExceeded (quota_info : QuotaInfo)
  | Raised.

Section Dispatch.

(** The downstream handler, by the number of the call: the status it
    answers with, [None] when it raises. *)
Variable call_next : nat -> option Z.

(** [return await call_next(request)] *)
Definition passing (n : nat) : Outcome :=
  match call_next n with
  | Some status_code => Answered status_code
  | None => Raised
  end.

(** [dispatch]: the outcome, the number of calls of the handler, and the
    tables afterwards. *)
Definition dispatch (user_organizations : string -> option (list string))
    (request : Request) (execution_time_ms : Z) (t : Readings) (db : Database)
    : Outcome * nat * Database :=
  if negb (_should_track_endpoint (url_path request))
  then (passing 0%nat, 1%nat, db)
  else
    match _get_organization_id user_organizations request with
    | None => (passing 0%nat, 1%nat, db)
    | Some org_id =>
        if negb (Py.truthy (Some org_id)) then (passing 0%nat, 1%nat, db)
        else
          let '(can_use, quota_info) :=
            if _should_enforce_quota (url_path request)
            then
              if has_db_session request
              then check_quota db org_id API_CALLS 1 (at_check t)
              else (true, QuotaError true)
            else (true, QuotaError true) in
          if negb can_use
          then (QuotaExceeded quota_info, 0%nat, db)
          else
            match call_next 0%nat with
            | Some status_code =>
                if (200 <=? status_code) && (status_code <? 300)
                then (Answered status_code, 1%nat,
                      _track_request_usage request org_id execution_time_ms t db)
                else (Answered status_code, 1%nat, db)
            | None => (passing 1%nat, 2%nat, db)
            end
    end.

End Dispatch.

End UsageTracking.

(** ** [middleware/tenant_context.py] *)

Module TenantContext.

Definition excluded_paths : list string :=
  [ "/api/v1/login"; "/api/v1/users"; "/api/v1/billing/organizations";
    "/api/v1/billing/plans"; "/docs"; "/openapi.json"; "/health" ]%string.

Definition skip_prefixes : list string :=
  [ "/docs"; "/static"; "/_internal"; "/health" ]%string.

Definition _should_skip_path (path : string) : bool :=
  existsb (String.eqb path) excluded_paths
  || existsb (fun prefix => Py.startswith path prefix) skip_prefixes.

(** What the middleware reads of a request: the [X-Organization-ID]
    header, [path_params['org_id']], the [org_id] query parameter,
    [request.state.user_id], and whether [request.state.db_session] holds
    an [AsyncSession]. *)
Record Request := {
  url_path : string;
  header_org_id : option string;
  path_param_org_id : option string;
  query_org_id : option string;
  state_user_id : option string;
  has_db_session : bool
}.

(** A database session, as the statements of the middleware leave it: its
    [row_security] setting and the tenant that [set_current_tenant] stored
    in it.  What the pool does to a session it takes back is not part of
    the middleware. *)
Record Session := {
  row_security : bool;
  current_tenant : option string
}.

Definition fresh_session : Session :=
  {| row_security := true; current_tenant := None |}.

(** How the database answers during the request.  [false] and [None] are
    statements that raise. *)
Record Database := {
  get_session_ok : bool;
  set_row_security_ok : bool -> bool;
  get_user_organizations : string -> option (list string);
  set_current_tenant_ok : string -> bool
}.

(** Statements run against a session: the session afterwards, and the
    value or [None] when the statement raised. *)
Definition Stmt (A : Type) : Type := Session -> Session * option A.

Definition ret {A} (a : A) : Stmt A := fun s => (s, Some a).

Definition bind {A B} (m : Stmt A) (k : A -> Stmt B) : Stmt B :=
  fun s => match m s with
           | (s', Some a) => k a s'
           | (s', None) => (s', None)
           end.

Notation "'let*' x := m 'in' k" := (bind m (fun x => k))
  (at level 10, x name, m at level 100, k at level 200).
Notation "'run' m 'then' k" := (bind m (fun _ => k))
  (at level 10, m at level 100, k at level 200).

(** [session.exec(text("SET row_security = ..."))] *)
Definition exec_set_row_security (db : Database) (v : bool) : Stmt unit :=
  fun s => if set_row_security_ok db v
           then ({| row_security := v; current_tenant := current_tenant s |}, Some tt)
           else (s, None).

(** [OrganizationCRUD.get_user_organizations(session, user_id)], as the
    identifiers of the organizations found. *)
Definition exec_get_user_organizations (db : Database) (user_id : string)
    : Stmt (list string) :=
  fun s => (s, get_user_organizations db user_id).

(** [session.exec(text(f"SELECT set_current_tenant('{org_id}')"))] *)
Definition exec_set_current_tenant (db : Database) (org_id : string) : Stmt unit :=
  fun s => if set_current_tenant_ok db org_id
           then ({| row_security := row_security s; current_tenant := Some org_id |}, Some tt)
           else (s, None).

(** [async with get_session() as session: body]: the value of the body
    ([None] when acquiring the session or the body raised) and the
    sessions given back, as they were left. *)
Definition with_session {A} (db : Database) (body : Stmt A)
    : option A * list Session :=
  if get_session_ok db
  then let '(s, r) := body fresh_session in (r, [s])
  else (None, []).

(** [_get_user_default_organization] *)
Definition _get_user_default_organization (db : Database) (user_id : string)
    : option string * list Session :=
  let '(r, released) :=
    with_session db
      (run exec_set_row_security db false then
       let* user_orgs := exec_get_user_organizations db user_id in
       run exec_set_row_security db true then
       ret (match user_orgs with
            | org :: _ => Some org
            | [] => None
            end)) in
  match r with
  | Some found => (found, released)
  | None => (None, released)
  end.

(** [_extract_organization_id] *)
Definition _extract_organization_id (db : Database) (request : Request)
    : option string * list Session :=
  if Py.truthy (header_org_id request) then (header_org_id request, [])
  else match path_param_org_id request with
       | Some org_id => (Some org_id, [])
       | None =>
           if Py.truthy (query_org_id request) then (query_org_id request, [])
           else match state_user_id request with
                | Some user_id =>
                    if Py.truthy (Some user_id)
                    then _get_user_default_organization db user_id
                    else (None, [])
                | None => (None, [])
                end
       end.

(** [_validate_organization_access] *)
Definition _validate_organization_access (db : Database) (request : Request)
    (org_id : string) : bool * list Session :=
  match state_user_id request with
  | Some user_id =>
      if Py.truthy (Some user_id)
      then
        let '(r, released) :=
          with_session db
            (run exec_set_row_security db false then
             let* user_orgs := exec_get_user_organizations db user_id in
             run exec_set_row_security db true then
             ret (existsb (fun org => String.eqb org org_id) user_orgs)) in
        match r with
        | Some verdict => (verdict, released)
        | None => (false, released)
        end
      else (true, [])
  | None => (true, [])
  end.

(** [_set_tenant_context], on the session of the request: [None] when the
    statement raised (the exception is raised again), otherwise the session
    afterwards. *)
Definition _set_tenant_context (db : Database) (request : Request)
    (org_id : string) (session : Session) : option Session :=
  if has_db_session request
  then match exec_set_current_tenant db org_id session with
       | (s, Some _) => Some s
       | (_, None) => None
       end
  else Some session.

(** What the downstream handler finds when it is called:
    [request.state.current_organization_id] and the tenant stored in the
    session of the request. *)
Record Invocation := {
  seen_organization_id : option string;
  seen_session_tenant : option string
}.

Inductive Outcome :=
  | Forbidden
  | Answered (status : Z)
  | Raised.

Section Dispatch.

(** The downstream handler, by the number of the call and by what it
    finds: the status it answers with, [None] when it raises.  A second
    call need not do what the first one did. *)
Variable call_next : nat -> Invocation -> option Z.

(** [return await call_next(request)], as call number [n]. *)
Definition invoke (n : nat) (i : Invocation) : Outcome :=
  match call_next n i with
  | Some status => Answered status
  | None => Raised
  end.

(** The [except Exception] arm of [dispatch]: the handler is called, after
    the [calls] already made, with the request state as it is, and what
    that call does is what [dispatch] does. *)
Definition on_exception (calls : list Invocation) (i : Invocation)
    : list Invocation * Outcome :=
  (calls ++ [i], invoke (length calls) i).

(** The call inside the [try]. *)
Definition guarded_call (i : Invocation) : list Invocation * Outcome :=
  match call_next 0%nat i with
  | Some status => ([i], Answered status)
  | None => on_exception [i] i
  end.

(** [dispatch]: the calls made to the handler, the outcome, and the
    sessions the membership lookups gave back. *)
Definition dispatch (db : Database) (request : Request)
    : list Invocation * Outcome * list Session :=
  let nothing := {| seen_organization_id := None; seen_session_tenant := None |} in
  if _should_skip_path (url_path request)
  then ([nothing], invoke 0%nat nothing, [])
  else
    let '(org_id, released1) := _extract_organization_id db request in
    match org_id with
    | Some org =>
        if Py.truthy org_id
        then
          let '(ok, released2) := _validate_organization_access db request org in
          if ok
          then
            match _set_tenant_context db request org fresh_session with
            | Some session =>
                (guarded_call {| seen_organization_id := Some org;
                                 seen_session_tenant := current_tenant session |},
                 released1 ++ released2)
            | None => (on_exception [] nothing, released1 ++ released2)
            end
          else ([], Forbidden, released1 ++ released2)
        else (guarded_call nothing, released1)
    | None => (guarded_call nothing, released1)
    end.

End Dispatch.

(** *** [TenantContextManager], and the dependencies of the handlers *)

(** [SELECT set_current_tenant(...)] stores its argument in
    [app.current_organization_id] with [set_config]; [SELECT
    get_current_tenant()] reads it back with [current_setting(..., true)],
    which is NULL when nothing was stored.  [ok] is whether the statement
    runs. *)
Definition exec_get_current_tenant (ok : bool) : Stmt (option string) :=
  fun s => if ok then (s, Some (current_tenant s)) else (s, None).

(** [set_organization_context]: the exception is logged and raised again. *)
Definition set_organization_context (db : Database) (org_id : string)
    : Stmt unit :=
  exec_set_current_tenant db org_id.

(** [clear_organization_context]: the exception is logged only. *)
Definition clear_organization_context (db : Database) : Stmt unit :=
  fun s => (fst (exec_set_current_tenant db EmptyString s), Some tt).

(** [get_current_organization]: [org_id if org_id else None], and [None]
    when the statement raised. *)
Definition get_current_organization (ok : bool) : Stmt (option string) :=
  fun s => match exec_get_current_tenant ok s with
           | (s', Some org_id) =>
               (s', Some (if Py.truthy org_id then org_id else None))
           | (s', None) => (s', Some None)
           end.

(** [bypass_rls] and [enable_rls]: the exception is logged only. *)
Definition bypass_rls (db : Database) : Stmt unit :=
  fun s => (fst (exec_set_row_security db false s), Some tt).

Definition enable_rls (db : Database) : Stmt unit :=
  fun s => (fst (exec_set_row_security db true s), Some tt).

(** [get_current_organization_id] and [require_organization_context], on
    what the handler finds in the request state: the latter raises
    [HTTPException(400)] when there is no organization. *)
Definition get_current_organization_id (i : Invocation) : option string :=
  seen_organization_id i.

Definition require_organization_context (i : Invocation)
    : ErrorHandling.PyError + string :=
  match seen_organization_id i with
  | Some org_id =>
      if Py.truthy (Some org_id) then inr org_id
      else inl (ErrorHandling.HTTPException 400
                  "Organization context is required for this operation")
  | None =>
      inl (ErrorHandling.HTTPException 400
             "Organization context is required for this operation")
  end.

End TenantContext.

(** ** [models/flow/crud.py]: the queries that go around row security *)

Module FlowCRUD.

Import TenantContext.

Section Queries.

(** The rows a query over [Flow] gives. *)
Variable Flow : Type.

(** [await session.exec(stmt)] followed by [fetchall()]: the rows the
    statement gives on the session as it is, [None] when it raises. *)
Definition exec_select (rows : Session -> option (list Flow))
    : Stmt (list Flow) :=
  fun s => (s, rows s).

(** [try: body finally: enable_rls(session)]: [enable_rls] runs whether or
    not the body raised, and an exception of the body leaves afterwards. *)
Definition finally_enable_rls {A} (db : Database) (body : Stmt A) : Stmt A :=
  fun s =>
    let '(s, r) := body s in
    let '(s, _) := enable_rls db s in
    (s, r).

(** [get_public_flows] *)
Definition get_public_flows (db : Database)
    (public_rows : Session -> option (list Flow)) : Stmt (list Flow) :=
  run bypass_rls db then
  finally_enable_rls db (exec_select public_rows).

(** [search_flows]; [org_rows] is the statement over the flows of the
    organization (already limited to [limit] rows), [public_rows] the one
    over the public flows, limited to the rows that are still missing. *)
Definition search_flows (db : Database) (organization_id : string)
    (org_rows : Session -> option (list Flow))
    (public_rows : Z -> Session -> option (list Flow))
    (include_public : bool) (limit : Z) : Stmt (list Flow) :=
  run set_organization_context db organization_id then
  let* flows := exec_select org_rows in
  if include_public && (Z.of_nat (length flows) <? limit)
  then
    let remaining_limit := limit - Z.of_nat (length flows) in
    run bypass_rls db then
    let* flows :=
      finally_enable_rls db
        (let* public := exec_select (public_rows remaining_limit) in
         ret (flows ++ public)) in
    ret (Py.slice_to flows limit)
  else ret (Py.slice_to flows limit).

End Queries.

End FlowCRUD.

(** * Part II: vocabulary of the properties, and sample inputs *)

(** ** Quota snapshots *)

Section QuotaVocabulary.

Import Usage.

(** The snapshot [check_usage_limit] compares: usage and limit of a metric
    in a summary of the current billing period. *)
Definition snapshot_used (summary : UsageSummary) (m : MetricType) : Z :=
  default 0 (metrics summary m).

Definition snapshot_limit (summary : UsageSummary) (m : MetricType) : Z :=
  default 0 (limits summary !! metric_value m).

(** The usage of a metric that the summary of the moment counts: the sum
    over the current billing period, 0 without rows. *)
Definition used_in_period (db : Database) (organization_id : string)
    (now : DateTime) (m : MetricType) : Z :=
  let '(period_start, period_end) :=
    _get_current_billing_period db organization_id now in
  default 0 (usage_data db organization_id period_start period_end m).

(** The limit of the plan for a metric, 0 when the plan names none. *)
Definition limit_of (db : Database) (organization_id : string)
    (m : MetricType) : Z :=
  match get_organization_subscription db organization_id with
  | Some subscription => default 0 (sub_plan_limits subscription !! metric_value m)
  | None => 0
  end.

(** A moment as the list of its fields, and the order of such lists, field
    by field. *)
Definition fields (a : DateTime) : list Z :=
  [ year a; month a; day a; hour a; minute a; second a; microsecond a ].

Fixpoint lex (a b : list Z) : comparison :=
  match a, b with
  | x :: a', y :: b' =>
      match x ?= y with
      | Eq => lex a' b'
      | c => c
      end
  | _, _ => Eq
  end.

(** The subscriptions of an organization that are active or trialing. *)
Definition current_subscriptions (db : Database) (org_id : string)
    : list Subscription :=
  List.filter (fun s => String.eqb (sub_organization_id s) org_id && is_current s)
              (subscriptions db).

End QuotaVocabulary.

(** ** Envelopes, attempts and traces *)

Section FailureVocabulary.

Import ErrorHandling.

(** The detail the classifier returns for each kind. *)
Definition detail_of (kind : ErrorType) (error : PyError) : option string :=
  match kind with
  | VALIDATION =>
      match error with
      | HTTPException _ d => Some d
      | OtherError _ => None
      end
  | TIMEOUT | NETWORK => Some (str_of_error error)
  | _ => None
  end.

(** An attempt fails when the handler raises or answers 500 or above. *)
Definition failed (o : AttemptOutcome) : bool :=
  match o with
  | Responded r _ => negb (resp_status r <? 500)
  | Threw _ _ => true
  end.

Definition is_recording (e : Event) : bool :=
  match e with
  | EvRecordSuccess | EvRecordFailure => true
  | _ => false
  end.

Definition is_attempt (e : Event) : bool :=
  match e with
  | EvAttempt _ => true
  | _ => false
  end.

(** The circuit recordings, and the handler calls, of a trace. *)
Definition recordings (tr : list Event) : list Event := List.filter is_recording tr.
Definition attempts (tr : list Event) : list Event := List.filter is_attempt tr.

(** The response a successful attempt returns. *)
Definition annotated (format_seconds : Q -> string) (request_id : string)
    (attempt : nat) (r : Response) (took : Q) : Response :=
  {| resp_status := resp_status r;
     resp_headers :=
       set_header
         (set_header (set_header (resp_headers r) "X-Request-ID" request_id)
            "X-Execution-Time" (format_seconds took))
         "X-Retry-Attempt" (Py.str_of_Z (Z.of_nat attempt + 1)) |}.

(** The exception a failed attempt leaves in [last_exception]. *)
Definition error_of (o : AttemptOutcome) : PyError :=
  match o with
  | Responded r _ =>
      HTTPException (resp_status r)
        ("Server error: " ++ Py.str_of_Z (resp_status r))
  | Threw e _ => e
  end.

(** The pauses of a trace, in order, and the seconds a list of pauses
    adds up to. *)
Definition naps (tr : list Event) : list Q :=
  flat_map (fun e => match e with
                     | EvSleep d => [d]
                     | _ => []
                     end) tr.

Definition total (ds : list Q) : Q := fold_right Qplus 0%Q ds.

End FailureVocabulary.

(** ** Recordings on a circuit *)

Section CircuitVocabulary.

Import ErrorHandling.

(** A recorded outcome and the clock reading it is recorded at. *)
Inductive Recorded := Success | Failure.

Definition record_one (cm : option Cache) (endpoint_pattern : string)
    (config : CircuitBreakerConfig) (ev : Recorded * Q) : option Cache :=
  match ev with
  | (Success, t) => _record_circuit_success cm endpoint_pattern config t
  | (Failure, t) => _record_circuit_failure cm endpoint_pattern config t
  end.

(** Recordings made one after the other. *)
Definition record_all (cm : option Cache) (endpoint_pattern : string)
    (config : CircuitBreakerConfig) (evs : list (Recorded * Q)) : option Cache :=
  fold_left (fun cm ev => record_one cm endpoint_pattern config ev) evs cm.


Definition count_failures (evs : list (Recorded * Q)) : Z :=
  Z.of_nat (length (List.filter (fun ev => match fst ev with
                                           | Failure => true
                                           | Success => false
                                           end) evs)).

(** Each reading falls before the record written at the previous one
    expires: the record is not lost between two steps. *)
Fixpoint chained (window : Z) (ts : list Q) : Prop :=
  match ts with
  | t :: (t' :: _) as rest => (t' < t + inject_Z window)%Q /\ chained window rest
  | _ => True
  end.

(** The record a step starts from: the stored one, or the fresh one when
    none is stored or it has expired. *)
Definition seen (c : Cache) (endpoint_pattern : string) (now : Q) : CircuitData :=
  default fresh_circuit_data (cache_get c (circuit_key endpoint_pattern) now).

(** The record each recording writes, as a function of the one it read. *)
Definition after_failure (config : CircuitBreakerConfig) (d : CircuitData)
    (now : Q) : CircuitData :=
  {| state :=
       if negb (CircuitState_eqb (state d) OPEN)
          && (failure_count d + 1 >=? failure_threshold config)
       then OPEN
       else if CircuitState_eqb (state d) HALF_OPEN then OPEN else state d;
     failure_count := failure_count d + 1;
     success_count := 0;
     last_failure_time := now |}.

Definition after_success (config : CircuitBreakerConfig) (d : CircuitData)
    : CircuitData :=
  match state d with
  | HALF_OPEN =>
      if success_count d + 1 >=? success_threshold config
      then fresh_circuit_data
      else {| state := state d; failure_count := failure_count d;
              success_count := success_count d + 1;
              last_failure_time := last_failure_time d |}
  | _ => d
  end.

Definition after_one (config : CircuitBreakerConfig) (d : CircuitData)
    (ev : Recorded * Q) : CircuitData :=
  match ev with
  | (Success, _) => after_success config d
  | (Failure, t) => after_failure config d t
  end.

Definition after_all (config : CircuitBreakerConfig) (d : CircuitData)
    (evs : list (Recorded * Q)) : CircuitData :=
  fold_left (after_one config) evs d.

(** What the middleware does to a circuit: the admission check of a
    request, or the recording of an outcome. *)
Inductive Step :=
  | Check (now : Q)
  | Record_ (ev : Recorded * Q).

Definition step_one (cm : option Cache) (endpoint_pattern : string)
    (config : CircuitBreakerConfig) (s : Step) : option Cache :=
  match s with
  | Check now => snd (_check_circuit_breaker cm endpoint_pattern config now)
  | Record_ ev => record_one cm endpoint_pattern config ev
  end.

Definition step_all (cm : option Cache) (endpoint_pattern : string)
    (config : CircuitBreakerConfig) (ss : list Step) : option Cache :=
  fold_left (fun cm s => step_one cm endpoint_pattern config s) ss cm.

(** The counters of a record agree with its state. *)
Definition consistent (config : CircuitBreakerConfig) (d : CircuitData) : Prop :=
  match state d with
  | CLOSED =>
      0 <= failure_count d < failure_threshold config /\ success_count d = 0
  | OPEN =>
      failure_threshold config <= failure_count d /\ success_count d = 0
  | HALF_OPEN =>
      failure_threshold config <= failure_count d
      /\ 0 <= success_count d < success_threshold config
  end.

(** Every record stored for an endpoint class, expired or not, is
    consistent. *)
Definition stored_consistent (endpoint_pattern : string)
    (config : CircuitBreakerConfig) (cm : option Cache) : Prop :=
  forall c e, cm = Some c -> c !! circuit_key endpoint_pattern = Some e ->
              consistent config (entry_value e).

End CircuitVocabulary.

(** ** Windows of readings *)

Section WindowVocabulary.

Import RateLimiting.

(** Readings in the order they were taken. *)
Definition in_order (d : list Q) : Prop := StronglySorted Qle d.

(** The readings that are not older than the cut-off. *)
Definition within (cutoff : Q) (d : list Q) : list Q :=
  List.filter (fun x => negb (Clock.ltb x cutoff)) d.

End WindowVocabulary.

(** ** Invocations of the handler *)

Section ResolverVocabulary.

Import TenantContext.

Definition no_context : Invocation :=
  {| seen_organization_id := None; seen_session_tenant := None |}.

(** What the handler finds when the request runs in an organization. *)
Definition in_organization (request : Request) (org : string) : Invocation :=
  {| seen_organization_id := Some org;
     seen_session_tenant := if has_db_session request then Some org else None |}.

End ResolverVocabulary.

(** ** Runs of the rate limiter *)

Section RunVocabulary.

Import RateLimiting.

(** One client sends requests for one path at the clock readings [ts]:
    the readings of the requests that are allowed, in order. *)
Fixpoint allowed_readings (client_id path : string) (ts : list Q) (rr : Records)
    : list Q :=
  match ts with
  | [] => []
  | t :: rest =>
      let '(ok, rr') := _check_rate_limit client_id path t rr in
      if ok then t :: allowed_readings client_id path rest rr'
      else allowed_readings client_id path rest rr'
  end.

End RunVocabulary.

(** ** Entries of the local cache *)

Section CacheVocabulary.

Import LocalCache.

Variable V : Type.

(** An entry that has not expired at a clock reading, and the order of the
    entries by the time they still have. *)
Definition unexpired (now : Q) (e : Entry V) : bool :=
  negb (Qle_bool (entry_expiry V e) now).

Definition outlives (e e' : Entry V) : Prop :=
  (entry_expiry V e' <= entry_expiry V e)%Q.

End CacheVocabulary.

(** ** Sample inputs *)

Definition january : Usage.DateTime :=
  {| Usage.year := 2025; Usage.month := 1; Usage.day := 1; Usage.hour := 0;
     Usage.minute := 0; Usage.second := 0; Usage.microsecond := 0 |}.

Definition february : Usage.DateTime :=
  {| Usage.year := 2025; Usage.month := 2; Usage.day := 1; Usage.hour := 0;
     Usage.minute := 0; Usage.second := 0; Usage.microsecond := 0 |}.

Definition mid_january : Usage.DateTime :=
  {| Usage.year := 2025; Usage.month := 1; Usage.day := 17; Usage.hour := 9;
     Usage.minute := 30; Usage.second := 0; Usage.microsecond := 0 |}.

(** An organization on a plan of 100 API calls that has used 95 of them. *)
Definition acme_db : Usage.Database :=
  {| Usage.db_available := true;
     Usage.subscriptions :=
       [ {| Usage.sub_organization_id := "acme";
            Usage.sub_status := Usage.ACTIVE;
            Usage.sub_plan_limits := {[ "api_calls"%string := 100 ]};
            Usage.current_period_start := january;
            Usage.current_period_end := february;
            Usage.sub_created_at := january |} ];
     Usage.usage_metrics :=
       [ {| Usage.um_organization_id := "acme";
            Usage.um_metric_type := Usage.API_CALLS;
            Usage.um_value := 90;
            Usage.um_period_start := january;
            Usage.um_period_end := february |};
         {| Usage.um_organization_id := "acme";
            Usage.um_metric_type := Usage.API_CALLS;
            Usage.um_value := 5;
            Usage.um_period_start := january;
            Usage.um_period_end := february |} ] |}.

Definition acme_summary : Usage.UsageSummary :=
  match Usage.get_usage_summary acme_db "acme" mid_january with
  | Some summary => summary
  | None =>
      {| Usage.us_period_start := january; Usage.us_period_end := february;
         Usage.metrics := fun _ => None; Usage.limits := ∅;
         Usage.usage_percentage := fun _ => 0%Q |}
  end.

(** An organization whose only subscription was canceled, with no usage in
    the month. *)
Definition lapsed_db : Usage.Database :=
  {| Usage.db_available := true;
     Usage.subscriptions :=
       [ {| Usage.sub_organization_id := "lapsed";
            Usage.sub_status := Usage.CANCELED;
            Usage.sub_plan_limits := {[ "api_calls"%string := 100 ]};
            Usage.current_period_start := january;
            Usage.current_period_end := february;
            Usage.sub_created_at := january |} ];
     Usage.usage_metrics := [] |}.

(** The sums of a period may be negative for team members (a removal is
    recorded as [-1]); the refusal above does not extend to that case. *)
Definition shrinking_db : Usage.Database :=
  {| Usage.db_available := true;
     Usage.subscriptions := [];
     Usage.usage_metrics :=
       [ {| Usage.um_organization_id := "lapsed";
            Usage.um_metric_type := Usage.TEAM_MEMBERS;
            Usage.um_value := -1;
            Usage.um_period_start := january;
            Usage.um_period_end := february |} ] |}.

(** A handler that always answers 200 after a tenth of a second, a random
    source that always draws the middle of the interval, and a printer of
    durations that is not looked at. *)
Definition healthy_handler (n : nat) : ErrorHandling.AttemptOutcome :=
  ErrorHandling.Responded
    {| ErrorHandling.resp_status := 200; ErrorHandling.resp_headers := [] |}
    (1 # 10).

Definition midpoint (n : nat) (lo hi : Q) : Q := ((lo + hi) / 2)%Q.

Definition no_format (t : Q) : string := "0.100s".

(** The flows circuit, opened by a failure at second 100 and read at
    second 110. *)
Definition flows_open_record : ErrorHandling.CircuitData :=
  {| ErrorHandling.state := ErrorHandling.OPEN;
     ErrorHandling.failure_count := 5;
     ErrorHandling.success_count := 0;
     ErrorHandling.last_failure_time := 100 |}.

Definition flows_open_world : ErrorHandling.World :=
  {| ErrorHandling.cache_manager :=
       Some (ErrorHandling.cache_set ∅ "circuit:/api/v1/flows"
               flows_open_record 300 100);
     ErrorHandling.clock := 110;
     ErrorHandling.trace := [] |}.

(** A handler that raises on its first call and answers 200 afterwards. *)
Definition flaky_handler (n : nat) : ErrorHandling.AttemptOutcome :=
  match n with
  | O => ErrorHandling.Threw (ErrorHandling.OtherError "upstream unavailable") (1 # 5)
  | S _ =>
      ErrorHandling.Responded
        {| ErrorHandling.resp_status := 200; ErrorHandling.resp_headers := [] |}
        (1 # 10)
  end.

(** A handler that raises on every call. *)
Definition broken_handler (n : nat) : ErrorHandling.AttemptOutcome :=
  ErrorHandling.Threw (ErrorHandling.OtherError "upstream unavailable") (1 # 5).

Definition empty_world : ErrorHandling.World :=
  {| ErrorHandling.cache_manager := Some ∅;
     ErrorHandling.clock := 0;
     ErrorHandling.trace := [] |}.

Definition flaky_run : (ErrorHandling.PyError + ErrorHandling.Response)
                       * ErrorHandling.World :=
  ErrorHandling._execute_with_retry flaky_handler midpoint no_format
    "/api/v1/flows" (ErrorHandling._get_retry_config "/api/v1/flows")
    (ErrorHandling._get_circuit_config "/api/v1/flows") "req-1" empty_world.









(** The flows class (five failures open the circuit), starting from a
    closed record with nothing counted. *)
Definition flows_closed_store : ErrorHandling.Cache :=
  ErrorHandling.cache_set ∅ "circuit:/api/v1/flows"
    ErrorHandling.fresh_circuit_data 300 0.

Definition interleaved : list (Recorded * Q) :=
  [ (Failure, 1); (Success, 2); (Failure, 3); (Success, 4); (Failure, 5);
    (Failure, 6); (Success, 7); (Failure, 8) ]%Q.

(** A client that has used its five login attempts in the first five
    seconds and tries again at second 57.5. *)
Definition login_window : RateLimiting.Records :=
  {[ "ip:10.0.0.1:/api/v1/login"%string := [0; 1; 2; 3; 4]%Q ]}.

(** A request of user [u1] for organization [org-2], of which the user is
    not a member, and one for [org-1], of which the user is. *)
Definition request_for (org : string) : TenantContext.Request :=
  {| TenantContext.url_path := "/api/v1/flows";
     TenantContext.header_org_id := Some org;
     TenantContext.path_param_org_id := None;
     TenantContext.query_org_id := None;
     TenantContext.state_user_id := Some "u1"%string;
     TenantContext.has_db_session := true |}.

Definition ok_handler (n : nat) (i : TenantContext.Invocation) : option Z :=
  Some 200.

Definition healthy_db : TenantContext.Database :=
  {| TenantContext.get_session_ok := true;
     TenantContext.set_row_security_ok := fun _ => true;
     TenantContext.get_user_organizations := fun _ => Some ["org-1"%string];
     TenantContext.set_current_tenant_ok := fun _ => true |}.

(** The same database, with [set_current_tenant] raising. *)
Definition tenant_setting_fails_db : TenantContext.Database :=
  {| TenantContext.get_session_ok := true;
     TenantContext.set_row_security_ok := fun _ => true;
     TenantContext.get_user_organizations := fun _ => Some ["org-1"%string];
     TenantContext.set_current_tenant_ok := fun _ => false |}.

(** The same database, with the membership query raising. *)
Definition lookup_fails_db : TenantContext.Database :=
  {| TenantContext.get_session_ok := true;
     TenantContext.set_row_security_ok := fun _ => true;
     TenantContext.get_user_organizations := fun _ => None;
     TenantContext.set_current_tenant_ok := fun _ => true |}.

(** A request that carries only a bearer token and forwarding headers. *)
Definition bearer (token : string) : RateLimiting.ClientInfo :=
  {| RateLimiting.state_user_id := None;
     RateLimiting.header_api_key := None;
     RateLimiting.header_authorization := Some ("Bearer " ++ token)%string;
     RateLimiting.header_forwarded_for := Some "203.0.113.7, 10.0.0.2"%string;
     RateLimiting.client_host := Some "10.0.0.2"%string |}.

(** A closed circuit for the flows class that has counted one failure. *)
Definition flows_counting_store : ErrorHandling.Cache :=
  ErrorHandling.cache_set ∅ "circuit:/api/v1/flows"
    {| ErrorHandling.state := ErrorHandling.CLOSED;
       ErrorHandling.failure_count := 1;
       ErrorHandling.success_count := 0;
       ErrorHandling.last_failure_time := 5 |} 300 5.

Definition flows_counting_world : ErrorHandling.World :=
  {| ErrorHandling.cache_manager := Some flows_counting_store;
     ErrorHandling.clock := 10;
     ErrorHandling.trace := [] |}.

(** A request without user id that names an organization, one of user
    [u1] that names none, and a handler that raises. *)
Definition anonymous_request (org : string) : TenantContext.Request :=
  {| TenantContext.url_path := "/api/v1/flows";
     TenantContext.header_org_id := Some org;
     TenantContext.path_param_org_id := None;
     TenantContext.query_org_id := None;
     TenantContext.state_user_id := None;
     TenantContext.has_db_session := true |}.


Definition raising_handler (n : nat) (i : TenantContext.Invocation)
    : option Z := None.

(** A handler whose first call raises and whose second call answers. *)
Definition raises_once (n : nat) (i : TenantContext.Invocation) : option Z :=
  match n with
  | O => None
  | S _ => Some 200
  end.

(** A statement that raises, and one that gives three rows whatever the
    session. *)
Definition rows_raise (s : TenantContext.Session) : option (list string) := None.

Definition three_rows (s : TenantContext.Session) : option (list string) :=
  Some ["flow-a"; "flow-b"; "flow-c"]%string.

Definition two_public_rows (limit : Z) (s : TenantContext.Session)
    : option (list string) :=
  Some ["public-a"; "public-b"]%string.

(** A request that runs a flow by its identifier, for the organization of
    the header, and the moments of one request in January. *)
Definition run_flow_request : UsageTracking.Request :=
  {| UsageTracking.url_path := "/api/v1/flows/42/run";
     UsageTracking.header_org_id := Some "acme"%string;
     UsageTracking.query_org_id := None;
     UsageTracking.state_user_id := None;
     UsageTracking.has_db_session := true |}.

Definition chat_request : UsageTracking.Request :=
  {| UsageTracking.url_path := "/api/v1/chat/session-1";
     UsageTracking.header_org_id := Some "acme"%string;
     UsageTracking.query_org_id := None;
     UsageTracking.state_user_id := None;
     UsageTracking.has_db_session := true |}.

Definition in_january : UsageTracking.Readings :=
  {| UsageTracking.at_check := mid_january;
     UsageTracking.at_api_call := mid_january;
     UsageTracking.at_execution := mid_january;
     UsageTracking.at_minutes := mid_january |}.

Definition no_organizations (user_id : string) : option (list string) := Some [].

Definition answers_ok (n : nat) : option Z := Some 200.

(** An endpoint function whose first run raises and whose second run
    returns, and a small local cache with one expired entry. *)
Definition fails_then_returns (n : nat) : QuotaDecorators.Completion Z :=
  match n with
  | O => QuotaDecorators.RaisedOther
  | S _ => QuotaDecorators.Returned 200
  end.

Definition acme_kwargs : QuotaDecorators.Kwargs :=
  {| QuotaDecorators.has_session := true;
     QuotaDecorators.kw_org_id := Some "acme"%string |}.

Definition small_cache : list (LocalCache.Entry Z) :=
  [ ("metadata:a"%string, (1, 100%Q)); ("metadata:b"%string, (2, 20%Q));
    ("metadata:c"%string, (3, 400%Q)) ].

(** * Part III: properties *)

(** ** Comparisons of clock readings *)

Lemma ltb_lt (a b : Q) : Clock.ltb a b = true <-> (a < b)%Q.
Proof.
  unfold Clock.ltb. rewrite negb_true_iff. split; intros H.
  - apply Qnot_le_lt. intros Hle. apply Qle_bool_iff in Hle. congruence.
  - destruct (Qle_bool b a) eqn:E; [|reflexivity].
    apply Qle_bool_iff in E. exfalso. apply (Qlt_not_le _ _ H E).
Qed.

Lemma ltb_ge (a b : Q) : Clock.ltb a b = false <-> (b <= a)%Q.
Proof. unfold Clock.ltb. rewrite negb_false_iff. apply Qle_bool_iff. Qed.


Lemma geb_lt (a b : Q) : Clock.geb a b = false <-> (a < b)%Q.
Proof.
  unfold Clock.geb. split; intros H.
  - apply Qnot_le_lt. intros Hle. apply Qle_bool_iff in Hle. congruence.
  - destruct (Qle_bool b a) eqn:E; [|reflexivity].
    apply Qle_bool_iff in E. exfalso. apply (Qlt_not_le _ _ H E).
Qed.

(** ** Quota checks *)

Section QuotaFacts.

Import Usage.

Variables (db : Database) (organization_id : string) (now : DateTime).

Lemma check_quota_unfold (summary : UsageSummary) (m : MetricType) (amount : Z) :
  db_available db = true ->
  get_usage_summary db organization_id now = Some summary ->
  check_quota db organization_id m amount now =
    (if snapshot_limit summary m =? -1 then true
     else snapshot_used summary m + amount <=? snapshot_limit summary m,
     Quota (metric_value m) (snapshot_used summary m) (snapshot_limit summary m)
       amount
       (if snapshot_limit summary m >? 0
        then snapshot_limit summary m - snapshot_used summary m
        else -1)
       (snapshot_limit summary m =? -1)).
Proof.
  intros Hup Hsum.
  unfold check_quota, check_usage_limit. rewrite Hup, Hsum.
  fold (snapshot_limit summary m). fold (snapshot_used summary m).
  destruct (snapshot_limit summary m =? -1) eqn:E; cbn iota; rewrite ?E;
    reflexivity.
Qed.

(** Without a subscription the summary is built, over the calendar month,
    with no limits. *)
Lemma no_subscription_summary :
  get_organization_subscription db organization_id = None ->
  exists summary,
    get_usage_summary db organization_id now = Some summary
    /\ limits summary = ∅
    /\ us_period_start summary = fst (_get_current_billing_period db organization_id now)
    /\ us_period_end summary = snd (_get_current_billing_period db organization_id now).
Proof.
  intros Hnone. unfold get_usage_summary.
  destruct (_get_current_billing_period db organization_id now) as [ps pe].
  rewrite Hnone.
  change (valid_limits ∅) with true.
  eexists. split; [reflexivity|]. cbn. auto.
Qed.

End QuotaFacts.



(** C10, as the code has it.  An organization without an active
    subscription has an empty limits map, so the limit of every metric is
    read as [0], never as unlimited, and a request is allowed exactly when
    the usage of the period plus the amount is at most [0].  With usage
    that is not negative (in particular [0]) every request for an amount
    of at least [1] is refused; with a negative sum of usage a request
    that stays at or below [0] is allowed.  The calendar-month fallback
    only fixes the period the usage is summed over. *)
Theorem no_subscription_means_zero_limit
    (db : Usage.Database) (organization_id : string) (m : Usage.MetricType)
    (amount : Z) (now : Usage.DateTime) :
  Usage.db_available db = true ->
  Usage.get_organization_subscription db organization_id = None ->
  exists summary,
    Usage.get_usage_summary db organization_id now = Some summary
    /\ Usage.limits summary = ∅
    /\ snapshot_limit summary m = 0
    /\ Usage.check_quota db organization_id m amount now =
         (snapshot_used summary m + amount <=? 0,
          Usage.Quota (Usage.metric_value m) (snapshot_used summary m)
            0 amount (-1) false)
    /\ (0 <= snapshot_used summary m -> 1 <= amount ->
        Usage.check_quota db organization_id m amount now =
          (false, Usage.Quota (Usage.metric_value m) (snapshot_used summary m)
                    0 amount (-1) false))
    /\ (snapshot_used summary m + amount <= 0 ->
        fst (Usage.check_quota db organization_id m amount now) = true)
    /\ Usage.us_period_start summary =
         {| Usage.year := Usage.year now; Usage.month := Usage.month now;
            Usage.day := 1; Usage.hour := 0; Usage.minute := 0;
            Usage.second := 0; Usage.microsecond := 0 |}
    /\ Usage.us_period_end summary =
         (if Usage.month now =? 12
          then {| Usage.year := Usage.year now + 1; Usage.month := 1;
                  Usage.day := 1; Usage.hour := 0; Usage.minute := 0;
                  Usage.second := 0; Usage.microsecond := 0 |}
          else {| Usage.year := Usage.year now; Usage.month := Usage.month now + 1;
                  Usage.day := 1; Usage.hour := 0; Usage.minute := 0;
                  Usage.second := 0; Usage.microsecond := 0 |}).
Proof.
  intros Hup Hnone.
  destruct (no_subscription_summary db organization_id now Hnone)
    as [summary [Hsum [Hlimits [Hps Hpe]]]].
  assert (Hzero : snapshot_limit summary m = 0).
  { unfold snapshot_limit. rewrite Hlimits, lookup_empty. reflexivity. }
  assert (Hverdict :
    Usage.check_quota db organization_id m amount now =
      (snapshot_used summary m + amount <=? 0,
       Usage.Quota (Usage.metric_value m) (snapshot_used summary m)
         0 amount (-1) false)).
  { rewrite (check_quota_unfold db organization_id now summary m amount Hup Hsum).
    rewrite Hzero. reflexivity. }
  exists summary.
  split; [exact Hsum|]. split; [exact Hlimits|]. split; [exact Hzero|].
  split; [exact Hverdict|].
  split; [|split; [|split]].
  - intros Hused Hamount. rewrite Hverdict.
    replace (snapshot_used summary m + amount <=? 0) with false; [reflexivity|].
    symmetry. apply Z.leb_gt. lia.
  - intros Hlow. rewrite Hverdict. cbn [fst]. apply Z.leb_le. exact Hlow.
  - rewrite Hps. unfold Usage._get_current_billing_period. rewrite Hnone.
    reflexivity.
  - rewrite Hpe. unfold Usage._get_current_billing_period. rewrite Hnone.
    cbn [snd]. destruct (Usage.month now =? 12); reflexivity.
Qed.

Lemma no_subscription_means_zero_limit_witness :
  Usage.check_quota lapsed_db "lapsed" Usage.API_CALLS 1 mid_january =
    (false, Usage.Quota "api_calls" 0 0 1 (-1) false).
Proof.
  destruct (no_subscription_means_zero_limit lapsed_db "lapsed"
              Usage.API_CALLS 1 mid_january eq_refl eq_refl)
    as [summary [Hsum [_ [_ [_ [H _]]]]]].
  injection Hsum as <-. apply H.
  - vm_compute. discriminate.
  - lia.
Defined.

(** C10, as specified, fails: the organization has no active
    subscription and the removal of a team member has been tracked for it,
    which is recorded as [-1]; the usage of the period is then [-1], and a
    request for one team member is allowed. *)
Lemma removed_member_is_allowed_without_subscription :
  let db :=
    snd (Usage.track_team_member lapsed_db "lapsed" "remove" mid_january) in
  Usage.get_organization_subscription db "lapsed" = None
  /\ Usage.limits <$> Usage.get_usage_summary db "lapsed" mid_january = Some ∅
  /\ Usage.check_quota db "lapsed" Usage.TEAM_MEMBERS 1 mid_january
     = (true, Usage.Quota "team_members" (-1) 0 1 (-1) false).
Proof. cbn zeta. repeat split. Qed.

Example negative_usage_is_allowed :
  fst (Usage.check_quota shrinking_db "lapsed" Usage.TEAM_MEMBERS 1 mid_january)
    = true.
Proof. reflexivity. Qed.

(** A plan whose limits name something that is not a metric makes the
    summary raise, and [check_quota] then allows by default. *)
Example unknown_limit_allows_by_default :
  let db :=
    {| Usage.db_available := true;
       Usage.subscriptions :=
         [ {| Usage.sub_organization_id := "acme";
              Usage.sub_status := Usage.ACTIVE;
              Usage.sub_plan_limits := {[ "max_flows"%string := 10 ]};
              Usage.current_period_start := january;
              Usage.current_period_end := february;
              Usage.sub_created_at := january |} ];
       Usage.usage_metrics := [] |} in
  Usage.check_quota db "acme" Usage.API_CALLS 1 mid_january
  = (true, Usage.QuotaError true).
Proof. reflexivity. Qed.

(** ** The shared store *)

Section StoreFacts.

Import ErrorHandling.

Lemma cache_get_set_same (c : Cache) (key : string) (v : CircuitData)
    (ttl : Z) (now t : Q) :
  (t < now + inject_Z ttl)%Q ->
  cache_get (cache_set c key v ttl now) key t = Some v.
Proof.
  intros Ht. unfold cache_get, cache_set.
  rewrite lookup_insert_eq. cbn.
  apply ltb_lt in Ht. rewrite Ht. reflexivity.
Qed.


Lemma cache_get_set_other (c : Cache) (key key' : string) (v : CircuitData)
    (ttl : Z) (now t : Q) :
  key <> key' ->
  cache_get (cache_set c key v ttl now) key' t = cache_get c key' t.
Proof.
  intros Hne. unfold cache_get, cache_set.
  rewrite lookup_insert_ne by exact Hne. reflexivity.
Qed.

(** Every endpoint class is configured by one of the five entries. *)
Lemma circuit_config_cases (pattern : string) :
  In (_get_circuit_config pattern)
     [ mkCircuitBreakerConfig 10 30; mkCircuitBreakerConfig 5 60;
       mkCircuitBreakerConfig 3 120; mkCircuitBreakerConfig 2 300 ].
Proof.
  unfold _get_circuit_config, circuit_configs, default_circuit_config.
  cbn [dict_get].
  repeat match goal with
         | |- context [String.eqb ?a ?b] => destruct (String.eqb a b)
         end; cbn; tauto.
Qed.

Lemma circuit_config_bounds (pattern : string) :
  let config := _get_circuit_config pattern in
  2 <= failure_threshold config
  /\ 0 < recovery_timeout config <= monitoring_window config
  /\ success_threshold config = 3
  /\ monitoring_window config = 300.
Proof.
  cbn zeta. destruct (circuit_config_cases pattern) as [H|[H|[H|[H|[]]]]];
    rewrite <- H; cbn; lia.
Qed.

End StoreFacts.

(** ** Rejection by an open circuit *)

Section OpenCircuit.

Import ErrorHandling.

Variable call_next : nat -> AttemptOutcome.
Variable uniform : nat -> Q -> Q -> Q.
Variable format_seconds : Q -> string.

Lemma check_open_rejects (c : Cache) (endpoint_pattern : string)
    (config : CircuitBreakerConfig) (now : Q) (r : CircuitData) :
  cache_get c (circuit_key endpoint_pattern) now = Some r ->
  state r = OPEN ->
  (now - last_failure_time r < inject_Z (recovery_timeout config))%Q ->
  _check_circuit_breaker (Some c) endpoint_pattern config now = (false, Some c).
Proof.
  intros Hget Hstate Hlt. unfold _check_circuit_breaker.
  rewrite Hget, Hstate. apply geb_lt in Hlt. rewrite Hlt. reflexivity.
Qed.

(** C7, as the code has it.  While the circuit of an endpoint class is
    open and its recovery timeout has not elapsed, [dispatch] answers a
    request of that class with the service-unavailable envelope (503)
    without calling the handler or touching the store; the envelope and
    the [Retry-After] header carry the configured recovery timeout of the
    class, whatever time has passed since the last failure. *)
Theorem open_circuit_rejects_with_configured_timeout
    (path request_id timestamp : string) (w : World) (c : Cache)
    (r : CircuitData) :
  _should_skip_error_handling path = false ->
  cache_manager w = Some c ->
  cache_get c (circuit_key (_get_endpoint_pattern path)) (clock w) = Some r ->
  state r = OPEN ->
  (clock w - last_failure_time r
   < inject_Z (recovery_timeout (_get_circuit_config (_get_endpoint_pattern path))))%Q ->
  exists j,
    dispatch call_next uniform format_seconds path request_id timestamp w
      = (ErrorEnvelope j, w)
    /\ json_status j = 503
    /\ er_error_type (json_content j) = "service_unavailable"%string
    /\ er_retry_after (json_content j)
       = Some (recovery_timeout (_get_circuit_config (_get_endpoint_pattern path)))
    /\ get_header (json_headers j) "Retry-After"
       = Some (Py.str_of_Z
                 (recovery_timeout (_get_circuit_config (_get_endpoint_pattern path)))).
Proof.
  intros Hskip Hcm Hget Hstate Hlt.
  destruct w as [cm clk tr]. cbn [cache_manager clock] in Hcm, Hget, Hlt.
  subst cm.
  destruct (circuit_config_bounds (_get_endpoint_pattern path)) as [_ [[Hpos _] _]].
  cbn zeta in Hpos.
  unfold dispatch. rewrite Hskip. cbn [cache_manager clock].
  rewrite (check_open_rejects _ _ _ _ _ Hget Hstate Hlt).
  cbn [negb with_cache cache_manager clock trace].
  eexists. split; [reflexivity|].
  unfold _create_error_response.
  cbn [json_status json_content json_headers er_error_type er_retry_after
       error_type_value].
  repeat split.
  destruct (Z.eqb_spec
              (recovery_timeout (_get_circuit_config (_get_endpoint_pattern path))) 0)
    as [E|E]; [lia|].
  reflexivity.
Qed.

End OpenCircuit.

Lemma open_circuit_rejects_with_configured_timeout_witness :
  exists j,
    ErrorHandling.dispatch healthy_handler midpoint no_format
      "/api/v1/flows/run" "req-1" "2025-01-17T09:30:00" flows_open_world
      = (ErrorHandling.ErrorEnvelope j, flows_open_world)
    /\ ErrorHandling.json_status j = 503
    /\ ErrorHandling.er_error_type (ErrorHandling.json_content j)
       = "service_unavailable"%string
    /\ ErrorHandling.er_retry_after (ErrorHandling.json_content j) = Some 60
    /\ ErrorHandling.get_header (ErrorHandling.json_headers j) "Retry-After"
       = Some "60"%string.
Proof.
  apply (open_circuit_rejects_with_configured_timeout healthy_handler midpoint
           no_format "/api/v1/flows/run" "req-1" "2025-01-17T09:30:00"
           flows_open_world
           (ErrorHandling.cache_set ∅ "circuit:/api/v1/flows"
              flows_open_record 300 100)
           flows_open_record);
    try reflexivity.
Defined.

(** C7, as specified, fails: ten seconds after the failure that
    opened the flows circuit fifty seconds of the recovery timeout remain,
    and the rejection still announces sixty. *)
Lemma retry_after_is_not_the_remaining_timeout :
  ErrorHandling.circuit_record (ErrorHandling.cache_manager flows_open_world)
    "/api/v1/flows" (ErrorHandling.clock flows_open_world)
    = Some flows_open_record
  /\ (60 - (ErrorHandling.clock flows_open_world
            - ErrorHandling.last_failure_time flows_open_record) == 50)%Q
  /\ exists j,
       fst (ErrorHandling.dispatch healthy_handler midpoint no_format
              "/api/v1/flows/run" "req-1" "2025-01-17T09:30:00" flows_open_world)
         = ErrorHandling.ErrorEnvelope j
       /\ ErrorHandling.er_retry_after (ErrorHandling.json_content j) = Some 60
       /\ ErrorHandling.er_retry_after (ErrorHandling.json_content j) <> Some 50.
Proof.
  split; [reflexivity|]. split; [reflexivity|].
  eexists. split; [reflexivity|]. split; [reflexivity|]. discriminate.
Qed.

(** ** The error classifier *)

Section Classifier.

Import ErrorHandling.

Lemma classify_by_text_shape (error : PyError) :
  let '(kind, _, message, detail) := classify_by_text error in
  message = error_messages kind
  /\ kind <> VALIDATION
  /\ detail = detail_of kind error.
Proof.
  unfold classify_by_text.
  repeat match goal with
         | |- context [if ?b then _ else _] => destruct b
         end; cbn; repeat split; discriminate.
Qed.

Lemma classify_error_shape (error : PyError) :
  let '(kind, _, message, detail) := _classify_error error in
  message = error_messages kind /\ detail = detail_of kind error.
Proof.
  destruct error as [sc d|t]; cbn [_classify_error].
  - destruct (sc =? 400); [cbn; auto|].
    destruct (sc =? 401); [cbn; auto|].
    destruct (sc =? 403); [cbn; auto|].
    destruct (sc =? 404); [cbn; auto|].
    destruct (sc =? 429); [cbn; auto|].
    destruct (sc >=? 500); [cbn; auto|].
    pose proof (classify_by_text_shape (HTTPException sc d)) as H.
    destruct (classify_by_text (HTTPException sc d)) as [[[k s] m] dt].
    tauto.
  - pose proof (classify_by_text_shape (OtherError t)) as H.
    destruct (classify_by_text (OtherError t)) as [[[k s] m] dt].
    tauto.
Qed.

(** C8, as the code has it.  The envelope of a classified failure carries
    the static message of its kind; its detail is the detail of the
    400-exception for Validation, the text of the exception itself for
    Timeout and Network, and absent for every other kind. *)
Theorem envelope_message_and_detail (timestamp request_id : string)
    (error : PyError) :
  let kind := fst (fst (fst (_classify_error error))) in
  let envelope := json_content (_handle_error timestamp error request_id) in
  er_error_type envelope = error_type_value kind
  /\ er_message envelope = error_messages kind
  /\ er_detail envelope = detail_of kind error
  /\ (er_detail envelope <> None ->
      kind = VALIDATION \/ kind = TIMEOUT \/ kind = NETWORK).
Proof.
  cbn zeta. unfold _handle_error.
  pose proof (classify_error_shape error) as H.
  destruct (_classify_error error) as [[[k s] m] dt].
  destruct H as [Hm Hd]. cbn. subst m dt.
  repeat split.
  destruct k; cbn; intros H; auto; congruence.
Qed.

End Classifier.

(** C8, as specified, fails: a failure matched by the keyword
    "timed out" is a Timeout, not a Validation error, and its envelope
    carries the text of the exception as detail. *)
Lemma timeout_detail_is_the_exception_text :
  let error :=
    ErrorHandling.OtherError "query timed out on replica db-7.internal:5432" in
  let envelope :=
    ErrorHandling.json_content
      (ErrorHandling._handle_error "2025-01-17T09:30:00" error "req-1") in
  ErrorHandling.er_error_type envelope = "timeout"%string
  /\ ErrorHandling.er_message envelope = "Request timed out. Please try again."%string
  /\ ErrorHandling.er_detail envelope
     = Some "query timed out on replica db-7.internal:5432"%string.
Proof. cbn zeta. repeat split. Qed.

(** ** The retry executor *)

Section Retry.

Import ErrorHandling.

Variable call_next : nat -> AttemptOutcome.
Variable uniform : nat -> Q -> Q -> Q.
Variable format_seconds : Q -> string.

Lemma recordings_app (a b : list Event) :
  recordings (a ++ b) = recordings a ++ recordings b.
Proof. apply List.filter_app. Qed.

Lemma attempts_app (a b : list Event) :
  attempts (a ++ b) = attempts a ++ attempts b.
Proof. apply List.filter_app. Qed.

Lemma pause_keeps (attempt : nat) (retry_config : RetryConfig) (w : World) :
  let w' := pause_before_retry uniform attempt retry_config w in
  cache_manager w' = cache_manager w
  /\ recordings (trace w') = recordings (trace w)
  /\ attempts (trace w') = attempts (trace w).
Proof.
  cbn zeta. unfold pause_before_retry.
  destruct (_ <? _); cbn; [|auto].
  rewrite recordings_app, attempts_app. cbn. rewrite !app_nil_r. auto.
Qed.

Section Loop.

Variables (endpoint_pattern : string) (retry_config : RetryConfig)
          (circuit_config : CircuitBreakerConfig) (request_id : string).

Abbreviation loop :=
  (retry_loop call_next uniform format_seconds endpoint_pattern retry_config
     circuit_config request_id).

Lemma loop_first_success (remaining : nat) :
  forall (attempt : nat) (last : option PyError) (w : World) (k : nat)
         (r : Response) (took : Q),
    (attempt <= k < attempt + remaining)%nat ->
    (forall j, (attempt <= j < k)%nat -> failed (call_next j) = true) ->
    call_next k = Responded r took ->
    resp_status r < 500 ->
    let res := loop remaining attempt last w in
    fst res = inr (annotated format_seconds request_id k r took)
    /\ recordings (trace (snd res)) = recordings (trace w) ++ [EvRecordSuccess]
    /\ attempts (trace (snd res))
       = attempts (trace w) ++ map EvAttempt (seq attempt (S k - attempt))
    /\ cache_manager (snd res)
       = _record_circuit_success (cache_manager w) endpoint_pattern
           circuit_config (clock (snd res)).
Proof.
  induction remaining as [|n IH]; intros attempt last w k r took Hk Hfail Hcall Hok;
    [lia|].
  cbn zeta. cbn [retry_loop].
  destruct (Nat.eq_dec attempt k) as [->|Hne].
  - rewrite Hcall. apply Z.ltb_lt in Hok. rewrite Hok.
    replace (S k - k)%nat with 1%nat by lia.
    cbn. rewrite !recordings_app, !attempts_app. cbn.
    rewrite !app_nil_r. auto.
  - assert (Hf : failed (call_next attempt) = true) by (apply Hfail; lia).
    assert (Hk' : (S attempt <= k < S attempt + n)%nat) by lia.
    assert (Hfail' : forall j, (S attempt <= j < k)%nat -> failed (call_next j) = true)
      by (intros j Hj; apply Hfail; lia).
    replace (S k - attempt)%nat with (S (S k - S attempt)) by lia.
    cbn [seq map].
    destruct (call_next attempt) as [r0 t0|e0 t0] eqn:E; cbn in Hf.
    + apply negb_true_iff in Hf. rewrite Hf.
      match goal with
      | |- context [loop n (S attempt) ?l ?w'] =>
          specialize (IH (S attempt) l w' k r took Hk' Hfail' Hcall Hok);
          destruct (pause_keeps attempt retry_config
                      (advance t0 (emit (EvAttempt attempt) w))) as [Hc [Hr Ha]]
      end.
      cbn zeta in IH, Hc, Hr, Ha.
      destruct IH as [IH1 [IH2 [IH3 IH4]]].
      rewrite IH1, IH2, IH3, IH4, Hc, Hr, Ha. cbn.
      rewrite recordings_app, attempts_app. cbn.
      rewrite app_nil_r, <- app_assoc. auto.
    + match goal with
      | |- context [loop n (S attempt) ?l ?w'] =>
          specialize (IH (S attempt) l w' k r took Hk' Hfail' Hcall Hok);
          destruct (pause_keeps attempt retry_config
                      (advance t0 (emit (EvAttempt attempt) w))) as [Hc [Hr Ha]]
      end.
      cbn zeta in IH, Hc, Hr, Ha.
      destruct IH as [IH1 [IH2 [IH3 IH4]]].
      rewrite IH1, IH2, IH3, IH4, Hc, Hr, Ha. cbn.
      rewrite recordings_app, attempts_app. cbn.
      rewrite app_nil_r, <- app_assoc. auto.
Qed.

Lemma loop_all_fail (remaining : nat) :
  forall (attempt : nat) (last : option PyError) (w : World),
    (forall j, (attempt <= j < attempt + remaining)%nat ->
               failed (call_next j) = true) ->
    let res := loop remaining attempt last w in
    (exists e, fst res = inl e)
    /\ recordings (trace (snd res)) = recordings (trace w) ++ [EvRecordFailure]
    /\ attempts (trace (snd res))
       = attempts (trace w) ++ map EvAttempt (seq attempt remaining)
    /\ cache_manager (snd res)
       = _record_circuit_failure (cache_manager w) endpoint_pattern
           circuit_config (clock (snd res)).
Proof.
  induction remaining as [|n IH]; intros attempt last w Hfail.
  - cbn zeta. cbn [retry_loop].
    assert (Hshape :
      let w' := record_failure endpoint_pattern circuit_config w in
      recordings (trace w') = recordings (trace w) ++ [EvRecordFailure]
      /\ attempts (trace w') = attempts (trace w) ++ map EvAttempt (seq attempt 0)
      /\ cache_manager w'
         = _record_circuit_failure (cache_manager w) endpoint_pattern
             circuit_config (clock w')).
    { cbn. rewrite recordings_app, attempts_app. cbn. rewrite !app_nil_r. auto. }
    cbn zeta in Hshape.
    destruct last as [e|]; cbn [fst snd]; (split; [eexists; reflexivity|exact Hshape]).
  - cbn zeta. cbn [retry_loop].
    assert (Hf : failed (call_next attempt) = true) by (apply Hfail; lia).
    assert (Hfail' : forall j, (S attempt <= j < S attempt + n)%nat ->
                               failed (call_next j) = true)
      by (intros j Hj; apply Hfail; lia).
    cbn [seq map].
    destruct (call_next attempt) as [r0 t0|e0 t0] eqn:E; cbn in Hf.
    + apply negb_true_iff in Hf. rewrite Hf.
      match goal with
      | |- context [loop n (S attempt) ?l ?w'] =>
          specialize (IH (S attempt) l w' Hfail');
          destruct (pause_keeps attempt retry_config
                      (advance t0 (emit (EvAttempt attempt) w))) as [Hc [Hr Ha]]
      end.
      cbn zeta in IH, Hc, Hr, Ha.
      destruct IH as [IH1 [IH2 [IH3 IH4]]].
      rewrite IH2, IH3, IH4, Hc, Hr, Ha. cbn.
      rewrite recordings_app, attempts_app. cbn.
      rewrite app_nil_r, <- app_assoc. auto.
    + match goal with
      | |- context [loop n (S attempt) ?l ?w'] =>
          specialize (IH (S attempt) l w' Hfail');
          destruct (pause_keeps attempt retry_config
                      (advance t0 (emit (EvAttempt attempt) w))) as [Hc [Hr Ha]]
      end.
      cbn zeta in IH, Hc, Hr, Ha.
      destruct IH as [IH1 [IH2 [IH3 IH4]]].
      rewrite IH2, IH3, IH4, Hc, Hr, Ha. cbn.
      rewrite recordings_app, attempts_app. cbn.
      rewrite app_nil_r, <- app_assoc. auto.
Qed.

End Loop.

End Retry.

(** C6, as the code has it.  The executor does not record the failure of
    a single attempt.  When attempt [k] is the first to succeed (status
    below 500) it records one circuit-breaker success, writes nothing else
    to the store, makes no further call and returns that response
    annotated with the request identifier, the attempt number [k + 1] and
    the execution time of that attempt.  When every attempt fails it
    records one circuit-breaker failure, after the last attempt, and
    raises. *)
Theorem retry_records_the_outcome_once
    (call_next : nat -> ErrorHandling.AttemptOutcome)
    (uniform : nat -> Q -> Q -> Q) (format_seconds : Q -> string)
    (endpoint_pattern : string) (retry_config : ErrorHandling.RetryConfig)
    (circuit_config : ErrorHandling.CircuitBreakerConfig)
    (request_id : string) (w : ErrorHandling.World) :
  let res :=
    ErrorHandling._execute_with_retry call_next uniform format_seconds
      endpoint_pattern retry_config circuit_config request_id w in
  (forall (k : nat) (r : ErrorHandling.Response) (took : Q),
      (k < ErrorHandling.max_attempts retry_config)%nat ->
      (forall j, (j < k)%nat -> failed (call_next j) = true) ->
      call_next k = ErrorHandling.Responded r took ->
      ErrorHandling.resp_status r < 500 ->
      fst res = inr (annotated format_seconds request_id k r took)
      /\ recordings (ErrorHandling.trace (snd res))
         = recordings (ErrorHandling.trace w) ++ [ErrorHandling.EvRecordSuccess]
      /\ attempts (ErrorHandling.trace (snd res))
         = attempts (ErrorHandling.trace w)
           ++ map ErrorHandling.EvAttempt (seq 0 (S k))
      /\ ErrorHandling.cache_manager (snd res)
         = ErrorHandling._record_circuit_success (ErrorHandling.cache_manager w)
             endpoint_pattern circuit_config (ErrorHandling.clock (snd res)))
  /\ ((forall j, (j < ErrorHandling.max_attempts retry_config)%nat ->
                 failed (call_next j) = true) ->
      (exists e, fst res = inl e)
      /\ recordings (ErrorHandling.trace (snd res))
         = recordings (ErrorHandling.trace w) ++ [ErrorHandling.EvRecordFailure]
      /\ attempts (ErrorHandling.trace (snd res))
         = attempts (ErrorHandling.trace w)
           ++ map ErrorHandling.EvAttempt
                (seq 0 (ErrorHandling.max_attempts retry_config))
      /\ ErrorHandling.cache_manager (snd res)
         = ErrorHandling._record_circuit_failure (ErrorHandling.cache_manager w)
             endpoint_pattern circuit_config (ErrorHandling.clock (snd res))).
Proof.
  cbn zeta. unfold ErrorHandling._execute_with_retry. split.
  - intros k r took Hk Hfail Hcall Hok.
    pose proof (loop_first_success call_next uniform format_seconds
                  endpoint_pattern retry_config circuit_config request_id
                  (ErrorHandling.max_attempts retry_config) 0%nat None w k r took)
      as H.
    cbn zeta in H. rewrite Nat.sub_0_r in H.
    apply H; try assumption; [lia|].
    intros j Hj. apply Hfail. lia.
  - intros Hfail.
    pose proof (loop_all_fail call_next uniform format_seconds
                  endpoint_pattern retry_config circuit_config request_id
                  (ErrorHandling.max_attempts retry_config) 0%nat None w) as H.
    cbn zeta in H. apply H.
    intros j Hj. apply Hfail. lia.
Qed.

Lemma retry_records_the_outcome_once_witness :
  fst flaky_run
    = inr {| ErrorHandling.resp_status := 200;
             ErrorHandling.resp_headers :=
               [ ("X-Request-ID", "req-1"); ("X-Execution-Time", "0.100s");
                 ("X-Retry-Attempt", "2") ]%string |}
  /\ recordings (ErrorHandling.trace (snd flaky_run))
     = [ErrorHandling.EvRecordSuccess].
Proof.
  destruct (retry_records_the_outcome_once flaky_handler midpoint no_format
              "/api/v1/flows" (ErrorHandling._get_retry_config "/api/v1/flows")
              (ErrorHandling._get_circuit_config "/api/v1/flows") "req-1"
              empty_world) as [H _].
  destruct (H 1%nat
              {| ErrorHandling.resp_status := 200;
                 ErrorHandling.resp_headers := [] |} (1 # 10))
    as [H1 [H2 _]].
  - vm_compute. lia.
  - intros j Hj. assert (j = 0)%nat as -> by lia. reflexivity.
  - reflexivity.
  - reflexivity.
  - split; [exact H1|exact H2].
Defined.

(** C6, as specified, fails: the first attempt of this run fails,
    and no circuit-breaker failure is recorded for it, neither in the
    trace nor in the store. *)
Lemma failed_attempt_is_not_recorded :
  failed (flaky_handler 0) = true
  /\ attempts (ErrorHandling.trace (snd flaky_run))
     = [ErrorHandling.EvAttempt 0; ErrorHandling.EvAttempt 1]
  /\ recordings (ErrorHandling.trace (snd flaky_run))
     = [ErrorHandling.EvRecordSuccess]
  /\ ~ In ErrorHandling.EvRecordFailure (ErrorHandling.trace (snd flaky_run))
  /\ ErrorHandling.failure_count
       <$> ErrorHandling.circuit_record
             (ErrorHandling.cache_manager (snd flaky_run)) "/api/v1/flows"
             (ErrorHandling.clock (snd flaky_run))
     = Some 0.
Proof.
  split; [reflexivity|]. split; [reflexivity|]. split; [reflexivity|].
  split; [|reflexivity].
  vm_compute. intros H. repeat (destruct H as [H|H]; [discriminate|]). exact H.
Qed.

(** When every attempt fails, [dispatch] records the failure a second time
    in its own [except] arm: one exhausted request counts as two failures
    in the circuit record. *)
Example exhausted_request_counts_twice :
  let res :=
    ErrorHandling.dispatch broken_handler midpoint no_format "/api/v1/flows/run"
      "req-1" "2025-01-17T09:30:00" empty_world in
  recordings (ErrorHandling.trace (snd res))
  = [ErrorHandling.EvRecordFailure; ErrorHandling.EvRecordFailure]
  /\ ErrorHandling.failure_count
       <$> ErrorHandling.circuit_record (ErrorHandling.cache_manager (snd res))
             "/api/v1/flows" (ErrorHandling.clock (snd res))
     = Some 2.
Proof. cbn zeta. split; reflexivity. Qed.

(** ** The circuit breaker as a state machine *)

Section Circuit.

Import ErrorHandling.

Variables (endpoint_pattern : string) (config : CircuitBreakerConfig).

Lemma record_one_writes (c : Cache) (ev : Recorded * Q) :
  record_one (Some c) endpoint_pattern config ev =
    Some (cache_set c (circuit_key endpoint_pattern)
            (after_one config (seen c endpoint_pattern (snd ev)) ev)
            (monitoring_window config) (snd ev)).
Proof.
  destruct ev as [[|] t]; cbn [record_one snd after_one];
    unfold _record_circuit_success, _record_circuit_failure, seen,
           after_success, after_failure;
    destruct (cache_get c (circuit_key endpoint_pattern) t) as [d|]; cbn [default];
    try reflexivity.
Qed.

Lemma record_all_cons (cm : option Cache) (ev : Recorded * Q)
    (evs : list (Recorded * Q)) :
  record_all cm endpoint_pattern config (ev :: evs) =
    record_all (record_one cm endpoint_pattern config ev) endpoint_pattern
      config evs.
Proof. reflexivity. Qed.

(** Recordings made without letting the record expire act on the stored
    record as [after_all] does. *)
Lemma record_all_visible (evs : list (Recorded * Q)) :
  forall (c : Cache) (ev : Recorded * Q) (t_obs : Q),
    chained (monitoring_window config) (snd ev :: map snd evs ++ [t_obs]) ->
    circuit_record (record_all (Some c) endpoint_pattern config (ev :: evs))
      endpoint_pattern t_obs
    = Some (after_all config (seen c endpoint_pattern (snd ev)) (ev :: evs)).
Proof.
  induction evs as [|ev' evs IH]; intros c ev t_obs Hch.
  - rewrite record_all_cons, record_one_writes. cbn [record_all fold_left].
    cbn in Hch. destruct Hch as [Hlt _].
    unfold circuit_record. rewrite cache_get_set_same by exact Hlt. reflexivity.
  - rewrite record_all_cons, record_one_writes.
    cbn [map app] in Hch. destruct Hch as [Hlt Hch].
    rewrite IH by exact Hch.
    unfold seen at 1. rewrite cache_get_set_same by exact Hlt. reflexivity.
Qed.

(** Recordings for one endpoint class leave the other classes alone. *)
Lemma record_all_other (evs : list (Recorded * Q)) :
  forall (c : Cache) (other : string) (t : Q),
    other <> endpoint_pattern ->
    circuit_record (record_all (Some c) endpoint_pattern config evs) other t
    = circuit_record (Some c) other t.
Proof.
  induction evs as [|ev evs IH]; intros c other t Hne; [reflexivity|].
  rewrite record_all_cons, record_one_writes, IH by exact Hne.
  unfold circuit_record. apply cache_get_set_other.
  unfold circuit_key. intros H. apply Hne.
  apply String.app_inj in H. congruence.
Qed.

End Circuit.

Section CircuitMachine.

Import ErrorHandling.

Variable config : CircuitBreakerConfig.

Lemma after_failure_state (d : CircuitData) (now : Q) :
  state (after_failure config d now) = OPEN
  \/ (state (after_failure config d now) = CLOSED
      /\ state d = CLOSED
      /\ failure_count d + 1 < failure_threshold config).
Proof.
  unfold after_failure. cbn [state]. rewrite Z.geb_leb.
  destruct (state d); cbn [CircuitState_eqb negb andb]; auto;
    destruct (Z.leb_spec (failure_threshold config) (failure_count d + 1));
    auto.
Qed.

Lemma after_all_cons (d : CircuitData) (ev : Recorded * Q)
    (evs : list (Recorded * Q)) :
  after_all config d (ev :: evs) = after_all config (after_one config d ev) evs.
Proof. reflexivity. Qed.

Lemma after_success_idle (d : CircuitData) :
  state d <> HALF_OPEN -> after_success config d = d.
Proof. unfold after_success. destruct (state d); congruence. Qed.

Lemma count_failures_cons (ev : Recorded * Q) (evs : list (Recorded * Q)) :
  count_failures (ev :: evs)
  = (match fst ev with Failure => 1 | Success => 0 end) + count_failures evs.
Proof.
  unfold count_failures. cbn [List.filter].
  destruct (fst ev); cbn [length]; lia.
Qed.

Lemma count_failures_nonneg (evs : list (Recorded * Q)) : 0 <= count_failures evs.
Proof. unfold count_failures. lia. Qed.


Lemma open_stays (evs : list (Recorded * Q)) :
  forall d, state d = OPEN -> state (after_all config d evs) = OPEN.
Proof.
  induction evs as [|[[|] t] evs IH]; intros d Hd; [exact Hd| |];
    rewrite after_all_cons; apply IH; cbn [after_one].
  - rewrite after_success_idle; [exact Hd|]. rewrite Hd. discriminate.
  - unfold after_failure. cbn [state]. rewrite Hd. reflexivity.
Qed.


(** Counting while the circuit is not probing: successes change nothing,
    every failure adds one. *)
Lemma failures_accumulate (evs : list (Recorded * Q)) :
  forall d, state d <> HALF_OPEN ->
    state (after_all config d evs) <> HALF_OPEN
    /\ failure_count (after_all config d evs)
       = failure_count d + count_failures evs.
Proof.
  induction evs as [|[[|] t] evs IH]; intros d Hd.
  - cbn. split; [exact Hd|]. unfold count_failures. cbn. lia.
  - rewrite after_all_cons, count_failures_cons. cbn [after_one fst].
    rewrite after_success_idle by exact Hd. apply IH. exact Hd.
  - rewrite after_all_cons, count_failures_cons. cbn [after_one fst].
    assert (Hd' : state (after_failure config d t) <> HALF_OPEN)
      by (destruct (after_failure_state d t) as [H|[H _]]; rewrite H; discriminate).
    destruct (IH _ Hd') as [H1 H2]. split; [exact H1|].
    rewrite H2. cbn [after_failure failure_count]. lia.
Qed.

(** Once the accumulated failures reach the threshold the circuit is
    open, whatever successes came in between. *)
Lemma accumulated_failures_open (evs : list (Recorded * Q)) :
  forall d, state d <> HALF_OPEN ->
    1 <= count_failures evs ->
    failure_threshold config <= failure_count d + count_failures evs ->
    state (after_all config d evs) = OPEN.
Proof.
  induction evs as [|[[|] t] evs IH]; intros d Hd Hone Hthr.
  - unfold count_failures in Hone. cbn in Hone. lia.
  - rewrite count_failures_cons in Hone, Hthr. cbn [fst] in Hone, Hthr.
    rewrite after_all_cons. cbn [after_one].
    rewrite after_success_idle by exact Hd.
    apply IH; [exact Hd|lia|lia].
  - rewrite count_failures_cons in Hone, Hthr. cbn [fst] in Hone, Hthr.
    rewrite after_all_cons. cbn [after_one].
    pose proof (count_failures_nonneg evs) as Hnn.
    destruct (Z.eq_dec (count_failures evs) 0) as [Hz|Hnz].
    + apply open_stays.
      destruct (after_failure_state d t) as [H|[_ [_ H]]]; [exact H|lia].
    + apply IH.
      * destruct (after_failure_state d t) as [H|[H _]]; rewrite H; discriminate.
      * lia.
      * cbn [after_failure failure_count]. lia.
Qed.



End CircuitMachine.

Section CircuitStore.

Import ErrorHandling.

Variables (endpoint_pattern : string) (config : CircuitBreakerConfig).







Lemma seen_visible (c : Cache) (now : Q) (r : CircuitData) :
  circuit_record (Some c) endpoint_pattern now = Some r ->
  seen c endpoint_pattern now = r.
Proof. cbn [circuit_record]. unfold seen. intros ->. reflexivity. Qed.




End CircuitStore.




(** C9.  Recording a success on a stored record that is closed writes the
    same record back, only with a new expiry.  So, from a closed record
    and as long as the record is not left to expire, the failure count
    after any run of recordings is the count before plus the number of
    failures in the run, however many successes lie between them, and the
    circuit is open as soon as that sum has reached the threshold. *)
Theorem success_while_closed_keeps_the_record
    (endpoint_pattern : string) (config : ErrorHandling.CircuitBreakerConfig) :
  (forall (c : ErrorHandling.Cache) (r : ErrorHandling.CircuitData) (now : Q),
      ErrorHandling.circuit_record (Some c) endpoint_pattern now = Some r ->
      ErrorHandling.state r = ErrorHandling.CLOSED ->
      ErrorHandling._record_circuit_success (Some c) endpoint_pattern config now
      = Some (ErrorHandling.cache_set c (ErrorHandling.circuit_key endpoint_pattern)
                r (ErrorHandling.monitoring_window config) now))
  /\ (forall (c : ErrorHandling.Cache) (r : ErrorHandling.CircuitData)
             (ev : Recorded * Q) (evs : list (Recorded * Q)) (t_obs : Q),
        ErrorHandling.circuit_record (Some c) endpoint_pattern (snd ev) = Some r ->
        ErrorHandling.state r = ErrorHandling.CLOSED ->
        chained (ErrorHandling.monitoring_window config)
          (snd ev :: map snd evs ++ [t_obs]) ->
        exists r',
          ErrorHandling.circuit_record
            (record_all (Some c) endpoint_pattern config (ev :: evs))
            endpoint_pattern t_obs = Some r'
          /\ ErrorHandling.failure_count r'
             = ErrorHandling.failure_count r + count_failures (ev :: evs)
          /\ (1 <= count_failures (ev :: evs) ->
              ErrorHandling.failure_threshold config
              <= ErrorHandling.failure_count r + count_failures (ev :: evs) ->
              ErrorHandling.state r' = ErrorHandling.OPEN)).
Proof.
  split.
  - intros c r now Hget Hstate.
    pose proof (record_one_writes endpoint_pattern config c (Success, now)) as Hw.
    cbn [record_one snd after_one] in Hw. rewrite Hw.
    rewrite (seen_visible _ _ _ _ Hget).
    rewrite after_success_idle by (rewrite Hstate; discriminate).
    reflexivity.
  - intros c r ev evs t_obs Hget Hstate Hch.
    rewrite (record_all_visible endpoint_pattern config evs c ev t_obs Hch).
    rewrite (seen_visible _ _ _ _ Hget).
    assert (Hnh : ErrorHandling.state r <> ErrorHandling.HALF_OPEN)
      by (rewrite Hstate; discriminate).
    eexists. split; [reflexivity|]. split.
    + apply failures_accumulate. exact Hnh.
    + intros Hone Hthr. apply accumulated_failures_open; assumption.
Qed.

Lemma success_while_closed_keeps_the_record_witness :
  ErrorHandling._record_circuit_success (Some flows_closed_store)
    "/api/v1/flows" (ErrorHandling._get_circuit_config "/api/v1/flows") 10
  = Some (ErrorHandling.cache_set flows_closed_store "circuit:/api/v1/flows"
            ErrorHandling.fresh_circuit_data 300 10)
  /\ exists r',
       ErrorHandling.circuit_record
         (record_all (Some flows_closed_store) "/api/v1/flows"
            (ErrorHandling._get_circuit_config "/api/v1/flows") interleaved)
         "/api/v1/flows" 9 = Some r'
       /\ ErrorHandling.failure_count r' = 5
       /\ ErrorHandling.state r' = ErrorHandling.OPEN.
Proof.
  destruct (success_while_closed_keeps_the_record "/api/v1/flows"
              (ErrorHandling._get_circuit_config "/api/v1/flows")) as [H1 H2].
  split.
  - apply (H1 flows_closed_store ErrorHandling.fresh_circuit_data 10%Q);
      reflexivity.
  - destruct (H2 flows_closed_store ErrorHandling.fresh_circuit_data
                (Failure, 1%Q) (tl interleaved) 9%Q)
      as [r' [Hr [Hc Ho]]].
    + reflexivity.
    + reflexivity.
    + cbn. repeat split.
    + exists r'. split; [exact Hr|]. split; [exact Hc|].
      apply Ho; vm_compute; discriminate.
Defined.

(** ** The sliding window *)

Section SlidingWindow.

Import RateLimiting.

Lemma within_all (cutoff : Q) (d : list Q) :
  Forall (fun y => (cutoff <= y)%Q) d -> within cutoff d = d.
Proof.
  induction 1 as [|y d Hy Hd IH]; [reflexivity|].
  unfold within in *. cbn [List.filter].
  apply ltb_ge in Hy. rewrite Hy. cbn [negb]. rewrite IH. reflexivity.
Qed.

Lemma popleft_is_within (cutoff : Q) (d : list Q) :
  in_order d -> popleft_while_older d cutoff = within cutoff d.
Proof.
  induction 1 as [|x d Hs IH Hall]; [reflexivity|].
  cbn [popleft_while_older]. unfold within. cbn [List.filter].
  destruct (Clock.ltb x cutoff) eqn:E; cbn [negb].
  - exact IH.
  - apply ltb_ge in E. f_equal. symmetry. apply within_all.
    eapply List.Forall_impl; [|exact Hall].
    intros y Hy. cbn in Hy. lra.
Qed.

Lemma popleft_length (cutoff : Q) (d : list Q) :
  (length (popleft_while_older d cutoff) <= length d)%nat.
Proof.
  induction d as [|x d IH]; [reflexivity|].
  cbn [popleft_while_older]. destruct (Clock.ltb x cutoff); cbn [length]; lia.
Qed.

Lemma popleft_drops_old_head (cutoff oldest : Q) (rest : list Q) :
  (oldest < cutoff)%Q ->
  (length (popleft_while_older (oldest :: rest) cutoff) <= length rest)%nat.
Proof.
  intros Hlt. cbn [popleft_while_older].
  apply ltb_lt in Hlt. rewrite Hlt. apply popleft_length.
Qed.

Lemma records_at_insert (rr : Records) (key : string) (d : list Q) :
  records_at (<[ key := d ]> rr) key = d.
Proof. unfold records_at. rewrite lookup_insert_eq. reflexivity. Qed.

Lemma in_order_snoc (d : list Q) (x : Q) :
  in_order d -> Forall (fun y => (y <= x)%Q) d -> in_order (d ++ [x]).
Proof.
  unfold in_order. induction 1 as [|a d Hs IH Hall]; intros Hle.
  - cbn. repeat constructor.
  - apply List.Forall_cons_iff in Hle. destruct Hle as [Hax Hle].
    cbn [app]. constructor; [apply IH; exact Hle|].
    apply List.Forall_app. split; [exact Hall|]. repeat constructor. exact Hax.
Qed.

Lemma popleft_in_order (cutoff : Q) (d : list Q) :
  in_order d -> in_order (popleft_while_older d cutoff).
Proof.
  unfold in_order. induction 1 as [|a d Hs IH Hall]; [constructor|].
  cbn [popleft_while_older]. destruct (Clock.ltb a cutoff); [exact IH|].
  constructor; assumption.
Qed.

Lemma popleft_forall (P : Q -> Prop) (cutoff : Q) (d : list Q) :
  Forall P d -> Forall P (popleft_while_older d cutoff).
Proof.
  induction 1 as [|a d Ha Hd IH]; [constructor|].
  cbn [popleft_while_older]. destruct (Clock.ltb a cutoff); [exact IH|].
  constructor; assumption.
Qed.

(** With a clock that does not run backwards the window of a key stays in
    order across calls. *)
Lemma window_stays_in_order (client_id path : string) (now : Q) (rr : Records) :
  let key := record_key client_id (fst (_get_rate_limit path)) in
  in_order (records_at rr key) ->
  Forall (fun y => (y <= now)%Q) (records_at rr key) ->
  in_order (records_at (snd (_check_rate_limit client_id path now rr)) key).
Proof.
  cbn zeta. intros Hord Hpast. unfold _check_rate_limit.
  destruct (_get_rate_limit path) as [limit_key [max_requests window_seconds]].
  cbn [fst] in *.
  destruct (_ >=? _); cbn [snd]; rewrite records_at_insert.
  - apply popleft_in_order. exact Hord.
  - apply in_order_snoc.
    + apply popleft_in_order. exact Hord.
    + apply popleft_forall. exact Hpast.
Qed.

End SlidingWindow.

(** C4, as the code has it.  For a client and an endpoint class with
    limits [(max_requests, window_seconds)], a call at [now] first drops
    the readings at the head of the window that are older than
    [now - window_seconds] (all the older ones, the readings being in
    order).  If at least [max_requests] readings are left the request is
    refused and the window stays as pruned; the refusal carries
    [max(1, int(oldest + window_seconds - now'))] seconds, [int] cutting
    the fraction off and [now'] being the clock when the value is
    computed (60 when the window is empty), which is positive.  Otherwise
    [now] is appended and the request is allowed.  A refused client is
    allowed again at any reading later than [oldest + window_seconds]. *)
Theorem sliding_window_admission
    (client_id path limit_key : string) (max_requests window_seconds : Z)
    (now now' : Q) (rr : RateLimiting.Records) :
  RateLimiting._get_rate_limit path = (limit_key, (max_requests, window_seconds)) ->
  let key := RateLimiting.record_key client_id limit_key in
  let cutoff := (now - inject_Z window_seconds)%Q in
  let kept := RateLimiting.popleft_while_older (RateLimiting.records_at rr key) cutoff in
  (in_order (RateLimiting.records_at rr key) ->
   kept = within cutoff (RateLimiting.records_at rr key))
  /\ (max_requests <= Z.of_nat (length kept) ->
      let retry_after :=
        match kept with
        | [] => 60
        | oldest :: _ =>
            Z.max 1 (Clock.int_of (oldest + inject_Z window_seconds - now')%Q)
        end in
      RateLimiting.admission client_id path now now' rr
      = (RateLimiting.TooManyRequests retry_after, <[ key := kept ]> rr)
      /\ 0 < retry_after)
  /\ (Z.of_nat (length kept) < max_requests ->
      RateLimiting.admission client_id path now now' rr
      = (RateLimiting.Allowed, <[ key := kept ++ [now] ]> rr))
  /\ (forall (oldest : Q) (rest : list Q) (later : Q),
        kept = oldest :: rest ->
        Z.of_nat (length kept) <= max_requests ->
        (oldest + inject_Z window_seconds < later)%Q ->
        fst (RateLimiting._check_rate_limit client_id path later
               (<[ key := kept ]> rr)) = true).
Proof.
  intros Hlimit. cbn zeta.
  split; [|split; [|split]].
  - intros Hord. apply popleft_is_within. exact Hord.
  - intros Hfull.
    unfold RateLimiting.admission, RateLimiting._check_rate_limit.
    rewrite Hlimit. rewrite Z.geb_leb.
    destruct (Z.leb_spec max_requests
                (Z.of_nat (length (RateLimiting.popleft_while_older
                   (RateLimiting.records_at rr
                      (RateLimiting.record_key client_id limit_key))
                   (now - inject_Z window_seconds)%Q)))) as [_|Hlt]; [|lia].
    unfold RateLimiting._get_retry_after. rewrite Hlimit.
    rewrite records_at_insert. split.
    + destruct (RateLimiting.popleft_while_older _ _); reflexivity.
    + destruct (RateLimiting.popleft_while_older _ _); lia.
  - intros Hroom.
    unfold RateLimiting.admission, RateLimiting._check_rate_limit.
    rewrite Hlimit. rewrite Z.geb_leb.
    destruct (Z.leb_spec max_requests
                (Z.of_nat (length (RateLimiting.popleft_while_older
                   (RateLimiting.records_at rr
                      (RateLimiting.record_key client_id limit_key))
                   (now - inject_Z window_seconds)%Q)))) as [Hge|_]; [lia|].
    reflexivity.
  - intros oldest rest later Hkept Hlen Hlater.
    unfold RateLimiting._check_rate_limit. rewrite Hlimit.
    rewrite records_at_insert, Hkept. rewrite Hkept in Hlen.
    pose proof (popleft_drops_old_head (later - inject_Z window_seconds)%Q
                  oldest rest) as Hdrop.
    assert (Hold : (oldest < later - inject_Z window_seconds)%Q) by lra.
    specialize (Hdrop Hold). cbn [length] in Hlen.
    rewrite Z.geb_leb.
    destruct (Z.leb_spec max_requests
                (Z.of_nat (length (RateLimiting.popleft_while_older
                   (oldest :: rest) (later - inject_Z window_seconds)%Q))))
      as [Hge|_]; [lia|].
    reflexivity.
Qed.

Lemma sliding_window_admission_witness :
  RateLimiting.admission "ip:10.0.0.1" "/api/v1/login" (115 # 2) (115 # 2) login_window
  = (RateLimiting.TooManyRequests 2,
     <[ "ip:10.0.0.1:/api/v1/login"%string := [0; 1; 2; 3; 4]%Q ]> login_window)
  /\ fst (RateLimiting._check_rate_limit "ip:10.0.0.1" "/api/v1/login" (121 # 2)
            (<[ "ip:10.0.0.1:/api/v1/login"%string := [0; 1; 2; 3; 4]%Q ]>
               login_window)) = true.
Proof.
  pose proof (sliding_window_admission "ip:10.0.0.1" "/api/v1/login"
                "/api/v1/login" 5 60 (115 # 2) (115 # 2) login_window eq_refl)
    as H.
  cbn zeta in H. destruct H as [_ [Hfull [_ Hlater]]].
  split.
  - apply Hfull. vm_compute. discriminate.
  - apply (Hlater 0%Q [1; 2; 3; 4]%Q (121 # 2)%Q).
    + reflexivity.
    + vm_compute. discriminate.
    + reflexivity.
Defined.

(** C4, as specified, fails: with 2.5 seconds left until the
    oldest entry leaves the window the refusal announces 2 seconds, not
    the 3 of rounding up, and a request made those 2 seconds later is
    refused again. *)
Lemma retry_after_is_cut_not_rounded_up :
  (0 + inject_Z 60 - (115 # 2) == 5 # 2)%Q
  /\ Qceiling (0 + inject_Z 60 - (115 # 2)) = 3
  /\ fst (RateLimiting.admission "ip:10.0.0.1" "/api/v1/login" (115 # 2) (115 # 2)
            login_window) = RateLimiting.TooManyRequests 2
  /\ fst (RateLimiting._check_rate_limit "ip:10.0.0.1" "/api/v1/login"
            ((115 # 2) + 2)
            (snd (RateLimiting.admission "ip:10.0.0.1" "/api/v1/login" (115 # 2)
                    (115 # 2) login_window))) = false.
Proof. repeat split. Qed.

(** ** The tenant resolver *)

Section Resolver.

Import TenantContext.

Lemma truthy_nonempty (s : string) : s <> EmptyString -> Py.truthy (Some s) = true.
Proof.
  intros Hne. cbn. destruct (String.eqb_spec s EmptyString); [contradiction|reflexivity].
Qed.

(** The membership lookup, for an identified caller: whether it says
    "member", and the session it gives back. *)
Lemma validate_identified (db : Database) (request : Request)
    (org_id user_id : string) :
  state_user_id request = Some user_id ->
  user_id <> EmptyString ->
  _validate_organization_access db request org_id =
    if get_session_ok db
    then if set_row_security_ok db false
         then match get_user_organizations db user_id with
              | Some user_orgs =>
                  if set_row_security_ok db true
                  then (existsb (fun org => String.eqb org org_id) user_orgs,
                        [ {| row_security := true; current_tenant := None |} ])
                  else (false,
                        [ {| row_security := false; current_tenant := None |} ])
              | None =>
                  (false, [ {| row_security := false; current_tenant := None |} ])
              end
         else (false, [fresh_session])
    else (false, []).
Proof.
  intros Huser Hne. unfold _validate_organization_access.
  rewrite Huser, (truthy_nonempty _ Hne).
  unfold with_session, bind, exec_set_row_security,
         exec_get_user_organizations, ret.
  destruct (get_session_ok db); [|reflexivity].
  destruct (set_row_security_ok db false); [|reflexivity].
  cbn. destruct (get_user_organizations db user_id); [|reflexivity].
  destruct (set_row_security_ok db true); reflexivity.
Qed.

Lemma existsb_not_in (org_id : string) (user_orgs : list string) :
  ~ In org_id user_orgs ->
  existsb (fun org => String.eqb org org_id) user_orgs = false.
Proof.
  intros Hnot. apply not_true_is_false. intros H.
  apply existsb_exists in H. destruct H as [o [Hin Heq]].
  apply String.eqb_eq in Heq. subst o. contradiction.
Qed.

End Resolver.

(** C1, as the code has it.  On a route that is not exempted and for a
    resolved, non-empty organization identifier:
    - when the membership validation does not succeed the answer is 403
      and the handler is not called; for an identified caller this is so
      when the caller is not a member and when acquiring the session, one
      of the two [SET row_security] statements or the membership query
      raises;
    - the handler is never called with an organization in the request
      state other than the resolved one, validated;
    - when the statement that sets the tenant raises, the request is not
      blocked: the handler is called, without organization in the request
      state and without tenant in the session. *)
Theorem tenant_resolver_refuses_invalid_access
    (call_next : nat -> TenantContext.Invocation -> option Z)
    (db : TenantContext.Database) (request : TenantContext.Request)
    (org : string) :
  TenantContext._should_skip_path (TenantContext.url_path request) = false ->
  fst (TenantContext._extract_organization_id db request) = Some org ->
  org <> EmptyString ->
  (fst (TenantContext._validate_organization_access db request org) = false ->
   fst (TenantContext.dispatch call_next db request)
   = ([], TenantContext.Forbidden))
  /\ (forall user_id : string,
        TenantContext.state_user_id request = Some user_id ->
        user_id <> EmptyString ->
        (TenantContext.get_session_ok db = false
         \/ TenantContext.set_row_security_ok db false = false
         \/ TenantContext.set_row_security_ok db true = false
         \/ TenantContext.get_user_organizations db user_id = None
         \/ exists user_orgs,
              TenantContext.get_user_organizations db user_id = Some user_orgs
              /\ ~ In org user_orgs) ->
        fst (TenantContext._validate_organization_access db request org) = false)
  /\ (forall (i : TenantContext.Invocation) (o : string),
        In i (fst (fst (TenantContext.dispatch call_next db request))) ->
        TenantContext.seen_organization_id i = Some o ->
        o = org
        /\ fst (TenantContext._validate_organization_access db request org) = true)
  /\ (fst (TenantContext._validate_organization_access db request org) = true ->
      TenantContext.has_db_session request = true ->
      TenantContext.set_current_tenant_ok db org = false ->
      fst (TenantContext.dispatch call_next db request)
      = ([no_context], TenantContext.invoke call_next 0%nat no_context)).
Proof.
  intros Hskip Hextract Hne.
  pose proof (truthy_nonempty org Hne) as Htruthy.
  assert (Hdispatch :
    TenantContext.dispatch call_next db request =
      let '(ok, released2) :=
        TenantContext._validate_organization_access db request org in
      if ok
      then
        match TenantContext._set_tenant_context db request org
                TenantContext.fresh_session with
        | Some session =>
            (TenantContext.guarded_call call_next
               {| TenantContext.seen_organization_id := Some org;
                  TenantContext.seen_session_tenant :=
                    TenantContext.current_tenant session |},
             snd (TenantContext._extract_organization_id db request) ++ released2)
        | None =>
            (TenantContext.on_exception call_next [] no_context,
             snd (TenantContext._extract_organization_id db request) ++ released2)
        end
      else ([], TenantContext.Forbidden,
            snd (TenantContext._extract_organization_id db request) ++ released2)).
  { unfold TenantContext.dispatch. rewrite Hskip.
    destruct (TenantContext._extract_organization_id db request) as [o released1].
    cbn [fst snd] in *. subst o. rewrite Htruthy. reflexivity. }
  split; [|split; [|split]].
  - intros Hfalse. rewrite Hdispatch.
    destruct (TenantContext._validate_organization_access db request org)
      as [ok released2].
    cbn [fst] in Hfalse. subst ok. reflexivity.
  - intros user_id Huser Hune Hcause.
    rewrite (validate_identified db request org user_id Huser Hune).
    destruct Hcause as [H|[H|[H|[H|[user_orgs [H Hnot]]]]]].
    + rewrite H. reflexivity.
    + rewrite H. destruct (TenantContext.get_session_ok db); reflexivity.
    + rewrite H. destruct (TenantContext.get_session_ok db); [|reflexivity].
      destruct (TenantContext.set_row_security_ok db false); [|reflexivity].
      destruct (TenantContext.get_user_organizations db user_id); reflexivity.
    + rewrite H. destruct (TenantContext.get_session_ok db); [|reflexivity].
      destruct (TenantContext.set_row_security_ok db false); reflexivity.
    + rewrite H. destruct (TenantContext.get_session_ok db); [|reflexivity].
      destruct (TenantContext.set_row_security_ok db false); [|reflexivity].
      destruct (TenantContext.set_row_security_ok db true); [|reflexivity].
      cbn [fst]. apply existsb_not_in. exact Hnot.
  - intros i o Hin Hseen. rewrite Hdispatch in Hin.
    destruct (TenantContext._validate_organization_access db request org)
      as [ok released2].
    destruct ok; [|cbn in Hin; contradiction].
    cbn [fst]. split; [|reflexivity].
    destruct (TenantContext._set_tenant_context db request org
                TenantContext.fresh_session) as [session|].
    + unfold TenantContext.guarded_call, TenantContext.on_exception in Hin.
      destruct (call_next _); cbn in Hin;
        repeat (destruct Hin as [Hin|Hin];
                [subst i; cbn in Hseen; congruence|]);
        contradiction.
    + cbn in Hin. destruct Hin as [Hin|[]]. subst i. cbn in Hseen. congruence.
  - intros Htrue Hsession Hfail. rewrite Hdispatch.
    destruct (TenantContext._validate_organization_access db request org)
      as [ok released2].
    cbn [fst] in Htrue. subst ok.
    unfold TenantContext._set_tenant_context, TenantContext.exec_set_current_tenant.
    rewrite Hsession, Hfail. reflexivity.
Qed.

Lemma tenant_resolver_refuses_invalid_access_witness :
  fst (TenantContext.dispatch ok_handler healthy_db (request_for "org-2"))
  = ([], TenantContext.Forbidden)
  /\ fst (TenantContext.dispatch ok_handler lookup_fails_db (request_for "org-1"))
     = ([], TenantContext.Forbidden)
  /\ fst (TenantContext.dispatch ok_handler tenant_setting_fails_db
            (request_for "org-1"))
     = ([no_context], TenantContext.Answered 200).
Proof.
  split; [|split].
  - pose proof (tenant_resolver_refuses_invalid_access ok_handler healthy_db
                  (request_for "org-2") "org-2" eq_refl eq_refl) as H.
    destruct H as [H1 [H2 _]]; [discriminate|].
    apply H1. apply (H2 "u1"%string eq_refl); [discriminate|].
    right. right. right. right. exists ["org-1"%string].
    split; [reflexivity|]. cbn. intros [H|[]]. discriminate.
  - pose proof (tenant_resolver_refuses_invalid_access ok_handler lookup_fails_db
                  (request_for "org-1") "org-1" eq_refl eq_refl) as H.
    destruct H as [H1 [H2 _]]; [discriminate|].
    apply H1. apply (H2 "u1"%string eq_refl); [discriminate|].
    right. right. right. left. reflexivity.
  - pose proof (tenant_resolver_refuses_invalid_access ok_handler
                  tenant_setting_fails_db (request_for "org-1") "org-1"
                  eq_refl eq_refl) as H.
    destruct H as [_ [_ [_ H4]]]; [discriminate|].
    apply H4; reflexivity.
Defined.

(** C1, as specified, fails: the statement that sets the tenant
    context raises, and the request, instead of being answered with 403,
    reaches the handler with no tenant context at all. *)
Lemma failure_to_set_the_tenant_fails_open :
  TenantContext._should_skip_path
    (TenantContext.url_path (request_for "org-1")) = false
  /\ TenantContext._set_tenant_context tenant_setting_fails_db
       (request_for "org-1") "org-1" TenantContext.fresh_session = None
  /\ fst (TenantContext.dispatch ok_handler tenant_setting_fails_db
            (request_for "org-1"))
     = ([ {| TenantContext.seen_organization_id := None;
             TenantContext.seen_session_tenant := None |} ],
        TenantContext.Answered 200)
  /\ snd (fst (TenantContext.dispatch ok_handler tenant_setting_fails_db
                 (request_for "org-1")))
     <> TenantContext.Forbidden.
Proof. repeat split. discriminate. Qed.

(** ** Row security around the membership lookup *)

Section RowSecurity.

Import TenantContext.

(** When every statement succeeds, the session is given back with row
    security on. *)
Lemma row_security_restored_on_return (db : Database) (request : Request)
    (org_id user_id : string) (user_orgs : list string) :
  state_user_id request = Some user_id ->
  user_id <> EmptyString ->
  get_session_ok db = true ->
  set_row_security_ok db false = true ->
  set_row_security_ok db true = true ->
  get_user_organizations db user_id = Some user_orgs ->
  Forall (fun s => row_security s = true)
         (snd (_validate_organization_access db request org_id)).
Proof.
  intros Huser Hne Hs Hoff Hon Hq.
  rewrite (validate_identified db request org_id user_id Huser Hne).
  rewrite Hs, Hoff, Hq, Hon. cbn. repeat constructor.
Qed.

(** When the membership query raises after row security was switched off,
    nothing switches it on again before the session is given back. *)
Lemma row_security_left_off_on_exception (db : Database) (request : Request)
    (org_id user_id : string) :
  state_user_id request = Some user_id ->
  user_id <> EmptyString ->
  get_session_ok db = true ->
  set_row_security_ok db false = true ->
  get_user_organizations db user_id = None ->
  _validate_organization_access db request org_id
  = (false, [ {| row_security := false; current_tenant := None |} ])
  /\ _get_user_default_organization db user_id
     = (None, [ {| row_security := false; current_tenant := None |} ]).
Proof.
  intros Huser Hne Hs Hoff Hq. split.
  - rewrite (validate_identified db request org_id user_id Huser Hne).
    rewrite Hs, Hoff, Hq. reflexivity.
  - unfold _get_user_default_organization, with_session, bind,
           exec_set_row_security, exec_get_user_organizations.
    rewrite Hs, Hoff. cbn. rewrite Hq. reflexivity.
Qed.

End RowSecurity.

(** C2 does not hold of the code: when the membership query raises, both
    lookups give their session back with row security still off. *)
Theorem row_security_stays_off_when_the_lookup_raises :
  snd (TenantContext._validate_organization_access lookup_fails_db
         (request_for "org-1") "org-1")
  = [ {| TenantContext.row_security := false;
         TenantContext.current_tenant := None |} ]
  /\ snd (TenantContext._get_user_default_organization lookup_fails_db "u1")
     = [ {| TenantContext.row_security := false;
            TenantContext.current_tenant := None |} ].
Proof. split; reflexivity. Qed.

(** * Part IV: further properties of the code *)

(** ** The rate limiter over a run of requests *)

Section WindowRuns.

Import RateLimiting.

(** Every path falls in a class with at least three requests per window
    and a window between a minute and an hour. *)
Lemma rate_limit_bounds (path : string) :
  3 <= fst (snd (_get_rate_limit path))
  /\ 60 <= snd (snd (_get_rate_limit path)) <= 3600.
Proof.
  unfold _get_rate_limit, rate_limits. cbn [first_prefix].
  repeat match goal with
         | |- context [Py.startswith ?a ?b] => destruct (Py.startswith a b)
         end; cbn; lia.
Qed.

Lemma in_order_app_iff (a b : list Q) :
  in_order (a ++ b)
  <-> in_order a /\ in_order b /\ Forall (fun x => Forall (Qle x) b) a.
Proof.
  unfold in_order. induction a as [|x a IH]; cbn [app].
  - split; [intros H; repeat split; [constructor|exact H|constructor]|tauto].
  - split.
    + intros H. inversion H as [|? ? Hs Hall]; subst.
      apply IH in Hs. destruct Hs as [Ha [Hb Hab]].
      apply List.Forall_app in Hall. destruct Hall as [Hxa Hxb].
      repeat split; [constructor; assumption|assumption|constructor; assumption].
    + intros [Ha [Hb Hab]].
      inversion Ha as [|? ? Hs Hall]; subst.
      inversion Hab as [|? ? Hxb Hab']; subst.
      constructor; [apply IH; tauto|].
      apply List.Forall_app. tauto.
Qed.

Lemma within_app (c : Q) (a b : list Q) :
  within c (a ++ b) = within c a ++ within c b.
Proof. apply List.filter_app. Qed.

Lemma within_within (c1 c2 : Q) (d : list Q) :
  (c1 <= c2)%Q -> within c2 (within c1 d) = within c2 d.
Proof.
  intros Hc. induction d as [|x d IH]; [reflexivity|].
  unfold within in *. cbn [List.filter].
  destruct (Clock.ltb x c1) eqn:E1; cbn [negb].
  - rewrite IH. apply ltb_lt in E1.
    assert (E2 : Clock.ltb x c2 = true) by (apply ltb_lt; lra).
    rewrite E2. reflexivity.
  - cbn [List.filter]. rewrite IH. reflexivity.
Qed.

Lemma within_in_order (c : Q) (d : list Q) : in_order d -> in_order (within c d).
Proof.
  unfold in_order, within. induction 1 as [|x d Hs IH Hall]; [constructor|].
  cbn [List.filter]. destruct (negb (Clock.ltb x c)); [|exact IH].
  constructor; [exact IH|].
  apply List.Forall_forall. intros y Hy. apply List.filter_In in Hy.
  destruct Hy as [Hy _]. revert y Hy. apply List.Forall_forall. exact Hall.
Qed.

Lemma within_keeps (c x : Q) : (c <= x)%Q -> within c [x] = [x].
Proof.
  intros H. unfold within. cbn. apply ltb_ge in H. rewrite H. reflexivity.
Qed.

Section OneClient.

Variables (client_id path limit_key : string) (max_requests window_seconds : Z).
Hypothesis Hlimit :
  _get_rate_limit path = (limit_key, (max_requests, window_seconds)).

Let key := record_key client_id limit_key.
Let w := inject_Z window_seconds.

Lemma window_nonneg : (0 <= w)%Q.
Proof.
  pose proof (rate_limit_bounds path) as [_ [H _]].
  rewrite Hlimit in H. cbn in H. subst w.
  change 0%Q with (inject_Z 0). rewrite <- Zle_Qle. lia.
Qed.

Lemma check_unfold (t : Q) (rr : Records) :
  _check_rate_limit client_id path t rr =
    let d := popleft_while_older (records_at rr key) (t - w)%Q in
    if Z.of_nat (length d) >=? max_requests
    then (false, <[ key := d ]> rr)
    else (true, <[ key := d ++ [t] ]> rr).
Proof. unfold _check_rate_limit. rewrite Hlimit. reflexivity. Qed.

(** The invariant of a run: the stored window holds the allowed readings
    of the past that are not older than a cut-off every later request
    will move forward. *)
Lemma allowed_readings_bound (ts : list Q) :
  forall (rr : Records) (past : list Q) (c : Q),
    in_order (past ++ ts) ->
    records_at rr key = within c past ->
    Forall (fun t => (c <= t - w)%Q) ts ->
    forall (pre : list Q) (t : Q) (post : list Q),
      allowed_readings client_id path ts rr = pre ++ t :: post ->
      Z.of_nat (length (within (t - w) (past ++ pre ++ [t]))) <= max_requests.
Proof.
  pose proof window_nonneg as Hw.
  induction ts as [|t0 ts IH]; intros rr past c Hord Hrec Hcut pre t post Hrun.
  - destruct pre; discriminate.
  - cbn [allowed_readings] in Hrun. rewrite check_unfold in Hrun. cbn zeta in Hrun.
    apply in_order_app_iff in Hord. destruct Hord as [Hpast [Hts Hcross]].
    inversion Hts as [|? ? Hts' Hle]; subst.
    inversion Hcut as [|? ? Hc0 Hcut']; subst.
    assert (Hd : popleft_while_older (records_at rr key) (t0 - w)%Q
                 = within (t0 - w) past).
    { rewrite Hrec, popleft_is_within by (apply within_in_order; exact Hpast).
      apply within_within. exact Hc0. }
    rewrite Hd in Hrun.
    assert (Hcut0 : Forall (fun t => (t0 - w <= t - w)%Q) ts).
    { eapply List.Forall_impl; [|exact Hle]. intros y Hy. cbn in Hy. lra. }
    destruct (Z.of_nat (length (within (t0 - w) past)) >=? max_requests) eqn:E.
    + (* refused: the window is the pruned one *)
      assert (Hord' : in_order (past ++ ts)).
      { apply in_order_app_iff. repeat split; [exact Hpast|exact Hts'|].
        eapply List.Forall_impl; [|exact Hcross].
        intros x Hx. inversion Hx; assumption. }
      exact (IH (<[ key := within (t0 - w) past ]> rr) past (t0 - w)%Q Hord'
                (records_at_insert _ _ _) Hcut0 pre t post Hrun).
    + (* allowed: the reading joins the window *)
      rewrite Z.geb_leb in E. apply Z.leb_gt in E.
      assert (Hjoin : within (t0 - w) past ++ [t0] = within (t0 - w) (past ++ [t0])).
      { rewrite within_app, within_keeps by lra. reflexivity. }
      destruct pre as [|p pre].
      * injection Hrun as <- _. cbn [app].
        rewrite <- Hjoin, length_app. cbn [length]. lia.
      * injection Hrun as <- Hrun.
        replace (past ++ (t0 :: pre) ++ [t]) with ((past ++ [t0]) ++ pre ++ [t])
          by (rewrite <- app_assoc; reflexivity).
        assert (Hord' : in_order ((past ++ [t0]) ++ ts)).
        { rewrite <- app_assoc. cbn [app].
          apply in_order_app_iff. repeat split; assumption. }
        assert (Hrec' : records_at (<[ key := within (t0 - w) past ++ [t0] ]> rr) key
                        = within (t0 - w) (past ++ [t0]))
          by (rewrite records_at_insert; exact Hjoin).
        exact (IH _ (past ++ [t0]) (t0 - w)%Q Hord' Hrec' Hcut0 pre t post Hrun).
Qed.

End OneClient.

End WindowRuns.

(** X1.  A client that starts with an empty window and sends requests for
    one path at clock readings that do not run backwards is never allowed
    more than [max_requests] requests within [window_seconds]: each allowed
    request, counted with the allowed ones before it that are at most
    [window_seconds] older, makes at most [max_requests]. *)
Theorem no_more_than_the_limit_per_window
    (client_id path limit_key : string) (max_requests window_seconds : Z)
    (ts : list Q) (rr : RateLimiting.Records) :
  RateLimiting._get_rate_limit path = (limit_key, (max_requests, window_seconds)) ->
  in_order ts ->
  RateLimiting.records_at rr (RateLimiting.record_key client_id limit_key) = [] ->
  forall (pre : list Q) (t : Q) (post : list Q),
    allowed_readings client_id path ts rr = pre ++ t :: post ->
    Z.of_nat (length (within (t - inject_Z window_seconds) (pre ++ [t])))
    <= max_requests.
Proof.
  intros Hlimit Hord Hempty pre t post Hrun.
  destruct ts as [|t0 ts]; [destruct pre; discriminate|].
  apply (allowed_readings_bound client_id path limit_key max_requests
           window_seconds Hlimit (t0 :: ts) rr []
           (t0 - inject_Z window_seconds)%Q) with (post := post).
  - exact Hord.
  - rewrite Hempty. reflexivity.
  - inversion Hord as [|? ? _ Hle]; subst.
    constructor; [lra|].
    eapply List.Forall_impl; [|exact Hle]. intros y Hy. cbn in Hy. lra.
  - exact Hrun.
Qed.

Lemma no_more_than_the_limit_per_window_witness :
  allowed_readings "ip:10.0.0.1" "/api/v1/register" [0; 10; 20; 30; 4000]%Q ∅
  = [0; 10; 20; 4000]%Q
  /\ Z.of_nat (length (within (20 - inject_Z 3600) ([0; 10]%Q ++ [20%Q]))) <= 3.
Proof.
  split; [reflexivity|].
  apply (no_more_than_the_limit_per_window "ip:10.0.0.1" "/api/v1/register"
           "/api/v1/register" 3 3600 [0; 10; 20; 30; 4000]%Q ∅ eq_refl)
    with (post := [4000%Q]).
  - repeat constructor; vm_compute; discriminate.
  - reflexivity.
  - reflexivity.
Defined.

(** ** Compaction, client identity and the headers of the rate limiter *)

Section Compaction.

Import RateLimiting.

Lemma popleft_twice (c1 c2 : Q) (d : list Q) :
  (c1 <= c2)%Q ->
  popleft_while_older (popleft_while_older d c1) c2 = popleft_while_older d c2.
Proof.
  intros Hc. induction d as [|x d IH]; [reflexivity|].
  cbn [popleft_while_older]. destruct (Clock.ltb x c1) eqn:E1.
  - apply ltb_lt in E1.
    assert (E2 : Clock.ltb x c2 = true) by (apply ltb_lt; lra).
    rewrite E2. exact IH.
  - reflexivity.
Qed.

Lemma records_at_cleanup (now : Q) (rr : Records) (key : string) :
  records_at (cleanup_round now rr) key
  = popleft_while_older (records_at rr key) (now - 3600)%Q.
Proof.
  unfold records_at, cleanup_round. rewrite lookup_omap.
  destruct (rr !! key) as [d|]; cbn; [|reflexivity].
  destruct (popleft_while_older d (now - 3600)%Q); reflexivity.
Qed.

End Compaction.

(** X2.  The background compaction is advisory: a check made at or after
    the clock reading of a compaction round gives the same verdict, and
    leaves the same window for the client, as it would have without the
    round. *)
Theorem compaction_does_not_change_admission
    (client_id path : string) (now t : Q) (rr : RateLimiting.Records) :
  (now <= t)%Q ->
  let key := RateLimiting.record_key client_id
               (fst (RateLimiting._get_rate_limit path)) in
  fst (RateLimiting._check_rate_limit client_id path t
         (RateLimiting.cleanup_round now rr))
  = fst (RateLimiting._check_rate_limit client_id path t rr)
  /\ RateLimiting.records_at
       (snd (RateLimiting._check_rate_limit client_id path t
               (RateLimiting.cleanup_round now rr))) key
     = RateLimiting.records_at
         (snd (RateLimiting._check_rate_limit client_id path t rr)) key.
Proof.
  intros Hle. cbn zeta.
  pose proof (rate_limit_bounds path) as [_ [_ Hw]].
  unfold RateLimiting._check_rate_limit.
  destruct (RateLimiting._get_rate_limit path)
    as [limit_key [max_requests window_seconds]].
  cbn [fst snd] in *.
  rewrite records_at_cleanup.
  assert (Hcut : (now - 3600 <= t - inject_Z window_seconds)%Q).
  { assert (inject_Z window_seconds <= inject_Z 3600)%Q
      by (rewrite <- Zle_Qle; exact Hw).
    change (inject_Z 3600) with 3600%Q in H. lra. }
  rewrite (popleft_twice _ _ _ Hcut).
  destruct (_ >=? _); cbn [fst snd]; rewrite !records_at_insert; auto.
Qed.

Lemma compaction_does_not_change_admission_witness :
  fst (RateLimiting._check_rate_limit "ip:10.0.0.1" "/api/v1/login" 4000
         (RateLimiting.cleanup_round 3990 login_window))
  = fst (RateLimiting._check_rate_limit "ip:10.0.0.1" "/api/v1/login" 4000
           login_window).
Proof.
  apply (compaction_does_not_change_admission "ip:10.0.0.1" "/api/v1/login"
           3990 4000 login_window).
  vm_compute. discriminate.
Defined.

Section ClientIdentity.

Import RateLimiting.

Lemma substring_length (n : nat) (s : string) :
  (String.length (substring 0 n s) <= n)%nat.
Proof.
  revert s. induction n as [|n IH]; intros s.
  - destruct s; cbn; lia.
  - destruct s as [|c s]; cbn; [lia|]. specialize (IH s). lia.
Qed.

Lemma append_length (a b : string) :
  String.length (a ++ b) = (String.length a + String.length b)%nat.
Proof.
  induction a as [|c a IH]; [reflexivity|].
  change (S (String.length (a ++ b)) = S (String.length a + String.length b)).
  rewrite IH. reflexivity.
Qed.

Lemma client_id_of_credential (request : ClientInfo) (key : string) :
  state_user_id request = None ->
  py_or (header_api_key request) (header_authorization request) = Some key ->
  key <> EmptyString ->
  _get_client_id request = ("api_key:" ++ substring 0 16 key)%string.
Proof.
  intros Huser Hkey Hne. unfold _get_client_id. rewrite Huser, Hkey.
  rewrite (truthy_nonempty key Hne). reflexivity.
Qed.

End ClientIdentity.

(** X3.  An authenticated user is identified by the user identifier,
    whatever headers the request carries.  Without a user, a request with
    a credential ([X-API-Key], else [Authorization]) is identified by the
    first sixteen characters of the credential only: the identifier is at
    most 24 characters long, and two credentials that agree on their first
    sixteen characters are the same client to the rate limiter. *)
Theorem client_identity_uses_sixteen_characters
    (r1 r2 : RateLimiting.ClientInfo) (k1 k2 : string) :
  RateLimiting.state_user_id r1 = None ->
  RateLimiting.state_user_id r2 = None ->
  RateLimiting.py_or (RateLimiting.header_api_key r1)
    (RateLimiting.header_authorization r1) = Some k1 ->
  RateLimiting.py_or (RateLimiting.header_api_key r2)
    (RateLimiting.header_authorization r2) = Some k2 ->
  k1 <> EmptyString ->
  k2 <> EmptyString ->
  (String.length (RateLimiting._get_client_id r1) <= 24)%nat
  /\ (substring 0 16 k1 = substring 0 16 k2 ->
      RateLimiting._get_client_id r1 = RateLimiting._get_client_id r2)
  /\ (forall (r : RateLimiting.ClientInfo) (user_id : string),
        RateLimiting.state_user_id r = Some user_id ->
        RateLimiting._get_client_id r = ("user:" ++ user_id)%string).
Proof.
  intros Hu1 Hu2 Hk1 Hk2 Hn1 Hn2.
  rewrite (client_id_of_credential r1 k1 Hu1 Hk1 Hn1).
  rewrite (client_id_of_credential r2 k2 Hu2 Hk2 Hn2).
  repeat split.
  - rewrite append_length. pose proof (substring_length 16 k1). cbn. lia.
  - intros ->. reflexivity.
  - intros r user_id Hr. unfold RateLimiting._get_client_id. rewrite Hr.
    reflexivity.
Qed.

Lemma client_identity_uses_sixteen_characters_witness :
  RateLimiting._get_client_id (bearer "eyJhbGciOiJIUzI1NiJ9.alice")
  = RateLimiting._get_client_id (bearer "eyJhbGciOiJIUzI1NiJ9.bob").
Proof.
  destruct (client_identity_uses_sixteen_characters
              (bearer "eyJhbGciOiJIUzI1NiJ9.alice")
              (bearer "eyJhbGciOiJIUzI1NiJ9.bob")
              "Bearer eyJhbGciOiJIUzI1NiJ9.alice" "Bearer eyJhbGciOiJIUzI1NiJ9.bob"
              eq_refl eq_refl eq_refl eq_refl) as [_ [H _]];
    [discriminate|discriminate|].
  apply H. reflexivity.
Defined.

(** Without user and credential the first address of [X-Forwarded-For],
    stripped, identifies the client. *)
Example forwarded_address_identifies :
  RateLimiting._get_client_id
    {| RateLimiting.state_user_id := None;
       RateLimiting.header_api_key := None;
       RateLimiting.header_authorization := None;
       RateLimiting.header_forwarded_for := Some " 203.0.113.7 , 10.0.0.2"%string;
       RateLimiting.client_host := Some "10.0.0.2"%string |}
  = "ip:203.0.113.7"%string.
Proof. reflexivity. Qed.

Section Headers.

Import ErrorHandling.

Lemma get_set_header_same (h : Headers) (k v : string) :
  get_header (set_header h k v) k = Some v.
Proof.
  induction h as [|[k' v'] h IH]; cbn.
  - rewrite String.eqb_refl. reflexivity.
  - destruct (String.eqb k' k) eqn:E; cbn.
    + rewrite String.eqb_refl. reflexivity.
    + rewrite E. exact IH.
Qed.

Lemma get_set_header_other (h : Headers) (k k' v : string) :
  k <> k' -> get_header (set_header h k v) k' = get_header h k'.
Proof.
  intros Hne. induction h as [|[k0 v0] h IH]; cbn.
  - destruct (String.eqb_spec k k'); [contradiction|reflexivity].
  - destruct (String.eqb_spec k0 k) as [->|Hk]; cbn.
    + destruct (String.eqb_spec k k'); [contradiction|reflexivity].
    + destruct (String.eqb k0 k'); [reflexivity|exact IH].
Qed.

End Headers.

(** X4.  The remaining count reported in [X-RateLimit-Remaining] lies
    between [0] and the limit of the class, and it is [0] exactly when a
    check made at the same clock reading would be refused. *)
Theorem remaining_is_zero_exactly_when_refused
    (response : ErrorHandling.Response) (client_id path : string) (now : Q)
    (rr : RateLimiting.Records) :
  let max_requests := fst (snd (RateLimiting._get_rate_limit path)) in
  let remaining := fst (RateLimiting.remaining_requests client_id path now rr) in
  let rr' := snd (RateLimiting.remaining_requests client_id path now rr) in
  0 <= remaining <= max_requests
  /\ (remaining = 0 <->
      fst (RateLimiting._check_rate_limit client_id path now rr') = false)
  /\ fst (RateLimiting._check_rate_limit client_id path now rr')
     = fst (RateLimiting._check_rate_limit client_id path now rr)
  /\ ErrorHandling.get_header
       (ErrorHandling.resp_headers
          (fst (RateLimiting._add_rate_limit_headers response client_id path
                  now rr))) "X-RateLimit-Remaining"
     = Some (Py.str_of_Z remaining).
Proof.
  cbn zeta. pose proof (rate_limit_bounds path) as [Hmax _].
  unfold RateLimiting._add_rate_limit_headers, RateLimiting.remaining_requests,
         RateLimiting._check_rate_limit.
  destruct (RateLimiting._get_rate_limit path)
    as [limit_key [max_requests window_seconds]].
  cbn [fst snd] in *.
  rewrite records_at_insert.
  rewrite (popleft_twice _ _ _ (Qle_refl _)).
  set (d := RateLimiting.popleft_while_older _ _).
  rewrite !Z.geb_leb.
  split; [lia|]. split; [|split].
  - destruct (Z.leb_spec max_requests (Z.of_nat (length d))); cbn [fst];
      split; intros; try lia; try discriminate; reflexivity.
  - destruct (Z.leb_spec max_requests (Z.of_nat (length d))); reflexivity.
  - cbn [ErrorHandling.resp_headers].
    rewrite get_set_header_other by discriminate.
    apply get_set_header_same.
Qed.

Section AllowedResponse.

Import RateLimiting.

Lemma popleft_keeps_recent_last (c x : Q) (d : list Q) :
  (c <= x)%Q -> (1 <= length (popleft_while_older (d ++ [x]) c))%nat.
Proof.
  intros Hx. induction d as [|y d IH]; cbn [app popleft_while_older].
  - apply ltb_ge in Hx. rewrite Hx. cbn. lia.
  - destruct (Clock.ltb y c); [exact IH|]. cbn. lia.
Qed.

End AllowedResponse.

(** X5.  A request that is allowed and whose handler returns within the
    window of its class gets a response that announces the limit of the
    class and a remaining count below that limit: the request itself has
    been counted. *)
Theorem allowed_response_counts_the_request
    (response : ErrorHandling.Response) (request : RateLimiting.ClientInfo)
    (path : string) (now now' later : Q) (rr : RateLimiting.Records) :
  let max_requests := fst (snd (RateLimiting._get_rate_limit path)) in
  let window_seconds := snd (snd (RateLimiting._get_rate_limit path)) in
  RateLimiting._should_skip_rate_limit path = false ->
  fst (RateLimiting._check_rate_limit (RateLimiting._get_client_id request)
         path now rr) = true ->
  (later - inject_Z window_seconds <= now)%Q ->
  exists (response' : ErrorHandling.Response) (remaining : Z),
    fst (RateLimiting.dispatch (RateLimiting.Returns response) request path
           now now' later rr) = RateLimiting.Through response'
    /\ ErrorHandling.resp_status response' = ErrorHandling.resp_status response
    /\ ErrorHandling.get_header (ErrorHandling.resp_headers response')
         "X-RateLimit-Limit" = Some (Py.str_of_Z max_requests)
    /\ ErrorHandling.get_header (ErrorHandling.resp_headers response')
         "X-RateLimit-Remaining" = Some (Py.str_of_Z remaining)
    /\ 0 <= remaining < max_requests.
Proof.
  cbn zeta. intros Hskip Hok Hlater.
  pose proof (rate_limit_bounds path) as [Hmax _].
  unfold RateLimiting.dispatch. rewrite Hskip.
  unfold RateLimiting._add_rate_limit_headers, RateLimiting.remaining_requests.
  unfold RateLimiting._check_rate_limit in *.
  destruct (RateLimiting._get_rate_limit path)
    as [limit_key [max_requests window_seconds]].
  cbn [fst snd] in *.
  destruct (_ >=? _); cbn [fst] in Hok; [discriminate|].
  cbn [negb]. rewrite records_at_insert.
  set (d := RateLimiting.popleft_while_older (_ ++ [now]) _).
  assert (Hd : (1 <= length d)%nat)
    by (apply popleft_keeps_recent_last; exact Hlater).
  eexists. exists (Z.max 0 (max_requests - Z.of_nat (length d))).
  split; [reflexivity|]. split; [reflexivity|].
  cbn [ErrorHandling.resp_headers]. split; [|split].
  - rewrite !get_set_header_other by discriminate. apply get_set_header_same.
  - rewrite get_set_header_other by discriminate. apply get_set_header_same.
  - lia.
Qed.

Lemma allowed_response_counts_the_request_witness :
  exists (response' : ErrorHandling.Response) (remaining : Z),
    fst (RateLimiting.dispatch
           (RateLimiting.Returns
              {| ErrorHandling.resp_status := 200;
                 ErrorHandling.resp_headers := [] |})
           (bearer "eyJhbGciOiJIUzI1NiJ9.alice") "/api/v1/chat" 10 10 11 ∅)
    = RateLimiting.Through response'
    /\ ErrorHandling.resp_status response' = 200
    /\ ErrorHandling.get_header (ErrorHandling.resp_headers response')
         "X-RateLimit-Limit" = Some "60"%string
    /\ ErrorHandling.get_header (ErrorHandling.resp_headers response')
         "X-RateLimit-Remaining" = Some (Py.str_of_Z remaining)
    /\ 0 <= remaining < 60.
Proof.
  apply (allowed_response_counts_the_request
           {| ErrorHandling.resp_status := 200; ErrorHandling.resp_headers := [] |}
           (bearer "eyJhbGciOiJIUzI1NiJ9.alice") "/api/v1/chat" 10 10 11 ∅).
  - reflexivity.
  - reflexivity.
  - vm_compute. discriminate.
Defined.

(** ** The pause between two attempts *)

(** X6.  The pause before a retry is never shorter than a tenth of a
    second.  For a configuration without negative delays, and with the
    random draw inside the interval it is drawn from, the pause is that
    minimum or at most five quarters of the maximal delay, and of the
    exponential delay of the attempt; without jitter it is the minimum or
    at most the maximal delay. *)
Theorem retry_delay_bounds
    (uniform : nat -> Q -> Q -> Q) (attempt : nat)
    (config : ErrorHandling.RetryConfig) :
  (0 <= ErrorHandling.initial_delay config)%Q ->
  (0 <= ErrorHandling.exponential_base config)%Q ->
  (0 <= ErrorHandling.max_delay config)%Q ->
  (forall lo hi : Q, (lo <= hi)%Q ->
                     (lo <= uniform attempt lo hi <= hi)%Q) ->
  let delay := ErrorHandling._calculate_retry_delay uniform attempt config in
  let exponential :=
    (ErrorHandling.initial_delay config
     * ErrorHandling.exponential_base config ^ Z.of_nat attempt)%Q in
  (1 # 10 <= delay)%Q
  /\ (delay == 1 # 10
      \/ (delay <= (5 # 4) * ErrorHandling.max_delay config
          /\ delay <= (5 # 4) * exponential))%Q
  /\ (ErrorHandling.jitter config = false ->
      (delay == 1 # 10
       \/ (delay <= ErrorHandling.max_delay config /\ delay <= exponential))%Q).
Proof.
  intros Hinit Hbase Hmax Hdraw. cbn zeta.
  unfold ErrorHandling._calculate_retry_delay.
  assert (Hexp : (0 <= ErrorHandling.initial_delay config
                       * ErrorHandling.exponential_base config ^ Z.of_nat attempt)%Q).
  { apply Qmult_le_0_compat; [exact Hinit|]. apply Qpower_0_le. exact Hbase. }
  set (exponential := (ErrorHandling.initial_delay config
                       * ErrorHandling.exponential_base config ^ Z.of_nat attempt)%Q)
    in *.
  set (capped := if Clock.ltb (ErrorHandling.max_delay config) exponential
                 then ErrorHandling.max_delay config else exponential).
  assert (Hcap : (0 <= capped /\ capped <= ErrorHandling.max_delay config
                  /\ capped <= exponential)%Q).
  { subst capped.
    destruct (Clock.ltb (ErrorHandling.max_delay config) exponential) eqn:E.
    - apply ltb_lt in E. lra.
    - apply ltb_ge in E. lra. }
  destruct Hcap as [Hc0 [Hc1 Hc2]].
  destruct (ErrorHandling.jitter config).
  - specialize (Hdraw (- (capped * (1 # 4)))%Q (capped * (1 # 4))%Q).
    assert (Hrange : (- (capped * (1 # 4)) <= capped * (1 # 4))%Q) by lra.
    specialize (Hdraw Hrange).
    set (draw := uniform attempt (- (capped * (1 # 4)))%Q (capped * (1 # 4))%Q) in *.
    destruct (Clock.ltb (1 # 10) (capped + draw)) eqn:E.
    + apply ltb_lt in E. split; [lra|]. split; [|discriminate].
      right. split; lra.
    + split; [lra|]. split; [|discriminate]. left. reflexivity.
  - destruct (Clock.ltb (1 # 10) capped) eqn:E.
    + apply ltb_lt in E. split; [lra|]. split.
      * right. split; lra.
      * intros _. right. split; lra.
    + split; [lra|]. split.
      * left. reflexivity.
      * intros _. left. reflexivity.
Qed.

Lemma retry_delay_bounds_witness :
  (1 # 10 <= ErrorHandling._calculate_retry_delay midpoint 2
               (ErrorHandling._get_retry_config "/api/v1/flows"))%Q.
Proof.
  apply (retry_delay_bounds midpoint 2
           (ErrorHandling._get_retry_config "/api/v1/flows")).
  - vm_compute. discriminate.
  - vm_compute. discriminate.
  - vm_compute. discriminate.
  - intros lo hi H. unfold midpoint, Qdiv. change (/ 2)%Q with (1 # 2)%Q. lra.
Defined.

(** ** A request whose attempts all fail *)

Section Exhausted.

Import ErrorHandling.

Lemma retry_config_cases (pattern : string) :
  In (_get_retry_config pattern)
     [ mkRetryConfig 2 (1 # 10); mkRetryConfig 3 (1 # 2); mkRetryConfig 3 1 ].
Proof.
  unfold _get_retry_config, retry_configs, default_retry_config.
  cbn [dict_get].
  repeat match goal with
         | |- context [String.eqb ?a ?b] => destruct (String.eqb a b)
         end; cbn; tauto.
Qed.

Lemma retry_config_attempts (pattern : string) :
  (2 <= max_attempts (_get_retry_config pattern) <= 3)%nat.
Proof.
  destruct (retry_config_cases pattern) as [H|[H|[H|[]]]]; rewrite <- H; cbn; lia.
Qed.

Variable call_next : nat -> AttemptOutcome.
Variable uniform : nat -> Q -> Q -> Q.
Variable format_seconds : Q -> string.

(** The exception raised after the loop is the one of the last attempt. *)
Lemma loop_raises_the_last_failure
    (endpoint_pattern : string) (retry_config : RetryConfig)
    (circuit_config : CircuitBreakerConfig) (request_id : string)
    (remaining : nat) :
  forall (attempt : nat) (last : option PyError) (w : World),
    (forall j, (attempt <= j < attempt + S remaining)%nat ->
               failed (call_next j) = true) ->
    fst (retry_loop call_next uniform format_seconds endpoint_pattern
           retry_config circuit_config request_id (S remaining) attempt last w)
    = inl (error_of (call_next (attempt + remaining))).
Proof.
  induction remaining as [|n IH]; intros attempt last w Hfail.
  - assert (Hf : failed (call_next attempt) = true) by (apply Hfail; lia).
    rewrite Nat.add_0_r. cbn [retry_loop].
    destruct (call_next attempt) as [r0 t0|e0 t0]; cbn in Hf.
    + apply negb_true_iff in Hf. rewrite Hf. reflexivity.
    + reflexivity.
  - assert (Hf : failed (call_next attempt) = true) by (apply Hfail; lia).
    assert (Hfail' : forall j, (S attempt <= j < S attempt + S n)%nat ->
                               failed (call_next j) = true)
      by (intros j Hj; apply Hfail; lia).
    replace (attempt + S n)%nat with (S attempt + n)%nat by lia.
    change (retry_loop call_next uniform format_seconds endpoint_pattern
              retry_config circuit_config request_id (S (S n)) attempt last w)
      with (let w := emit (EvAttempt attempt) w in
            match call_next attempt with
            | Responded response execution_time =>
                let w := advance execution_time w in
                if resp_status response <? 500
                then
                  let w := record_success endpoint_pattern circuit_config w in
                  let h := set_header (resp_headers response) "X-Request-ID"
                             request_id in
                  let h := set_header h "X-Execution-Time"
                             (format_seconds execution_time) in
                  let h := set_header h "X-Retry-Attempt"
                             (Py.str_of_Z (Z.of_nat attempt + 1)) in
                  (inr {| resp_status := resp_status response;
                          resp_headers := h |}, w)
                else
                  retry_loop call_next uniform format_seconds endpoint_pattern
                    retry_config circuit_config request_id (S n) (S attempt)
                    (Some (HTTPException (resp_status response)
                             ("Server error: "
                              ++ Py.str_of_Z (resp_status response))))
                    (pause_before_retry uniform attempt retry_config w)
            | Threw e execution_time =>
                let w := advance execution_time w in
                retry_loop call_next uniform format_seconds endpoint_pattern
                  retry_config circuit_config request_id (S n) (S attempt)
                  (Some e) (pause_before_retry uniform attempt retry_config w)
            end).
    cbn zeta.
    destruct (call_next attempt) as [r0 t0|e0 t0]; cbn in Hf.
    + apply negb_true_iff in Hf. rewrite Hf. apply IH. exact Hfail'.
    + apply IH. exact Hfail'.
Qed.

End Exhausted.

Lemma check_keeps_the_store (c : ErrorHandling.Cache) (endpoint_pattern : string)
    (config : ErrorHandling.CircuitBreakerConfig) (now : Q) :
  exists c', snd (ErrorHandling._check_circuit_breaker (Some c) endpoint_pattern
                    config now) = Some c'.
Proof.
  unfold ErrorHandling._check_circuit_breaker.
  destruct (ErrorHandling.cache_get c _ now) as [d|]; [|eexists; reflexivity].
  destruct (ErrorHandling.state d); try (eexists; reflexivity).
  destruct (Clock.geb _ _); eexists; reflexivity.
Qed.

Lemma two_failures_at_once (c : ErrorHandling.Cache) (endpoint_pattern : string)
    (config : ErrorHandling.CircuitBreakerConfig) (t : Q) :
  0 < ErrorHandling.monitoring_window config ->
  ErrorHandling.circuit_record
    (ErrorHandling._record_circuit_failure
       (ErrorHandling._record_circuit_failure (Some c) endpoint_pattern config t)
       endpoint_pattern config t) endpoint_pattern t
  = Some (after_failure config
            (after_failure config (seen c endpoint_pattern t) t) t).
Proof.
  intros Hmw.
  assert (Hlt : (t < t + inject_Z (ErrorHandling.monitoring_window config))%Q).
  { assert (H0 : (0 < inject_Z (ErrorHandling.monitoring_window config))%Q)
      by (change 0%Q with (inject_Z 0); rewrite <- Zlt_Qlt; exact Hmw).
    lra. }
  pose proof (record_one_writes endpoint_pattern config c (Failure, t)) as H1.
  cbn [record_one snd after_one] in H1. rewrite H1.
  match goal with
  | |- context [ErrorHandling._record_circuit_failure (Some ?c1) _ _ _] =>
      pose proof (record_one_writes endpoint_pattern config c1 (Failure, t)) as H2
  end.
  cbn [record_one snd after_one] in H2. rewrite H2.
  unfold ErrorHandling.circuit_record.
  rewrite cache_get_set_same by exact Hlt.
  unfold seen at 1. rewrite cache_get_set_same by exact Hlt. reflexivity.
Qed.

(** X7.  On a handled path, with the store available and the circuit
    letting the request in, a request whose attempts all fail calls the
    handler once per configured attempt, is answered with the envelope of
    the failure of the last attempt, and is recorded as two failures: once
    by the executor after its loop and once more by [dispatch] itself, so
    the failure count of the circuit record rises by two. *)
Theorem exhausted_request_is_counted_twice
    (call_next : nat -> ErrorHandling.AttemptOutcome)
    (uniform : nat -> Q -> Q -> Q) (format_seconds : Q -> string)
    (path request_id timestamp : string) (w : ErrorHandling.World)
    (c : ErrorHandling.Cache) :
  let pattern := ErrorHandling._get_endpoint_pattern path in
  let circuit_config := ErrorHandling._get_circuit_config pattern in
  let retry_config := ErrorHandling._get_retry_config pattern in
  let checked :=
    ErrorHandling._check_circuit_breaker (Some c) pattern circuit_config
      (ErrorHandling.clock w) in
  let res :=
    ErrorHandling.dispatch call_next uniform format_seconds path request_id
      timestamp w in
  ErrorHandling._should_skip_error_handling path = false ->
  ErrorHandling.cache_manager w = Some c ->
  fst checked = true ->
  (forall j, (j < ErrorHandling.max_attempts retry_config)%nat ->
             failed (call_next j) = true) ->
  fst res
  = ErrorHandling.ErrorEnvelope
      (ErrorHandling._handle_error timestamp
         (error_of (call_next (ErrorHandling.max_attempts retry_config - 1)%nat))
         request_id)
  /\ attempts (ErrorHandling.trace (snd res))
     = attempts (ErrorHandling.trace w)
       ++ map ErrorHandling.EvAttempt
            (seq 0 (ErrorHandling.max_attempts retry_config))
  /\ recordings (ErrorHandling.trace (snd res))
     = recordings (ErrorHandling.trace w)
       ++ [ErrorHandling.EvRecordFailure; ErrorHandling.EvRecordFailure]
  /\ exists c',
       snd checked = Some c'
       /\ ErrorHandling.circuit_record (ErrorHandling.cache_manager (snd res))
            pattern (ErrorHandling.clock (snd res))
          = Some (after_failure circuit_config
                    (after_failure circuit_config
                       (seen c' pattern (ErrorHandling.clock (snd res)))
                       (ErrorHandling.clock (snd res)))
                    (ErrorHandling.clock (snd res)))
       /\ ErrorHandling.failure_count
            <$> ErrorHandling.circuit_record
                  (ErrorHandling.cache_manager (snd res)) pattern
                  (ErrorHandling.clock (snd res))
          = Some (ErrorHandling.failure_count
                    (seen c' pattern (ErrorHandling.clock (snd res))) + 2).
Proof.
  cbn zeta. intros Hskip Hcm Hadm Hfail.
  unfold ErrorHandling.dispatch. rewrite Hskip, Hcm.
  set (pattern := ErrorHandling._get_endpoint_pattern path) in *.
  pose proof (circuit_config_bounds pattern) as Hb. cbn zeta in Hb.
  pose proof (retry_config_attempts pattern) as Hn.
  set (circuit_config := ErrorHandling._get_circuit_config pattern) in *.
  set (retry_config := ErrorHandling._get_retry_config pattern) in *.
  destruct (check_keeps_the_store c pattern circuit_config (ErrorHandling.clock w))
    as [c' Hc'].
  destruct (ErrorHandling._check_circuit_breaker (Some c) pattern circuit_config
              (ErrorHandling.clock w)) as [allowed cm] eqn:Hchk.
  cbn [fst snd] in Hadm, Hc' |- *. subst allowed cm. cbn [negb].
  unfold ErrorHandling._execute_with_retry.
  set (w0 := ErrorHandling.with_cache (Some c') w).
  pose proof (loop_all_fail call_next uniform format_seconds pattern retry_config
                circuit_config request_id
                (ErrorHandling.max_attempts retry_config) 0%nat None w0) as Hall.
  cbn zeta in Hall.
  destruct Hall as [_ [Hrec [Hatt Hstore]]];
    [intros j Hj; apply Hfail; lia|].
  destruct (ErrorHandling.max_attempts retry_config) as [|n] eqn:Hmax; [lia|].
  pose proof (loop_raises_the_last_failure call_next uniform format_seconds
                pattern retry_config circuit_config request_id n 0%nat None w0)
    as Hlast.
  specialize (Hlast ltac:(intros j Hj; apply Hfail; lia)).
  destruct (ErrorHandling.retry_loop call_next uniform format_seconds pattern
              retry_config circuit_config request_id (S n) 0 None w0)
    as [r w1] eqn:Hloop.
  cbn [fst snd] in Hrec, Hatt, Hstore, Hlast |- *. subst r.
  replace (S n - 1)%nat with (0 + n)%nat by lia.
  split; [reflexivity|].
  split.
  { cbn. rewrite attempts_app, Hatt. cbn. rewrite app_nil_r. reflexivity. }
  split.
  { cbn. rewrite recordings_app, Hrec. cbn. rewrite <- app_assoc. reflexivity. }
  exists c'. split; [reflexivity|].
  assert (Hrecord :
    ErrorHandling.circuit_record
      (ErrorHandling.cache_manager
         (ErrorHandling.record_failure pattern circuit_config w1)) pattern
      (ErrorHandling.clock
         (ErrorHandling.record_failure pattern circuit_config w1))
    = Some (after_failure circuit_config
              (after_failure circuit_config
                 (seen c' pattern (ErrorHandling.clock w1))
                 (ErrorHandling.clock w1)) (ErrorHandling.clock w1))).
  { cbn [ErrorHandling.record_failure ErrorHandling.emit
         ErrorHandling.with_cache ErrorHandling.cache_manager
         ErrorHandling.clock].
    rewrite Hstore. cbn [w0 ErrorHandling.with_cache ErrorHandling.cache_manager].
    apply two_failures_at_once. lia. }
  split.
  - exact Hrecord.
  - refine (eq_trans (f_equal (fmap ErrorHandling.failure_count) Hrecord) _).
    cbn. f_equal. lia.
Qed.

Lemma exhausted_request_is_counted_twice_witness :
  let res :=
    ErrorHandling.dispatch broken_handler midpoint no_format "/api/v1/flows/run"
      "req-1" "2025-01-17T09:30:00" flows_counting_world in
  recordings (ErrorHandling.trace (snd res))
  = [ErrorHandling.EvRecordFailure; ErrorHandling.EvRecordFailure]
  /\ ErrorHandling.failure_count
       <$> ErrorHandling.circuit_record (ErrorHandling.cache_manager (snd res))
             "/api/v1/flows" (ErrorHandling.clock (snd res))
     = Some 3.
Proof.
  cbn zeta.
  destruct (exhausted_request_is_counted_twice broken_handler midpoint no_format
              "/api/v1/flows/run" "req-1" "2025-01-17T09:30:00"
              flows_counting_world flows_counting_store)
    as [_ [_ [Hrec [c' [Hc' [_ Hcount]]]]]].
  - reflexivity.
  - reflexivity.
  - reflexivity.
  - intros j _. reflexivity.
  - split; [exact Hrec|].
    change (Some flows_counting_store = Some c') in Hc'.
    injection Hc' as <-. exact Hcount.
Defined.

(** ** What [dispatch] answers on a handled path *)

Section Answers.

Import ErrorHandling.

Variable call_next : nat -> AttemptOutcome.
Variable uniform : nat -> Q -> Q -> Q.
Variable format_seconds : Q -> string.

(** A response the executor returns is below 500 and carries the request
    identifier, whatever the handler does. *)
Lemma loop_response
    (endpoint_pattern : string) (retry_config : RetryConfig)
    (circuit_config : CircuitBreakerConfig) (request_id : string)
    (remaining : nat) :
  forall (attempt : nat) (last : option PyError) (w : World) (r : Response),
    fst (retry_loop call_next uniform format_seconds endpoint_pattern
           retry_config circuit_config request_id remaining attempt last w)
    = inr r ->
    resp_status r < 500
    /\ get_header (resp_headers r) "X-Request-ID" = Some request_id.
Proof.
  induction remaining as [|n IH]; intros attempt last w r.
  - cbn [retry_loop]. destruct last; cbn; discriminate.
  - cbn [retry_loop].
    destruct (call_next attempt) as [r0 t0|e0 t0].
    + destruct (resp_status r0 <? 500) eqn:E.
      * cbn [fst]. intros H. injection H as <-. cbn [resp_status resp_headers].
        apply Z.ltb_lt in E. split; [exact E|].
        rewrite !get_set_header_other by discriminate.
        apply get_set_header_same.
      * apply IH.
    + apply IH.
Qed.

Lemma classified_status_is_an_error (error : PyError) :
  400 <= snd (fst (fst (_classify_error error))).
Proof.
  assert (Htext : 400 <= snd (fst (fst (classify_by_text error)))).
  { unfold classify_by_text.
    repeat match goal with
           | |- context [if ?b then _ else _] => destruct b
           end; cbn; lia. }
  destruct error as [sc d|t]; cbn [_classify_error]; [|exact Htext].
  destruct (Z.eqb_spec sc 400); [cbn; lia|].
  destruct (Z.eqb_spec sc 401); [cbn; lia|].
  destruct (Z.eqb_spec sc 403); [cbn; lia|].
  destruct (Z.eqb_spec sc 404); [cbn; lia|].
  destruct (Z.eqb_spec sc 429); [cbn; lia|].
  rewrite Z.geb_leb.
  destruct (Z.leb_spec 500 sc); [cbn; lia|exact Htext].
Qed.

Lemma envelope_carries_the_request_id (timestamp : string) (kind : ErrorType)
    (message request_id : string) (status_code : Z) (detail : option string)
    (retry_after : option Z) :
  let j := _create_error_response timestamp kind message request_id
             status_code detail retry_after in
  json_status j = status_code
  /\ get_header (json_headers j) "X-Request-ID" = Some request_id
  /\ er_request_id (json_content j) = request_id
  /\ er_error (json_content j) = true.
Proof.
  cbn zeta. unfold _create_error_response. cbn [json_status json_headers
    json_content er_request_id er_error].
  repeat split.
  destruct retry_after as [n|]; [|reflexivity].
  destruct (n =? 0); reflexivity.
Qed.

End Answers.

(** X8.  On a handled path no exception leaves [dispatch], and no answer of
    500 or above from the handler is passed on: the result is a handler
    response below 500 or an error envelope with a status of at least 400,
    and either one carries the request identifier. *)
Theorem handled_path_answers
    (call_next : nat -> ErrorHandling.AttemptOutcome)
    (uniform : nat -> Q -> Q -> Q) (format_seconds : Q -> string)
    (path request_id timestamp : string) (w : ErrorHandling.World) :
  ErrorHandling._should_skip_error_handling path = false ->
  match fst (ErrorHandling.dispatch call_next uniform format_seconds path
               request_id timestamp w) with
  | ErrorHandling.Passed r =>
      ErrorHandling.resp_status r < 500
      /\ ErrorHandling.get_header (ErrorHandling.resp_headers r) "X-Request-ID"
         = Some request_id
  | ErrorHandling.ErrorEnvelope j =>
      400 <= ErrorHandling.json_status j
      /\ ErrorHandling.get_header (ErrorHandling.json_headers j) "X-Request-ID"
         = Some request_id
      /\ ErrorHandling.er_request_id (ErrorHandling.json_content j) = request_id
      /\ ErrorHandling.er_error (ErrorHandling.json_content j) = true
  | ErrorHandling.Propagated _ => False
  end.
Proof.
  intros Hskip. unfold ErrorHandling.dispatch. rewrite Hskip.
  set (pattern := ErrorHandling._get_endpoint_pattern path).
  set (circuit_config := ErrorHandling._get_circuit_config pattern).
  set (retry_config := ErrorHandling._get_retry_config pattern).
  destruct (ErrorHandling._check_circuit_breaker _ pattern circuit_config _)
    as [allowed cm].
  destruct allowed; cbn [negb].
  - unfold ErrorHandling._execute_with_retry.
    pose proof (loop_response call_next uniform format_seconds pattern
                  retry_config circuit_config request_id
                  (ErrorHandling.max_attempts retry_config) 0%nat None
                  (ErrorHandling.with_cache cm w)) as Hresp.
    destruct (ErrorHandling.retry_loop _ _ _ _ _ _ _ _ _ _ _) as [[e|r] w1].
    + cbn [fst]. unfold ErrorHandling._handle_error.
      pose proof (classified_status_is_an_error e) as Hst.
      destruct (ErrorHandling._classify_error e) as [[[kind sc] m] dt].
      cbn [fst snd] in Hst.
      pose proof (envelope_carries_the_request_id timestamp kind m request_id
                    sc dt None) as H.
      cbn zeta in H. destruct H as [H1 [H2 [H3 H4]]].
      rewrite H1. auto.
    + cbn [fst] in *. apply Hresp. reflexivity.
  - cbn [fst].
    pose proof (envelope_carries_the_request_id timestamp
                  ErrorHandling.SERVICE_UNAVAILABLE
                  "Service is temporarily unavailable due to high error rate"
                  request_id 503 None
                  (Some (ErrorHandling.recovery_timeout circuit_config))) as H.
    cbn zeta in H. destruct H as [H1 [H2 [H3 H4]]].
    rewrite H1. split; [lia|auto].
Qed.

Lemma handled_path_answers_witness :
  match fst (ErrorHandling.dispatch broken_handler midpoint no_format
               "/api/v1/flows/run" "req-1" "2025-01-17T09:30:00"
               flows_counting_world) with
  | ErrorHandling.ErrorEnvelope j =>
      ErrorHandling.get_header (ErrorHandling.json_headers j) "X-Request-ID"
      = Some "req-1"%string
  | _ => False
  end.
Proof.
  pose proof (handled_path_answers broken_handler midpoint no_format
                "/api/v1/flows/run" "req-1" "2025-01-17T09:30:00"
                flows_counting_world eq_refl) as H.
  destruct (fst (ErrorHandling.dispatch broken_handler midpoint no_format
                   "/api/v1/flows/run" "req-1" "2025-01-17T09:30:00"
                   flows_counting_world)) as [r|j|e] eqn:E.
  - discriminate E.
  - apply H.
  - exact H.
Defined.

(** ** One circuit per endpoint class *)

Section OtherCircuits.

Import ErrorHandling.

Variables (endpoint_pattern other : string) (config : CircuitBreakerConfig).
Hypothesis Hother : other <> endpoint_pattern.

Lemma record_one_other (cm : option Cache) (ev : Recorded * Q) (t : Q) :
  circuit_record (record_one cm endpoint_pattern config ev) other t
  = circuit_record cm other t.
Proof.
  destruct cm as [c|]; [|destruct ev as [[|] t0]; reflexivity].
  exact (record_all_other endpoint_pattern config [ev] c other t Hother).
Qed.

Lemma check_other (cm : option Cache) (now t : Q) :
  circuit_record (snd (_check_circuit_breaker cm endpoint_pattern config now))
    other t
  = circuit_record cm other t.
Proof.
  destruct cm as [c|]; [|reflexivity].
  unfold _check_circuit_breaker.
  destruct (cache_get c (circuit_key endpoint_pattern) now) as [d|];
    [|reflexivity].
  destruct (state d); try reflexivity.
  destruct (Clock.geb _ _); [|reflexivity].
  cbn [snd circuit_record]. apply cache_get_set_other.
  unfold circuit_key. intros H. apply Hother.
  apply String.app_inj in H. congruence.
Qed.

Variable call_next : nat -> AttemptOutcome.
Variable uniform : nat -> Q -> Q -> Q.
Variable format_seconds : Q -> string.

Lemma loop_other (retry_config : RetryConfig) (request_id : string)
    (remaining : nat) :
  forall (attempt : nat) (last : option PyError) (w : World) (t : Q),
    circuit_record
      (cache_manager
         (snd (retry_loop call_next uniform format_seconds endpoint_pattern
                 retry_config config request_id remaining attempt last w)))
      other t
    = circuit_record (cache_manager w) other t.
Proof.
  induction remaining as [|n IH]; intros attempt last w t.
  - cbn [retry_loop].
    destruct last; cbn [snd record_failure emit with_cache cache_manager];
      exact (record_one_other (cache_manager w) (Failure, clock w) t).
  - cbn [retry_loop].
    destruct (call_next attempt) as [r0 t0|e0 t0].
    + destruct (resp_status r0 <? 500).
      * cbn [snd record_success emit with_cache cache_manager advance clock].
        exact (record_one_other (cache_manager w) (Success, _) t).
      * rewrite IH.
        destruct (pause_keeps uniform attempt retry_config
                    (advance t0 (emit (EvAttempt attempt) w))) as [Hc _].
        cbn zeta in Hc. rewrite Hc. reflexivity.
    + rewrite IH.
      destruct (pause_keeps uniform attempt retry_config
                  (advance t0 (emit (EvAttempt attempt) w))) as [Hc _].
      cbn zeta in Hc. rewrite Hc. reflexivity.
Qed.

End OtherCircuits.

(** X9.  Whatever a request does, [dispatch] reads and writes the circuit
    record of its own endpoint class only: the record of every other class
    is seen after the request as it was before it. *)
Theorem dispatch_touches_one_circuit
    (call_next : nat -> ErrorHandling.AttemptOutcome)
    (uniform : nat -> Q -> Q -> Q) (format_seconds : Q -> string)
    (path request_id timestamp other : string) (w : ErrorHandling.World)
    (t : Q) :
  other <> ErrorHandling._get_endpoint_pattern path ->
  ErrorHandling.circuit_record
    (ErrorHandling.cache_manager
       (snd (ErrorHandling.dispatch call_next uniform format_seconds path
               request_id timestamp w))) other t
  = ErrorHandling.circuit_record (ErrorHandling.cache_manager w) other t.
Proof.
  intros Hother. unfold ErrorHandling.dispatch.
  destruct (ErrorHandling._should_skip_error_handling path).
  - destruct (call_next 0%nat); reflexivity.
  - set (pattern := ErrorHandling._get_endpoint_pattern path) in *.
    set (circuit_config := ErrorHandling._get_circuit_config pattern).
    set (retry_config := ErrorHandling._get_retry_config pattern).
    pose proof (check_other pattern other circuit_config Hother
                  (ErrorHandling.cache_manager w) (ErrorHandling.clock w) t)
      as Hchk.
    destruct (ErrorHandling._check_circuit_breaker _ pattern circuit_config _)
      as [allowed cm].
    cbn [snd] in Hchk.
    destruct allowed; cbn [negb]; [|exact Hchk].
    unfold ErrorHandling._execute_with_retry.
    pose proof (loop_other pattern other circuit_config Hother call_next uniform
                  format_seconds retry_config request_id
                  (ErrorHandling.max_attempts retry_config) 0%nat None
                  (ErrorHandling.with_cache cm w) t) as Hloop.
    destruct (ErrorHandling.retry_loop _ _ _ _ _ _ _ _ _ _ _) as [[e|r] w1];
      cbn [snd ErrorHandling.with_cache ErrorHandling.cache_manager] in Hloop |- *.
    + cbn [ErrorHandling.record_failure ErrorHandling.emit
           ErrorHandling.with_cache ErrorHandling.cache_manager].
      pose proof (record_one_other pattern other circuit_config Hother
                    (ErrorHandling.cache_manager w1)
                    (Failure, ErrorHandling.clock w1) t) as Hrec.
      cbn [record_one] in Hrec. rewrite Hrec, Hloop. exact Hchk.
    + rewrite Hloop. exact Hchk.
Qed.

Lemma dispatch_touches_one_circuit_witness :
  ErrorHandling.circuit_record
    (ErrorHandling.cache_manager
       (snd (ErrorHandling.dispatch broken_handler midpoint no_format
               "/api/v1/billing/plans" "req-1" "2025-01-17T09:30:00"
               flows_counting_world))) "/api/v1/flows" 10
  = ErrorHandling.circuit_record
      (ErrorHandling.cache_manager flows_counting_world) "/api/v1/flows" 10.
Proof.
  apply (dispatch_touches_one_circuit broken_handler midpoint no_format
           "/api/v1/billing/plans" "req-1" "2025-01-17T09:30:00"
           "/api/v1/flows" flows_counting_world 10).
  vm_compute. discriminate.
Defined.

(** ** The counters of a circuit record *)

Section Consistency.

Import ErrorHandling.

Variables (endpoint_pattern : string) (config : CircuitBreakerConfig).
Hypothesis Hft : 0 < failure_threshold config.
Hypothesis Hst : 0 < success_threshold config.

Lemma fresh_consistent : consistent config fresh_circuit_data.
Proof. unfold consistent. cbn. lia. Qed.

Lemma after_one_consistent (d : CircuitData) (ev : Recorded * Q) :
  consistent config d -> consistent config (after_one config d ev).
Proof.
  destruct ev as [[|] t]; cbn [after_one].
  - unfold consistent, after_success.
    destruct (state d) eqn:E; cbv iota; rewrite ?E; try tauto.
    rewrite Z.geb_leb.
    destruct (Z.leb_spec (success_threshold config) (success_count d + 1));
      cbn [state failure_count success_count fresh_circuit_data];
      rewrite ?E; lia.
  - unfold consistent, after_failure. cbn [state failure_count success_count].
    rewrite Z.geb_leb.
    destruct (state d) eqn:E; cbn [CircuitState_eqb negb andb];
      destruct (Z.leb_spec (failure_threshold config) (failure_count d + 1));
      lia.
Qed.

Lemma seen_consistent (c : Cache) (now : Q) :
  stored_consistent endpoint_pattern config (Some c) ->
  consistent config (seen c endpoint_pattern now).
Proof.
  intros Hc. unfold seen, cache_get.
  destruct (c !! circuit_key endpoint_pattern) as [e|] eqn:E;
    [|exact fresh_consistent].
  destruct (Clock.ltb now (entry_expiry e)); [|exact fresh_consistent].
  exact (Hc c e eq_refl E).
Qed.

Lemma set_consistent (c : Cache) (d : CircuitData) (ttl : Z) (now : Q) :
  consistent config d ->
  stored_consistent endpoint_pattern config
    (Some (cache_set c (circuit_key endpoint_pattern) d ttl now)).
Proof.
  intros Hd c' e Hc' He. injection Hc' as <-.
  unfold cache_set in He. rewrite lookup_insert_eq in He.
  injection He as <-. exact Hd.
Qed.

Lemma step_one_consistent (cm : option Cache) (s : Step) :
  stored_consistent endpoint_pattern config cm ->
  stored_consistent endpoint_pattern config
    (step_one cm endpoint_pattern config s).
Proof.
  intros Hcm. destruct cm as [c|].
  2:{ destruct s as [now|[[|] t]]; intros c e H; discriminate H. }
  destruct s as [now|ev]; cbn [step_one].
  - unfold _check_circuit_breaker.
    destruct (cache_get c (circuit_key endpoint_pattern) now) as [d|] eqn:Eg;
      [|exact Hcm].
    destruct (state d) eqn:Es; try exact Hcm.
    destruct (Clock.geb _ _); [|exact Hcm].
    cbn [snd]. apply set_consistent.
    pose proof (seen_consistent c now Hcm) as Hd.
    unfold seen in Hd. rewrite Eg in Hd. change (consistent config d) in Hd.
    unfold consistent in Hd |- *. rewrite Es in Hd.
    cbn [state failure_count success_count]. lia.
  - rewrite record_one_writes. apply set_consistent.
    apply after_one_consistent. apply seen_consistent. exact Hcm.
Qed.

Lemma step_all_consistent (ss : list Step) :
  forall cm, stored_consistent endpoint_pattern config cm ->
             stored_consistent endpoint_pattern config
               (step_all cm endpoint_pattern config ss).
Proof.
  induction ss as [|s ss IH]; intros cm Hcm; [exact Hcm|].
  cbn [step_all fold_left]. apply IH. apply step_one_consistent. exact Hcm.
Qed.

End Consistency.

(** X10.  Starting from an empty store, after any sequence of admission
    checks and recordings at any clock readings, the record seen for an
    endpoint class is closed exactly when its failure count is below the
    configured failure threshold; a closed or open record has no counted
    successes, and a half-open one fewer than the success threshold. *)
Theorem circuit_is_closed_exactly_below_the_threshold
    (endpoint_pattern : string) (ss : list Step) (t : Q)
    (d : ErrorHandling.CircuitData) :
  let config := ErrorHandling._get_circuit_config endpoint_pattern in
  ErrorHandling.circuit_record
    (step_all (Some ∅) endpoint_pattern config ss) endpoint_pattern t = Some d ->
  consistent config d
  /\ (ErrorHandling.state d = ErrorHandling.CLOSED
      <-> ErrorHandling.failure_count d < ErrorHandling.failure_threshold config)
  /\ 0 <= ErrorHandling.failure_count d
  /\ 0 <= ErrorHandling.success_count d < ErrorHandling.success_threshold config.
Proof.
  cbn zeta. intros Hd.
  pose proof (circuit_config_bounds endpoint_pattern) as Hb. cbn zeta in Hb.
  set (config := ErrorHandling._get_circuit_config endpoint_pattern) in *.
  assert (Hcons : consistent config d).
  { assert (Hall : stored_consistent endpoint_pattern config
                     (step_all (Some ∅) endpoint_pattern config ss)).
    { apply step_all_consistent; [lia|lia|].
      intros c e Hc He. injection Hc as <-. rewrite lookup_empty in He.
      discriminate He. }
    unfold ErrorHandling.circuit_record in Hd.
    destruct (step_all (Some ∅) endpoint_pattern config ss) as [c|];
      [|discriminate Hd].
    unfold ErrorHandling.cache_get in Hd.
    destruct (c !! ErrorHandling.circuit_key endpoint_pattern) as [e|] eqn:E;
      [|discriminate Hd].
    destruct (Clock.ltb t (ErrorHandling.entry_expiry e)); [|discriminate Hd].
    injection Hd as <-. exact (Hall c e eq_refl E). }
  split; [exact Hcons|].
  unfold consistent in Hcons.
  destruct (ErrorHandling.state d); repeat split; try lia; try discriminate.
Qed.

Lemma circuit_is_closed_exactly_below_the_threshold_witness :
  let d := {| ErrorHandling.state := ErrorHandling.OPEN;
              ErrorHandling.failure_count := 2;
              ErrorHandling.success_count := 0;
              ErrorHandling.last_failure_time := 1 |} in
  ErrorHandling.circuit_record
    (step_all (Some ∅) "/api/v1/admin"
       (ErrorHandling._get_circuit_config "/api/v1/admin")
       [Record_ (Failure, 0%Q); Record_ (Success, (1 # 2)%Q);
        Record_ (Failure, 1%Q); Check 2]) "/api/v1/admin" 3 = Some d
  /\ (ErrorHandling.state d = ErrorHandling.CLOSED
      <-> ErrorHandling.failure_count d
          < ErrorHandling.failure_threshold
              (ErrorHandling._get_circuit_config "/api/v1/admin")).
Proof.
  cbn zeta.
  assert (H : ErrorHandling.circuit_record
                (step_all (Some ∅) "/api/v1/admin"
                   (ErrorHandling._get_circuit_config "/api/v1/admin")
                   [Record_ (Failure, 0%Q); Record_ (Success, (1 # 2)%Q);
                    Record_ (Failure, 1%Q); Check 2]) "/api/v1/admin" 3
              = Some {| ErrorHandling.state := ErrorHandling.OPEN;
                        ErrorHandling.failure_count := 2;
                        ErrorHandling.success_count := 0;
                        ErrorHandling.last_failure_time := 1 |})
    by reflexivity.
  split; [exact H|].
  exact (proj1 (proj2 (circuit_is_closed_exactly_below_the_threshold
                         "/api/v1/admin" _ 3 _ H))).
Defined.

(** ** The pauses of a request *)

Section Pauses.

Import ErrorHandling.

Variable call_next : nat -> AttemptOutcome.
Variable uniform : nat -> Q -> Q -> Q.
Variable format_seconds : Q -> string.

Lemma naps_app (a b : list Event) : naps (a ++ b) = naps a ++ naps b.
Proof. apply flat_map_app. Qed.

Lemma pause_naps (attempt : nat) (retry_config : RetryConfig) (w : World) :
  naps (trace (pause_before_retry uniform attempt retry_config w))
  = naps (trace w)
    ++ (if (S attempt <? max_attempts retry_config)%nat
        then [_calculate_retry_delay uniform attempt retry_config] else [])
  /\ attempts (trace (pause_before_retry uniform attempt retry_config w))
     = attempts (trace w).
Proof.
  unfold pause_before_retry.
  destruct (Nat.ltb_spec (S attempt) (max_attempts retry_config)) as [H|H];
    destruct (Z.ltb_spec (Z.of_nat attempt)
                (Z.of_nat (max_attempts retry_config) - 1)) as [H'|H'];
    try lia.
  - cbn. rewrite naps_app, attempts_app. cbn. rewrite app_nil_r. auto.
  - rewrite app_nil_r. auto.
Qed.

(** The executor pauses after every attempt it makes but the last one it
    makes: the pauses are the delays of the attempts but the last. *)
Lemma loop_naps
    (endpoint_pattern : string) (retry_config : RetryConfig)
    (circuit_config : CircuitBreakerConfig) (request_id : string)
    (remaining : nat) :
  forall (attempt : nat) (last : option PyError) (w : World),
    (attempt + remaining = max_attempts retry_config)%nat ->
    let res := retry_loop call_next uniform format_seconds endpoint_pattern
                 retry_config circuit_config request_id remaining attempt
                 last w in
    exists made : nat,
      (made <= remaining)%nat
      /\ (0 < remaining -> 0 < made)%nat
      /\ attempts (trace (snd res))
         = attempts (trace w) ++ map EvAttempt (seq attempt made)
      /\ naps (trace (snd res))
         = naps (trace w)
           ++ map (fun j => _calculate_retry_delay uniform j retry_config)
                (seq attempt (made - 1)).
Proof.
  induction remaining as [|n IH]; intros attempt last w Hsum; cbn zeta.
  - exists 0%nat. cbn [retry_loop].
    destruct last; cbn; rewrite naps_app, attempts_app; cbn;
      rewrite !app_nil_r; repeat split; lia.
  - cbn [retry_loop].
    assert (Hstep :
      forall last' t0,
        exists made : nat,
          (made <= S n)%nat /\ (0 < S n -> 0 < made)%nat
          /\ attempts
               (trace (snd (retry_loop call_next uniform format_seconds
                              endpoint_pattern retry_config circuit_config
                              request_id n (S attempt) last'
                              (pause_before_retry uniform attempt retry_config
                                 (advance t0 (emit (EvAttempt attempt) w))))))
             = attempts (trace w) ++ map EvAttempt (seq attempt made)
          /\ naps
               (trace (snd (retry_loop call_next uniform format_seconds
                              endpoint_pattern retry_config circuit_config
                              request_id n (S attempt) last'
                              (pause_before_retry uniform attempt retry_config
                                 (advance t0 (emit (EvAttempt attempt) w))))))
             = naps (trace w)
               ++ map (fun j => _calculate_retry_delay uniform j retry_config)
                    (seq attempt (made - 1))).
    { intros last' t0.
      destruct (IH (S attempt) last'
                  (pause_before_retry uniform attempt retry_config
                     (advance t0 (emit (EvAttempt attempt) w))))
        as [made [Hle [Hpos [Hatt Hnap]]]]; [lia|].
      destruct (pause_naps attempt retry_config
                  (advance t0 (emit (EvAttempt attempt) w))) as [Hpn Hpa].
      exists (S made). split; [lia|]. split; [lia|].
      rewrite Hatt, Hnap, Hpn, Hpa. cbn [advance emit trace].
      rewrite naps_app, attempts_app. cbn [naps attempts flat_map List.filter
        is_attempt app].
      rewrite !app_nil_r, <- !app_assoc. cbn [seq map app]. split; [reflexivity|].
      f_equal.
      destruct (Nat.ltb_spec (S attempt) (max_attempts retry_config)) as [H|H].
      - assert (0 < made)%nat by (apply Hpos; lia).
        replace (S made - 1)%nat with (S (made - 1)) by lia. reflexivity.
      - assert (made = 0)%nat as -> by lia. reflexivity. }
    destruct (call_next attempt) as [r0 t0|e0 t0].
    + destruct (resp_status r0 <? 500); [|apply Hstep].
      exists 1%nat. cbn. rewrite !naps_app, !attempts_app. cbn.
      rewrite !app_nil_r. repeat split; lia.
    + apply Hstep.
Qed.

End Pauses.

Lemma total_app (a b : list Q) : (total (a ++ b) == total a + total b)%Q.
Proof.
  unfold total. induction a as [|x a IH]; cbn.
  - lra.
  - rewrite IH. lra.
Qed.

Lemma retry_delay_at_most (uniform : nat -> Q -> Q -> Q) (attempt : nat)
    (config : ErrorHandling.RetryConfig) (bound : Q) :
  (0 <= ErrorHandling.initial_delay config)%Q ->
  (0 <= ErrorHandling.exponential_base config)%Q ->
  (0 <= ErrorHandling.max_delay config)%Q ->
  (forall lo hi : Q, (lo <= hi)%Q -> (lo <= uniform attempt lo hi <= hi)%Q) ->
  (1 # 10 <= bound)%Q ->
  ((5 # 4) * (ErrorHandling.initial_delay config
              * ErrorHandling.exponential_base config ^ Z.of_nat attempt)
   <= bound)%Q ->
  (ErrorHandling._calculate_retry_delay uniform attempt config <= bound)%Q.
Proof.
  intros Hinit Hbase Hmax Hdraw Hmin Hbound.
  unfold ErrorHandling._calculate_retry_delay.
  assert (Hexp : (0 <= ErrorHandling.initial_delay config
                       * ErrorHandling.exponential_base config ^ Z.of_nat attempt)%Q).
  { apply Qmult_le_0_compat; [exact Hinit|]. apply Qpower_0_le. exact Hbase. }
  set (exponential := (ErrorHandling.initial_delay config
                       * ErrorHandling.exponential_base config ^ Z.of_nat attempt)%Q)
    in *.
  set (capped := if Clock.ltb (ErrorHandling.max_delay config) exponential
                 then ErrorHandling.max_delay config else exponential).
  assert (Hcap : (0 <= capped /\ capped <= exponential)%Q).
  { subst capped.
    destruct (Clock.ltb (ErrorHandling.max_delay config) exponential) eqn:E.
    - apply ltb_lt in E. lra.
    - lra. }
  destruct Hcap as [Hc0 Hc1].
  destruct (ErrorHandling.jitter config).
  - specialize (Hdraw (- (capped * (1 # 4)))%Q (capped * (1 # 4))%Q).
    assert (Hrange : (- (capped * (1 # 4)) <= capped * (1 # 4))%Q) by lra.
    specialize (Hdraw Hrange).
    set (draw := uniform attempt (- (capped * (1 # 4)))%Q (capped * (1 # 4))%Q) in *.
    destruct (Clock.ltb (1 # 10) (capped + draw)) eqn:E; [lra|exact Hmin].
  - destruct (Clock.ltb (1 # 10) capped) eqn:E; [lra|exact Hmin].
Qed.

Lemma configured_pauses_at_most (uniform : nat -> Q -> Q -> Q)
    (pattern : string) (k : nat) :
  (forall j lo hi, (lo <= hi)%Q -> (lo <= uniform j lo hi <= hi)%Q) ->
  (k <= ErrorHandling.max_attempts (ErrorHandling._get_retry_config pattern) - 1)%nat ->
  (total (map (fun j => ErrorHandling._calculate_retry_delay uniform j
                          (ErrorHandling._get_retry_config pattern))
            (seq 0 k)) <= 15 # 4)%Q.
Proof.
  intros Hdraw Hk.
  assert (Hone : forall j config bound,
             In config [ ErrorHandling.mkRetryConfig 2 (1 # 10);
                         ErrorHandling.mkRetryConfig 3 (1 # 2);
                         ErrorHandling.mkRetryConfig 3 1 ] ->
             (1 # 10 <= bound)%Q ->
             ((5 # 4) * (ErrorHandling.initial_delay config
                         * ErrorHandling.exponential_base config ^ Z.of_nat j)
              <= bound)%Q ->
             (ErrorHandling._calculate_retry_delay uniform j config <= bound)%Q).
  { intros j config bound Hin Hmin Hb.
    apply retry_delay_at_most; try assumption; try apply Hdraw;
      destruct Hin as [H|[H|[H|[]]]]; rewrite <- H; vm_compute; discriminate. }
  pose proof (retry_config_cases pattern) as Hin.
  set (config := ErrorHandling._get_retry_config pattern) in *.
  pose proof (Hone 0%nat config (5 # 4)%Q Hin) as H0.
  pose proof (Hone 1%nat config (5 # 2)%Q Hin) as H1.
  unfold total.
  destruct Hin as [H|[H|[H|[]]]]; rewrite <- H in *;
    cbn [ErrorHandling.max_attempts ErrorHandling.mkRetryConfig] in Hk;
    destruct k as [|[|k]]; try lia; cbn [seq map fold_right];
    try (specialize (H0 ltac:(vm_compute; discriminate)
                        ltac:(vm_compute; discriminate)));
    try (specialize (H1 ltac:(vm_compute; discriminate)
                        ltac:(vm_compute; discriminate)));
    try lra;
    (destruct k; [|lia]); cbn [seq map fold_right]; lra.
Qed.

(** X11.  With the random draw inside the interval it is drawn from, a
    request makes at most three calls of the handler, numbered from 0; it
    pauses once after each call but the last one it makes, the pause after
    call [j] being the retry delay of attempt [j]; and all its pauses
    together take at most 3.75 seconds, whatever the path. *)
Theorem pauses_of_a_request
    (call_next : nat -> ErrorHandling.AttemptOutcome)
    (uniform : nat -> Q -> Q -> Q) (format_seconds : Q -> string)
    (path request_id timestamp : string) (w : ErrorHandling.World) :
  (forall j lo hi, (lo <= hi)%Q -> (lo <= uniform j lo hi <= hi)%Q) ->
  let res :=
    ErrorHandling.dispatch call_next uniform format_seconds path request_id
      timestamp w in
  let retry_config :=
    ErrorHandling._get_retry_config (ErrorHandling._get_endpoint_pattern path) in
  exists made : nat,
    (made <= 3)%nat
    /\ attempts (ErrorHandling.trace (snd res))
       = attempts (ErrorHandling.trace w)
         ++ map ErrorHandling.EvAttempt (seq 0 made)
    /\ naps (ErrorHandling.trace (snd res))
       = naps (ErrorHandling.trace w)
         ++ map (fun j => ErrorHandling._calculate_retry_delay uniform j
                            retry_config) (seq 0 (made - 1))
    /\ (total (naps (ErrorHandling.trace (snd res)))
        <= total (naps (ErrorHandling.trace w)) + (15 # 4))%Q.
Proof.
  intros Hdraw. cbn zeta. unfold ErrorHandling.dispatch.
  destruct (ErrorHandling._should_skip_error_handling path).
  - exists 1%nat. split; [lia|].
    destruct (call_next 0%nat);
      cbn [snd ErrorHandling.advance ErrorHandling.emit ErrorHandling.trace];
      rewrite naps_app, attempts_app;
      cbn [naps attempts flat_map List.filter is_attempt app seq map Nat.sub];
      rewrite !app_nil_r; repeat split; lra.
  - set (pattern := ErrorHandling._get_endpoint_pattern path).
    pose proof (retry_config_attempts pattern) as Hn.
    pose proof (fun k => configured_pauses_at_most uniform pattern k Hdraw)
      as Hbound.
    set (circuit_config := ErrorHandling._get_circuit_config pattern).
    set (retry_config := ErrorHandling._get_retry_config pattern) in *.
    destruct (ErrorHandling._check_circuit_breaker _ pattern circuit_config _)
      as [allowed cm].
    destruct allowed; cbn [negb].
    + unfold ErrorHandling._execute_with_retry.
      destruct (loop_naps call_next uniform format_seconds pattern retry_config
                  circuit_config request_id
                  (ErrorHandling.max_attempts retry_config) 0%nat None
                  (ErrorHandling.with_cache cm w) eq_refl)
        as [made [Hle [_ [Hatt Hnap]]]].
      cbn [ErrorHandling.with_cache ErrorHandling.trace] in Hatt, Hnap.
      exists made. split; [lia|].
      assert (Hsum :
        (total (naps (ErrorHandling.trace w)
                ++ map (fun j => ErrorHandling._calculate_retry_delay uniform j
                                   retry_config) (seq 0 (made - 1)))
         <= total (naps (ErrorHandling.trace w)) + (15 # 4))%Q).
      { rewrite total_app. specialize (Hbound (made - 1)%nat ltac:(lia)). lra. }
      destruct (ErrorHandling.retry_loop _ _ _ _ _ _ _ _ _ _ _) as [[e|r] w1];
        cbn [snd] in Hatt, Hnap |- *.
      * cbn [ErrorHandling.record_failure ErrorHandling.emit
             ErrorHandling.with_cache ErrorHandling.trace].
        rewrite naps_app, attempts_app, Hatt, Hnap. cbn [naps attempts flat_map
          List.filter is_attempt app]. rewrite !app_nil_r.
        repeat split. exact Hsum.
      * rewrite Hatt, Hnap. repeat split. exact Hsum.
    + exists 0%nat.
      cbn [snd seq map Nat.sub ErrorHandling.with_cache ErrorHandling.trace].
      rewrite !app_nil_r. repeat split; [lia|lra].
Qed.

Lemma pauses_of_a_request_witness :
  (total (naps (ErrorHandling.trace
                  (snd (ErrorHandling.dispatch broken_handler midpoint no_format
                          "/api/v1/billing/plans" "req-1" "2025-01-17T09:30:00"
                          flows_counting_world))))
   <= total (naps (ErrorHandling.trace flows_counting_world)) + (15 # 4))%Q.
Proof.
  destruct (pauses_of_a_request broken_handler midpoint no_format
              "/api/v1/billing/plans" "req-1" "2025-01-17T09:30:00"
              flows_counting_world) as [made [_ [_ [_ H]]]].
  - intros j lo hi H. unfold midpoint, Qdiv. change (/ 2)%Q with (1 # 2)%Q. lra.
  - exact H.
Defined.

(** ** Requests that reach the handler *)

Section Reaching.

Import TenantContext.

Variable call_next : nat -> Invocation -> option Z.

(** [dispatch] once the organization is resolved and the membership
    validated. *)
Lemma dispatch_resolved (db : Database) (request : Request) (org : string)
    (released1 released2 : list Session) :
  _should_skip_path (url_path request) = false ->
  _extract_organization_id db request = (Some org, released1) ->
  org <> EmptyString ->
  _validate_organization_access db request org = (true, released2) ->
  (has_db_session request = true -> set_current_tenant_ok db org = true) ->
  dispatch call_next db request
  = (guarded_call call_next (in_organization request org),
     released1 ++ released2).
Proof.
  intros Hskip Hext Hne Hval Hset. unfold dispatch.
  rewrite Hskip, Hext, (truthy_nonempty org Hne), Hval.
  unfold _set_tenant_context, exec_set_current_tenant, in_organization.
  destruct (has_db_session request); [|reflexivity].
  rewrite (Hset eq_refl). reflexivity.
Qed.

Lemma validate_anonymous (db : Database) (request : Request) (org : string) :
  Py.truthy (state_user_id request) = false ->
  _validate_organization_access db request org = (true, []).
Proof.
  intros H. unfold _validate_organization_access.
  destruct (state_user_id request) as [u|]; [|reflexivity].
  rewrite H. reflexivity.
Qed.

Lemma extract_header (db : Database) (request : Request) (org : string) :
  header_org_id request = Some org -> org <> EmptyString ->
  _extract_organization_id db request = (Some org, []).
Proof.
  intros Hh Hne. unfold _extract_organization_id.
  rewrite Hh, (truthy_nonempty org Hne). reflexivity.
Qed.

End Reaching.

(** X12.  A request without user id that names an organization in the
    [X-Organization-ID] header is not checked against any membership: on a
    route that is not exempted no database session is opened, and the
    handler is called with that organization in the request state and, if
    the request has a database session, as the tenant of that session. *)
Theorem caller_without_user_id_enters_any_organization
    (call_next : nat -> TenantContext.Invocation -> option Z)
    (db : TenantContext.Database) (request : TenantContext.Request)
    (org : string) :
  TenantContext._should_skip_path (TenantContext.url_path request) = false ->
  TenantContext.header_org_id request = Some org ->
  org <> EmptyString ->
  Py.truthy (TenantContext.state_user_id request) = false ->
  (TenantContext.has_db_session request = true ->
   TenantContext.set_current_tenant_ok db org = true) ->
  TenantContext.dispatch call_next db request
  = (TenantContext.guarded_call call_next (in_organization request org), [])
  /\ snd (fst (TenantContext.dispatch call_next db request))
     <> TenantContext.Forbidden
  /\ forall i, In i (fst (fst (TenantContext.dispatch call_next db request))) ->
               TenantContext.seen_organization_id i = Some org.
Proof.
  intros Hskip Hh Hne Hanon Hset.
  assert (Hd : TenantContext.dispatch call_next db request
               = (TenantContext.guarded_call call_next
                    (in_organization request org), [])).
  { rewrite (dispatch_resolved call_next db request org [] [] Hskip
               (extract_header db request org Hh Hne) Hne
               (validate_anonymous db request org Hanon) Hset).
    reflexivity. }
  split; [exact Hd|]. rewrite Hd. cbn [fst snd].
  unfold TenantContext.guarded_call, TenantContext.on_exception,
         TenantContext.invoke.
  destruct (call_next 0%nat (in_organization request org));
    cbn [fst snd length app].
  - split; [discriminate|]. intros i [<-|[]]. reflexivity.
  - split; [destruct (call_next 1%nat _); discriminate|].
    intros i [<-|[<-|[]]]; reflexivity.
Qed.

Lemma caller_without_user_id_enters_any_organization_witness :
  TenantContext.dispatch ok_handler healthy_db (anonymous_request "org-9")
  = ([ {| TenantContext.seen_organization_id := Some "org-9"%string;
          TenantContext.seen_session_tenant := Some "org-9"%string |} ],
     TenantContext.Answered 200, []).
Proof.
  apply (caller_without_user_id_enters_any_organization ok_handler healthy_db
           (anonymous_request "org-9") "org-9");
    try reflexivity; discriminate.
Defined.



(** X14.  On a route that is not exempted a request is refused without
    any call of the handler, or the handler is called once and answers,
    or its first call raises and it is then called a second time, with the
    same request state, by the [except] arm of [dispatch]: what the second
    call does, answer or raise, is what the middleware does.  When the
    tenant statement has raised, the only call is the one of that arm,
    made without any organization. *)
Theorem handler_is_called_again_when_it_raises
    (call_next : nat -> TenantContext.Invocation -> option Z)
    (db : TenantContext.Database) (request : TenantContext.Request) :
  TenantContext._should_skip_path (TenantContext.url_path request) = false ->
  let calls := fst (fst (TenantContext.dispatch call_next db request)) in
  let outcome := snd (fst (TenantContext.dispatch call_next db request)) in
  (calls = [] /\ outcome = TenantContext.Forbidden)
  \/ (exists i status,
        calls = [i] /\ call_next 0%nat i = Some status
        /\ outcome = TenantContext.Answered status)
  \/ (exists i,
        calls = [i; i] /\ call_next 0%nat i = None
        /\ outcome = TenantContext.invoke call_next 1%nat i)
  \/ (calls = [no_context] /\ call_next 0%nat no_context = None
      /\ outcome = TenantContext.Raised
      /\ exists org,
           TenantContext._set_tenant_context db request org
             TenantContext.fresh_session = None).
Proof.
  intros Hskip. cbn zeta. unfold TenantContext.dispatch. rewrite Hskip.
  assert (Hguard : forall i0 : TenantContext.Invocation,
    (exists i status,
        fst (TenantContext.guarded_call call_next i0) = [i]
        /\ call_next 0%nat i = Some status
        /\ snd (TenantContext.guarded_call call_next i0)
           = TenantContext.Answered status)
    \/ (exists i,
          fst (TenantContext.guarded_call call_next i0) = [i; i]
          /\ call_next 0%nat i = None
          /\ snd (TenantContext.guarded_call call_next i0)
             = TenantContext.invoke call_next 1%nat i)).
  { intros i.
    unfold TenantContext.guarded_call, TenantContext.on_exception.
    destruct (call_next 0%nat i) as [status|] eqn:E.
    - left. exists i, status. auto.
    - right. exists i. auto. }
  destruct (TenantContext._extract_organization_id db request)
    as [[org|] released1].
  2:{ cbn [fst snd].
      destruct (Hguard no_context) as [H|H]; [right; left|right; right; left];
        exact H. }
  destruct (Py.truthy (Some org)).
  2:{ cbn [fst snd].
      destruct (Hguard no_context) as [H|H]; [right; left|right; right; left];
        exact H. }
  destruct (TenantContext._validate_organization_access db request org)
    as [[|] released2]; [|left; auto].
  destruct (TenantContext._set_tenant_context db request org
              TenantContext.fresh_session) as [session|] eqn:Eset.
  - cbn [fst snd].
    match goal with
    | |- context [TenantContext.guarded_call call_next ?i] =>
        destruct (Hguard i) as [H|H]
    end; [right; left|right; right; left]; exact H.
  - cbn [fst snd TenantContext.on_exception app length].
    unfold TenantContext.invoke. fold no_context.
    destruct (call_next 0%nat no_context) as [status|] eqn:E.
    + right. left. exists no_context, status. auto.
    + right. right. right. repeat split; auto. exists org. exact Eset.
Qed.

Lemma handler_is_called_again_when_it_raises_witness :
  fst (TenantContext.dispatch raises_once healthy_db (request_for "org-1"))
  = ([ in_organization (request_for "org-1") "org-1";
       in_organization (request_for "org-1") "org-1" ],
     TenantContext.Answered 200)
  /\ fst (TenantContext.dispatch raising_handler healthy_db
            (request_for "org-1"))
     = ([ in_organization (request_for "org-1") "org-1";
          in_organization (request_for "org-1") "org-1" ],
        TenantContext.Raised).
Proof.
  split.
  - destruct (handler_is_called_again_when_it_raises raises_once healthy_db
                (request_for "org-1") eq_refl)
      as [[H _]|[[i [status [_ [H _]]]]|[[i [H1 [_ H2]]]|[H _]]]].
    + discriminate H.
    + discriminate H.
    + reflexivity.
    + discriminate H.
  - destruct (handler_is_called_again_when_it_raises raising_handler
                healthy_db (request_for "org-1") eq_refl)
      as [[H _]|[[i [status [_ [H _]]]]|[[i [H1 [_ H2]]]|[H _]]]].
    + discriminate H.
    + discriminate H.
    + reflexivity.
    + discriminate H.
Defined.

(** ** Queries that go around row security *)

Section AroundRowSecurity.

Import TenantContext FlowCRUD.

Lemma slice_to_length {A} (l : list A) (limit : Z) :
  0 <= limit -> Z.of_nat (length (Py.slice_to l limit)) <= limit.
Proof.
  intros H. unfold Py.slice_to.
  destruct (Z.leb_spec 0 limit); [|lia].
  rewrite length_firstn. lia.
Qed.

End AroundRowSecurity.

(** X15.  [get_public_flows] gives the session back with row security on
    whenever the statement that switches it on runs, also when the query
    raises; the tenant of the session is left as it was; the query itself
    runs with row security off when the statement that switches it off
    runs and, since a failure of that statement is only logged, on the
    session as it was otherwise. *)
Theorem public_flows_query_restores_row_security
    (Flow : Type) (db : TenantContext.Database)
    (public_rows : TenantContext.Session -> option (list Flow))
    (s : TenantContext.Session) :
  TenantContext.set_row_security_ok db true = true ->
  let res := FlowCRUD.get_public_flows Flow db public_rows s in
  TenantContext.row_security (fst res) = true
  /\ TenantContext.current_tenant (fst res) = TenantContext.current_tenant s
  /\ snd res
     = public_rows
         (if TenantContext.set_row_security_ok db false
          then {| TenantContext.row_security := false;
                  TenantContext.current_tenant :=
                    TenantContext.current_tenant s |}
          else s).
Proof.
  intros Hon. cbn zeta.
  unfold FlowCRUD.get_public_flows, FlowCRUD.finally_enable_rls,
         FlowCRUD.exec_select, TenantContext.bind, TenantContext.bypass_rls,
         TenantContext.enable_rls, TenantContext.exec_set_row_security.
  rewrite Hon.
  destruct (TenantContext.set_row_security_ok db false); cbn; auto.
Qed.

Lemma public_flows_query_restores_row_security_witness :
  FlowCRUD.get_public_flows string healthy_db rows_raise
    TenantContext.fresh_session
  = (TenantContext.fresh_session, None).
Proof.
  pose proof (public_flows_query_restores_row_security string healthy_db
                rows_raise TenantContext.fresh_session eq_refl) as H.
  cbn zeta in H. destruct H as [H1 [H2 H3]].
  destruct (FlowCRUD.get_public_flows string healthy_db rows_raise
              TenantContext.fresh_session) as [[rls tenant] r].
  cbn in H1, H2, H3. subst. reflexivity.
Defined.

(** X16.  When [search_flows] returns, with a limit that is not negative,
    it returns at most [limit] flows, the flows of the organization first;
    the session is left with the organization as its tenant; and when the
    public flows are not asked for, or the organization alone gives
    [limit] flows, row security is not touched.  When the statement that
    sets the tenant raises, no query is made at all. *)
Theorem search_flows_stays_within_the_limit
    (Flow : Type) (db : TenantContext.Database) (organization_id : string)
    (org_rows : TenantContext.Session -> option (list Flow))
    (public_rows : Z -> TenantContext.Session -> option (list Flow))
    (include_public : bool) (limit : Z) (s : TenantContext.Session)
    (found : list Flow) :
  0 <= limit ->
  let res :=
    FlowCRUD.search_flows Flow db organization_id org_rows public_rows
      include_public limit s in
  let in_tenant :=
    {| TenantContext.row_security := TenantContext.row_security s;
       TenantContext.current_tenant := Some organization_id |} in
  snd res = Some found ->
  Z.of_nat (length found) <= limit
  /\ TenantContext.set_current_tenant_ok db organization_id = true
  /\ TenantContext.current_tenant (fst res) = Some organization_id
  /\ exists flows public,
       org_rows in_tenant = Some flows
       /\ found = Py.slice_to (flows ++ public) limit
       /\ (include_public = false \/ limit <= Z.of_nat (length flows) ->
           public = [] /\ fst res = in_tenant).
Proof.
  intros Hlimit. cbn zeta.
  unfold FlowCRUD.search_flows, FlowCRUD.finally_enable_rls,
         FlowCRUD.exec_select, TenantContext.bind, TenantContext.ret,
         TenantContext.set_organization_context, TenantContext.bypass_rls,
         TenantContext.enable_rls, TenantContext.exec_set_row_security,
         TenantContext.exec_set_current_tenant.
  destruct (TenantContext.set_current_tenant_ok db organization_id);
    [|cbn; discriminate].
  destruct (org_rows _) as [flows|] eqn:Eorg; [|cbn; discriminate].
  destruct include_public; cbn [andb].
  - destruct (Z.ltb_spec (Z.of_nat (length flows)) limit) as [Hlt|Hge].
    + destruct (TenantContext.set_row_security_ok db false);
        cbn [fst snd TenantContext.row_security TenantContext.current_tenant];
        match goal with
        | |- context [public_rows ?n ?s'] =>
            destruct (public_rows n s') as [public|]
        end;
        destruct (TenantContext.set_row_security_ok db true);
        cbn [fst snd TenantContext.row_security TenantContext.current_tenant];
        try discriminate;
        intros H; injection H as <-;
        (split; [apply slice_to_length; exact Hlimit|]);
        (split; [reflexivity|]); (split; [reflexivity|]);
        exists flows, public; (split; [reflexivity|]); (split; [reflexivity|]);
        (intros [H|H]; [discriminate H|lia]).
    + cbn [fst snd TenantContext.current_tenant].
      intros H. injection H as <-.
      split; [apply slice_to_length; exact Hlimit|].
      split; [reflexivity|]. split; [reflexivity|].
      exists flows, []. rewrite app_nil_r. auto.
  - cbn [fst snd TenantContext.current_tenant].
    intros H. injection H as <-.
    split; [apply slice_to_length; exact Hlimit|].
    split; [reflexivity|]. split; [reflexivity|].
    exists flows, []. rewrite app_nil_r. auto.
Qed.

Lemma search_flows_stays_within_the_limit_witness :
  snd (FlowCRUD.search_flows string healthy_db "org-1" three_rows
         two_public_rows true 4 TenantContext.fresh_session)
  = Some ["flow-a"; "flow-b"; "flow-c"; "public-a"]%string
  /\ Z.of_nat (length ["flow-a"; "flow-b"; "flow-c"; "public-a"]%string) <= 4.
Proof.
  assert (H : snd (FlowCRUD.search_flows string healthy_db "org-1" three_rows
                     two_public_rows true 4 TenantContext.fresh_session)
              = Some ["flow-a"; "flow-b"; "flow-c"; "public-a"]%string)
    by reflexivity.
  split; [exact H|].
  exact (proj1 (search_flows_stays_within_the_limit string healthy_db "org-1"
                  three_rows two_public_rows true 4 TenantContext.fresh_session
                  _ ltac:(lia) H)).
Defined.

(** X17.  On a session, an organization set with
    [set_organization_context] is what [get_current_organization] reads
    back; after [clear_organization_context] it reads no organization.
    [clear_organization_context] never raises: when its statement fails,
    the organization set before stays the tenant of the session.  None of
    the three touches row security. *)
Theorem organization_context_round_trip
    (db : TenantContext.Database) (org : string) (s : TenantContext.Session) :
  org <> EmptyString ->
  TenantContext.set_current_tenant_ok db org = true ->
  let set := TenantContext.set_organization_context db org s in
  let cleared := TenantContext.clear_organization_context db (fst set) in
  snd set = Some tt
  /\ TenantContext.get_current_organization true (fst set)
     = (fst set, Some (Some org))
  /\ snd cleared = Some tt
  /\ TenantContext.get_current_organization true (fst cleared)
     = (fst cleared,
        Some (if TenantContext.set_current_tenant_ok db EmptyString
              then None else Some org))
  /\ TenantContext.row_security (fst cleared) = TenantContext.row_security s.
Proof.
  intros Hne Hok. cbn zeta.
  unfold TenantContext.set_organization_context,
         TenantContext.clear_organization_context,
         TenantContext.get_current_organization,
         TenantContext.exec_get_current_tenant,
         TenantContext.exec_set_current_tenant.
  rewrite Hok. cbn [fst snd TenantContext.current_tenant
                    TenantContext.row_security].
  rewrite (truthy_nonempty org Hne).
  destruct (TenantContext.set_current_tenant_ok db EmptyString);
    cbn [fst snd TenantContext.current_tenant TenantContext.row_security];
    rewrite ?(truthy_nonempty org Hne); repeat split.
Qed.

Lemma organization_context_round_trip_witness :
  TenantContext.get_current_organization true
    (fst (TenantContext.set_organization_context healthy_db "org-1"
            TenantContext.fresh_session))
  = ({| TenantContext.row_security := true;
        TenantContext.current_tenant := Some "org-1"%string |},
     Some (Some "org-1"%string)).
Proof.
  apply (organization_context_round_trip healthy_db "org-1"
           TenantContext.fresh_session); [discriminate|reflexivity].
Defined.

(** X18.  For every call the middleware makes to the handler on a route
    that is not exempted, [require_organization_context] either gives the
    organization that was resolved for the request, which is not empty,
    passed the membership validation and is the tenant of the session of
    the request if there is one; or it raises the 400-exception, which the
    error middleware answers as a validation error with the detail of the
    exception, and then the session of the request has no tenant. *)
Theorem required_context_is_the_validated_one
    (call_next : nat -> TenantContext.Invocation -> option Z)
    (db : TenantContext.Database) (request : TenantContext.Request)
    (timestamp request_id : string) (i : TenantContext.Invocation) :
  TenantContext._should_skip_path (TenantContext.url_path request) = false ->
  In i (fst (fst (TenantContext.dispatch call_next db request))) ->
  match TenantContext.require_organization_context i with
  | inr org =>
      org <> EmptyString
      /\ fst (TenantContext._extract_organization_id db request) = Some org
      /\ fst (TenantContext._validate_organization_access db request org) = true
      /\ i = in_organization request org
  | inl error =>
      i = no_context
      /\ ErrorHandling.json_status
           (ErrorHandling._handle_error timestamp error request_id) = 400
      /\ ErrorHandling.er_error_type
           (ErrorHandling.json_content
              (ErrorHandling._handle_error timestamp error request_id))
         = "validation"%string
      /\ ErrorHandling.er_detail
           (ErrorHandling.json_content
              (ErrorHandling._handle_error timestamp error request_id))
         = Some "Organization context is required for this operation"%string
  end.
Proof.
  intros Hskip. unfold TenantContext.dispatch. rewrite Hskip.
  assert (Hnone : In i (fst (TenantContext.guarded_call call_next no_context))
                  \/ In i (fst (TenantContext.on_exception call_next [] no_context))
                  -> i = no_context).
  { unfold TenantContext.guarded_call, TenantContext.on_exception.
    destruct (call_next 0%nat no_context); cbn; intuition. }
  assert (Hbare :
    i = no_context ->
    match TenantContext.require_organization_context i with
    | inr org =>
        org <> EmptyString
        /\ fst (TenantContext._extract_organization_id db request) = Some org
        /\ fst (TenantContext._validate_organization_access db request org) = true
        /\ i = in_organization request org
    | inl error =>
        i = no_context
        /\ ErrorHandling.json_status
             (ErrorHandling._handle_error timestamp error request_id) = 400
        /\ ErrorHandling.er_error_type
             (ErrorHandling.json_content
                (ErrorHandling._handle_error timestamp error request_id))
           = "validation"%string
        /\ ErrorHandling.er_detail
             (ErrorHandling.json_content
                (ErrorHandling._handle_error timestamp error request_id))
           = Some "Organization context is required for this operation"%string
    end).
  { intros ->. cbn. auto. }
  destruct (TenantContext._extract_organization_id db request)
    as [[org|] released1]; cbn [fst snd].
  2:{ fold no_context. intros Hin. apply Hbare, Hnone. left. exact Hin. }
  destruct (Py.truthy (Some org)) eqn:Htruthy.
  2:{ fold no_context. intros Hin. apply Hbare, Hnone. left. exact Hin. }
  destruct (TenantContext._validate_organization_access db request org)
    as [[|] released2] eqn:Hval; cbn [fst snd]; [|intros []].
  destruct (TenantContext._set_tenant_context db request org
              TenantContext.fresh_session) as [session|] eqn:Eset; cbn [fst snd].
  2:{ fold no_context. intros Hin. apply Hbare, Hnone. right. exact Hin. }
  assert (Hsession : TenantContext.current_tenant session
                     = if TenantContext.has_db_session request
                       then Some org else None).
  { unfold TenantContext._set_tenant_context,
           TenantContext.exec_set_current_tenant in Eset.
    destruct (TenantContext.has_db_session request).
    - destruct (TenantContext.set_current_tenant_ok db org);
        [|discriminate Eset].
      injection Eset as <-. reflexivity.
    - injection Eset as <-. reflexivity. }
  rewrite Hsession. fold (in_organization request org).
  intros Hin.
  assert (Hi : i = in_organization request org).
  { unfold TenantContext.guarded_call, TenantContext.on_exception in Hin.
    destruct (call_next 0%nat (in_organization request org)); cbn in Hin;
      intuition. }
  subst i. unfold TenantContext.require_organization_context.
  cbn [in_organization TenantContext.seen_organization_id].
  rewrite Htruthy. repeat split.
  - intros ->. discriminate Htruthy.
  - rewrite Hval. reflexivity.
Qed.

Lemma required_context_is_the_validated_one_witness :
  In no_context
     (fst (fst (TenantContext.dispatch ok_handler tenant_setting_fails_db
                  (request_for "org-1"))))
  /\ ErrorHandling.json_status
       (ErrorHandling._handle_error "2025-01-17T09:30:00"
          (ErrorHandling.HTTPException 400
             "Organization context is required for this operation") "req-1")
     = 400.
Proof.
  assert (Hin : In no_context
                   (fst (fst (TenantContext.dispatch ok_handler
                                tenant_setting_fails_db (request_for "org-1")))))
    by (left; reflexivity).
  split; [exact Hin|].
  pose proof (required_context_is_the_validated_one ok_handler
                tenant_setting_fails_db (request_for "org-1")
                "2025-01-17T09:30:00" "req-1" no_context eq_refl Hin) as H.
  exact (proj1 (proj2 H)).
Defined.

(** ** Recorded usage *)

Section Recording.

Import Usage.

Lemma dt_leb_refl (a : DateTime) : dt_leb a a = true.
Proof.
  unfold dt_leb, dt_compare. rewrite !Z.compare_refl. reflexivity.
Qed.

Lemma MetricType_eqb_eq (a b : MetricType) : MetricType_eqb a b = true <-> a = b.
Proof. destruct a, b; cbn; split; intros H; congruence. Qed.

Lemma period_of_subscriptions (db db' : Database) (organization_id : string)
    (now : DateTime) :
  subscriptions db' = subscriptions db ->
  _get_current_billing_period db' organization_id now
  = _get_current_billing_period db organization_id now.
Proof.
  intros H. unfold _get_current_billing_period, get_organization_subscription.
  rewrite H. reflexivity.
Qed.

(** The usage a summary counts once a row is added to the table. *)
Lemma usage_data_added (db db' : Database) (row : UsageMetric)
    (organization_id : string) (period_start period_end : DateTime)
    (m : MetricType) :
  usage_metrics db' = usage_metrics db ++ [row] ->
  default 0 (usage_data db' organization_id period_start period_end m)
  = default 0 (usage_data db organization_id period_start period_end m)
    + (if String.eqb (um_organization_id row) organization_id
          && dt_leb period_start (um_period_start row)
          && dt_leb (um_period_end row) period_end
          && MetricType_eqb (um_metric_type row) m
       then um_value row else 0).
Proof.
  intros Hrows. unfold usage_data, rows_in_period. rewrite Hrows.
  rewrite List.filter_app. cbn [List.filter].
  set (old := List.filter _ (usage_metrics db)).
  assert (Hsum : forall l : list UsageMetric,
             default 0 (match l with
                        | [] => None
                        | u :: l' =>
                            Some (fold_right Z.add 0 (map um_value (u :: l')))
                        end) = fold_right Z.add 0 (map um_value l)).
  { intros [|x l]; reflexivity. }
  rewrite !Hsum.
  destruct (String.eqb (um_organization_id row) organization_id
            && dt_leb period_start (um_period_start row)
            && dt_leb (um_period_end row) period_end
            && MetricType_eqb (um_metric_type row) m).
  - rewrite map_app, fold_right_app. cbn [map fold_right].
    generalize (map um_value old). intros l.
    induction l as [|x l IH]; cbn [fold_right]; lia.
  - rewrite app_nil_r. lia.
Qed.

Lemma track_usage_available (db : Database) (organization_id : string)
    (m : MetricType) (value : Z) (now : DateTime) :
  db_available db = true ->
  let res := _track_usage db organization_id m value now in
  fst res = true
  /\ db_available (snd res) = true
  /\ subscriptions (snd res) = subscriptions db
  /\ usage_metrics (snd res)
     = usage_metrics db
       ++ [ {| um_organization_id := organization_id; um_metric_type := m;
               um_value := value;
               um_period_start :=
                 fst (_get_current_billing_period db organization_id now);
               um_period_end :=
                 snd (_get_current_billing_period db organization_id now) |} ].
Proof.
  intros Hup. cbn zeta. unfold _track_usage, record_usage.
  destruct (check_quota db organization_id m value now) as [can_use quota_info].
  rewrite Hup.
  destruct (_get_current_billing_period db organization_id now) as [ps pe].
  cbn. auto.
Qed.

(** What one tracked amount does to the usage the summaries count. *)
Lemma track_usage_adds (db : Database) (organization_id : string)
    (m : MetricType) (value : Z) (now : DateTime) :
  db_available db = true ->
  let db' := snd (_track_usage db organization_id m value now) in
  used_in_period db' organization_id now m
  = used_in_period db organization_id now m + value
  /\ (forall organization_id' m' now',
        organization_id' <> organization_id \/ m' <> m ->
        used_in_period db' organization_id' now' m'
        = used_in_period db organization_id' now' m')
  /\ (forall organization_id' m',
        limit_of db' organization_id' m' = limit_of db organization_id' m').
Proof.
  intros Hup. cbn zeta.
  destruct (track_usage_available db organization_id m value now Hup)
    as [_ [_ [Hsubs Hrows]]].
  set (db' := snd (_track_usage db organization_id m value now)) in *.
  split; [|split].
  - unfold used_in_period.
    rewrite (period_of_subscriptions db db' organization_id now Hsubs).
    destruct (_get_current_billing_period db organization_id now) as [ps pe] eqn:E.
    rewrite (usage_data_added db db' _ organization_id ps pe m Hrows).
    cbn [um_organization_id um_period_start um_period_end um_metric_type
         um_value fst snd].
    rewrite String.eqb_refl, !dt_leb_refl.
    replace (MetricType_eqb m m) with true
      by (symmetry; apply MetricType_eqb_eq; reflexivity).
    reflexivity.
  - intros organization_id' m' now' Hother. unfold used_in_period.
    rewrite (period_of_subscriptions db db' organization_id' now' Hsubs).
    destruct (_get_current_billing_period db organization_id' now') as [ps pe].
    rewrite (usage_data_added db db' _ organization_id' ps pe m' Hrows).
    cbn [um_organization_id um_period_start um_period_end um_metric_type
         um_value].
    destruct Hother as [Hne|Hne].
    + destruct (String.eqb_spec organization_id organization_id');
        [congruence|]. cbn [andb]. lia.
    + destruct (MetricType_eqb m m') eqn:Em.
      * apply MetricType_eqb_eq in Em. congruence.
      * rewrite !andb_false_r. lia.
  - intros organization_id' m'. unfold limit_of, get_organization_subscription.
    rewrite Hsubs. reflexivity.
Qed.

End Recording.

(** X19.  [_track_usage] records the amount whatever [check_quota] says:
    with the database answering it returns [True] and the usage the
    summaries of the period count for that organization and metric rises
    by the amount, also beyond the limit of the plan; the usage of other
    organizations and metrics and the limits are left as they are.  When
    the database does not answer it returns [False] and records nothing. *)
Theorem tracking_records_beyond_the_quota
    (db : Usage.Database) (organization_id : string) (m : Usage.MetricType)
    (value : Z) (now : Usage.DateTime) :
  let res := Usage._track_usage db organization_id m value now in
  (Usage.db_available db = true ->
   fst res = true
   /\ used_in_period (snd res) organization_id now m
      = used_in_period db organization_id now m + value
   /\ (forall organization_id' m' now',
         organization_id' <> organization_id \/ m' <> m ->
         used_in_period (snd res) organization_id' now' m'
         = used_in_period db organization_id' now' m')
   /\ (forall organization_id' m',
         limit_of (snd res) organization_id' m'
         = limit_of db organization_id' m'))
  /\ (Usage.db_available db = false -> res = (false, db)).
Proof.
  cbn zeta. split.
  - intros Hup.
    destruct (track_usage_available db organization_id m value now Hup)
      as [Hok _].
    destruct (track_usage_adds db organization_id m value now Hup)
      as [Hadd [Hothers Hlimits]].
    auto.
  - intros Hdown. unfold Usage._track_usage, Usage.record_usage.
    destruct (Usage.check_quota db organization_id m value now).
    rewrite Hdown. reflexivity.
Qed.

Lemma tracking_records_beyond_the_quota_witness :
  fst (Usage.check_quota acme_db "acme" Usage.API_CALLS 10 mid_january) = false
  /\ used_in_period
       (snd (Usage._track_usage acme_db "acme" Usage.API_CALLS 10 mid_january))
       "acme" mid_january Usage.API_CALLS
     = 95 + 10
  /\ limit_of acme_db "acme" Usage.API_CALLS = 100.
Proof.
  split; [reflexivity|]. split; [|reflexivity].
  destruct (tracking_records_beyond_the_quota acme_db "acme" Usage.API_CALLS 10
              mid_january) as [H _].
  destruct (H eq_refl) as [_ [Hadd _]].
  exact Hadd.
Defined.

(** X20.  With the database answering, [track_flow_execution] counts one
    flow execution and at least one compute minute: the minutes recorded
    are the whole minutes of the execution time, and one minute for an
    execution of less than two minutes (or of a negative time); API calls,
    storage and team members are not touched.  It reports the recording of
    the execution only. *)
Theorem flow_execution_costs_at_least_a_minute
    (db : Usage.Database) (organization_id : string) (execution_time_ms : Z)
    (now now' : Usage.DateTime) :
  Usage.db_available db = true ->
  let res :=
    Usage.track_flow_execution db organization_id execution_time_ms now now' in
  let minutes := Z.max 1 (execution_time_ms / 60000) in
  fst res = true
  /\ used_in_period (snd res) organization_id now Usage.FLOW_EXECUTIONS
     = used_in_period db organization_id now Usage.FLOW_EXECUTIONS + 1
  /\ used_in_period (snd res) organization_id now' Usage.COMPUTE_MINUTES
     = used_in_period db organization_id now' Usage.COMPUTE_MINUTES + minutes
  /\ 1 <= minutes
  /\ (execution_time_ms < 120000 -> minutes = 1)
  /\ (60000 <= execution_time_ms ->
      60000 * minutes <= execution_time_ms < 60000 * (minutes + 1))
  /\ (forall m t, m <> Usage.FLOW_EXECUTIONS -> m <> Usage.COMPUTE_MINUTES ->
        used_in_period (snd res) organization_id t m
        = used_in_period db organization_id t m).
Proof.
  intros Hup. cbn zeta. unfold Usage.track_flow_execution.
  pose proof (track_usage_available db organization_id Usage.FLOW_EXECUTIONS 1
                now Hup) as H1.
  pose proof (track_usage_adds db organization_id Usage.FLOW_EXECUTIONS 1
                now Hup) as A1.
  cbn zeta in H1, A1.
  destruct (Usage._track_usage db organization_id Usage.FLOW_EXECUTIONS 1 now)
    as [success db1].
  cbn [fst snd] in H1, A1. destruct H1 as [Hs [Hup1 _]].
  destruct A1 as [Hadd1 [Hother1 _]].
  set (minutes := Z.max 1 (execution_time_ms / 60000)).
  pose proof (track_usage_adds db1 organization_id Usage.COMPUTE_MINUTES
                minutes now' Hup1) as A2.
  cbn zeta in A2.
  destruct (Usage._track_usage db1 organization_id Usage.COMPUTE_MINUTES
              minutes now') as [success2 db2].
  cbn [fst snd] in A2 |- *. destruct A2 as [Hadd2 [Hother2 _]].
  split; [exact Hs|].
  split.
  { rewrite Hother2 by (right; discriminate). exact Hadd1. }
  split.
  { rewrite Hadd2. rewrite Hother1 by (right; discriminate). reflexivity. }
  split; [subst minutes; lia|].
  split.
  { intros Hshort. subst minutes.
    assert (execution_time_ms / 60000 < 2)
      by (apply Z.div_lt_upper_bound; lia).
    lia. }
  split.
  { intros Hlong. subst minutes.
    assert (1 <= execution_time_ms / 60000)
      by (apply Z.div_le_lower_bound; lia).
    rewrite Z.max_r by lia.
    pose proof (Z.mul_div_le execution_time_ms 60000 ltac:(lia)).
    pose proof (Z.mul_succ_div_gt execution_time_ms 60000 ltac:(lia)).
    lia. }
  intros m t Hm1 Hm2.
  rewrite Hother2 by (right; exact Hm2).
  apply Hother1. right. exact Hm1.
Qed.

Lemma flow_execution_costs_at_least_a_minute_witness :
  used_in_period
    (snd (Usage.track_flow_execution acme_db "acme" 1500 mid_january
            mid_january)) "acme" mid_january Usage.COMPUTE_MINUTES
  = used_in_period acme_db "acme" mid_january Usage.COMPUTE_MINUTES + 1.
Proof.
  destruct (flow_execution_costs_at_least_a_minute acme_db "acme" 1500
              mid_january mid_january eq_refl) as [_ [_ [H _]]].
  exact H.
Defined.

(** X21.  [track_team_member] counts [+1] for the action ['add'] and [-1]
    for every other action, whatever its spelling; within one billing
    period and with the database answering, adding a member and then
    tracking any other action leaves the number of team members the
    summaries count where it was. *)
Theorem team_member_added_and_removed
    (db : Usage.Database) (organization_id action : string)
    (now now' : Usage.DateTime) :
  Usage.db_available db = true ->
  action <> "add"%string ->
  Usage._get_current_billing_period db organization_id now
  = Usage._get_current_billing_period db organization_id now' ->
  let added := snd (Usage.track_team_member db organization_id "add" now) in
  let removed := snd (Usage.track_team_member added organization_id action now') in
  used_in_period added organization_id now Usage.TEAM_MEMBERS
  = used_in_period db organization_id now Usage.TEAM_MEMBERS + 1
  /\ used_in_period removed organization_id now' Usage.TEAM_MEMBERS
     = used_in_period db organization_id now' Usage.TEAM_MEMBERS.
Proof.
  intros Hup Haction Hperiod. cbn zeta. unfold Usage.track_team_member.
  rewrite String.eqb_refl.
  destruct (String.eqb_spec action "add") as [E|_]; [contradiction|].
  pose proof (track_usage_available db organization_id Usage.TEAM_MEMBERS 1
                now Hup) as H1.
  pose proof (track_usage_adds db organization_id Usage.TEAM_MEMBERS 1
                now Hup) as A1.
  cbn zeta in H1, A1.
  set (added := snd (Usage._track_usage db organization_id Usage.TEAM_MEMBERS
                       1 now)) in *.
  destruct H1 as [_ [Hup1 [Hsubs1 _]]]. destruct A1 as [Hadd1 _].
  pose proof (track_usage_adds added organization_id Usage.TEAM_MEMBERS (-1)
                now' Hup1) as A2.
  cbn zeta in A2. destruct A2 as [Hadd2 _].
  split; [exact Hadd1|].
  rewrite Hadd2.
  assert (Hnow : used_in_period added organization_id now' Usage.TEAM_MEMBERS
                 = used_in_period added organization_id now Usage.TEAM_MEMBERS).
  { unfold used_in_period.
    rewrite !(period_of_subscriptions db added organization_id _ Hsubs1).
    rewrite Hperiod. reflexivity. }
  assert (Hnow0 : used_in_period db organization_id now' Usage.TEAM_MEMBERS
                  = used_in_period db organization_id now Usage.TEAM_MEMBERS).
  { unfold used_in_period. rewrite Hperiod. reflexivity. }
  rewrite Hnow, Hadd1, Hnow0. lia.
Qed.

Lemma team_member_added_and_removed_witness :
  used_in_period
    (snd (Usage.track_team_member
            (snd (Usage.track_team_member acme_db "acme" "add" mid_january))
            "acme" "remove" mid_january)) "acme" mid_january Usage.TEAM_MEMBERS
  = used_in_period acme_db "acme" mid_january Usage.TEAM_MEMBERS.
Proof.
  destruct (team_member_added_and_removed acme_db "acme" "remove" mid_january
              mid_january eq_refl) as [_ H].
  - discriminate.
  - reflexivity.
  - exact H.
Defined.

(** ** Quota checks in front of an endpoint *)

Section Enforcement.

Import Usage.

(** The snapshot of a summary is the usage of the period and the limit of
    the plan. *)
Lemma summary_snapshot (db : Database) (organization_id : string)
    (now : DateTime) (summary : UsageSummary) (m : MetricType) :
  get_usage_summary db organization_id now = Some summary ->
  snapshot_used summary m = used_in_period db organization_id now m
  /\ snapshot_limit summary m = limit_of db organization_id m.
Proof.
  unfold get_usage_summary, used_in_period, limit_of, snapshot_used,
         snapshot_limit.
  destruct (_get_current_billing_period db organization_id now) as [ps pe].
  destruct (valid_limits _); [|discriminate].
  intros H. injection H as <-. cbn [metrics limits].
  destruct (get_organization_subscription db organization_id);
    [auto|]. rewrite lookup_empty. auto.
Qed.

Lemma check_quota_verdict (db : Database) (organization_id : string)
    (now : DateTime) (summary : UsageSummary) (m : MetricType) (amount : Z) :
  db_available db = true ->
  get_usage_summary db organization_id now = Some summary ->
  limit_of db organization_id m <> -1 ->
  fst (check_quota db organization_id m amount now)
  = (used_in_period db organization_id now m + amount
     <=? limit_of db organization_id m).
Proof.
  intros Hup Hsum Hlimit.
  rewrite (check_quota_unfold db organization_id now summary m amount Hup Hsum).
  destruct (summary_snapshot db organization_id now summary m Hsum) as [-> ->].
  cbn [fst]. destruct (Z.eqb_spec (limit_of db organization_id m) (-1));
    [contradiction|reflexivity].
Qed.

Lemma used_in_same_period (db : Database) (organization_id : string)
    (now now' : DateTime) (m : MetricType) :
  _get_current_billing_period db organization_id now
  = _get_current_billing_period db organization_id now' ->
  used_in_period db organization_id now m
  = used_in_period db organization_id now' m.
Proof. intros H. unfold used_in_period. rewrite H. reflexivity. Qed.

End Enforcement.

(** X22.  An endpoint decorated with [check_quota], called with a session
    and an organization, with the database answering, the summary built
    and a plan limit other than [-1]: when usage plus the amount exceeds
    the limit the wrapper raises 429 with the default or the given
    message, the function is not called and nothing is recorded;
    otherwise the function is called, the amount is recorded only when its
    first call returns, and, the amount not being negative and the billing
    period being the same, the usage of the period stays within the
    limit. *)
Theorem checked_endpoint_stays_within_the_limit
    (A : Type) (func : nat -> QuotaDecorators.Completion A)
    (metric_type : Usage.MetricType) (amount : Z)
    (error_message : option string) (kwargs : QuotaDecorators.Kwargs)
    (db : Usage.Database) (now now' : Usage.DateTime)
    (org_id : string) (summary : Usage.UsageSummary) :
  QuotaDecorators.checkable kwargs = Some org_id ->
  Usage.db_available db = true ->
  Usage.get_usage_summary db org_id now = Some summary ->
  limit_of db org_id metric_type <> -1 ->
  Usage._get_current_billing_period db org_id now
  = Usage._get_current_billing_period db org_id now' ->
  let used := used_in_period db org_id now metric_type in
  let limit := limit_of db org_id metric_type in
  let res :=
    QuotaDecorators.check_quota_wrapper func metric_type amount error_message
      kwargs db now now' in
  (limit < used + amount ->
   res = (QuotaDecorators.QuotaExceeded
            (QuotaDecorators.message_or error_message
               ("Usage quota exceeded for " ++ Usage.metric_value metric_type))
            (Usage.Quota (Usage.metric_value metric_type) used limit amount
               (if limit >? 0 then limit - used else -1) false),
          0%nat, db))
  /\ (used + amount <= limit ->
      (1 <= snd (fst res))%nat
      /\ used_in_period (snd res) org_id now' metric_type
         = used + match func 0%nat with
                  | QuotaDecorators.Returned _ => amount
                  | _ => 0
                  end
      /\ (0 <= amount ->
          used_in_period (snd res) org_id now' metric_type <= limit)).
Proof.
  intros Hkw Hup Hsum Hlimit Hperiod. cbn zeta.
  unfold QuotaDecorators.check_quota_wrapper. rewrite Hkw.
  pose proof (check_quota_verdict db org_id now summary metric_type amount
                Hup Hsum Hlimit) as Hverdict.
  pose proof (check_quota_unfold db org_id now summary metric_type amount
                Hup Hsum) as Hunfold.
  destruct (summary_snapshot db org_id now summary metric_type Hsum)
    as [Hused Hlim].
  rewrite Hused, Hlim in Hunfold.
  destruct (Z.eqb_spec (limit_of db org_id metric_type) (-1)) as [E|_];
    [contradiction|].
  rewrite Hunfold.
  pose proof (used_in_same_period db org_id now now' metric_type Hperiod)
    as Hsame.
  split.
  - intros Hover.
    destruct (Z.leb_spec (used_in_period db org_id now metric_type + amount)
                (limit_of db org_id metric_type)); [lia|].
    reflexivity.
  - intros Hwithin.
    destruct (Z.leb_spec (used_in_period db org_id now metric_type + amount)
                (limit_of db org_id metric_type)); [|lia].
    cbn [negb].
    destruct (func 0%nat) as [a|sc|].
    + pose proof (track_usage_adds db org_id metric_type amount now' Hup) as Hadd.
      cbn zeta in Hadd. destruct Hadd as [Hadd _].
      destruct (Usage._track_usage db org_id metric_type amount now')
        as [ok db'].
      cbn [fst snd] in Hadd |- *. rewrite Hadd, <- Hsame.
      repeat split; lia.
    + cbn [fst snd]. rewrite <- Hsame. repeat split; lia.
    + cbn [fst snd]. rewrite <- Hsame. repeat split; lia.
Qed.

Lemma checked_endpoint_stays_within_the_limit_witness :
  QuotaDecorators.check_quota_wrapper
    (fun _ => QuotaDecorators.Returned 200) Usage.API_CALLS 10 None
    {| QuotaDecorators.has_session := true;
       QuotaDecorators.kw_org_id := Some "acme"%string |}
    acme_db mid_january mid_january
  = (QuotaDecorators.QuotaExceeded "Usage quota exceeded for api_calls"
       (Usage.Quota "api_calls" 95 100 10 5 false), 0%nat, acme_db).
Proof.
  destruct (checked_endpoint_stays_within_the_limit Z
              (fun _ => QuotaDecorators.Returned 200) Usage.API_CALLS 10 None
              {| QuotaDecorators.has_session := true;
                 QuotaDecorators.kw_org_id := Some "acme"%string |}
              acme_db mid_january mid_january "acme" acme_summary)
    as [H _].
  - reflexivity.
  - reflexivity.
  - reflexivity.
  - vm_compute. discriminate.
  - reflexivity.
  - apply H. vm_compute. reflexivity.
Defined.

(** X23.  Under [check_quota] the decorated function is run a second time
    exactly when the check was made and passed and the first run raised
    something other than an [HTTPException]; the outcome of the second run
    is then the outcome of the wrapper and nothing is recorded.  The
    tables change only when the first run returned. *)
Theorem retried_endpoint_is_not_recorded
    (A : Type) (func : nat -> QuotaDecorators.Completion A)
    (metric_type : Usage.MetricType) (amount : Z)
    (error_message : option string) (kwargs : QuotaDecorators.Kwargs)
    (db : Usage.Database) (now now' : Usage.DateTime) :
  let res :=
    QuotaDecorators.check_quota_wrapper func metric_type amount error_message
      kwargs db now now' in
  (snd (fst res) = 2%nat <->
   (exists org_id,
      QuotaDecorators.checkable kwargs = Some org_id
      /\ fst (Usage.check_quota db org_id metric_type amount now) = true)
   /\ func 0%nat = QuotaDecorators.RaisedOther)
  /\ (snd (fst res) = 2%nat ->
      fst (fst res) = QuotaDecorators.returning (func 1%nat) /\ snd res = db)
  /\ (snd res <> db ->
      exists a, func 0%nat = QuotaDecorators.Returned a
                /\ fst res = (QuotaDecorators.Result a, 1%nat)).
Proof.
  cbn zeta. unfold QuotaDecorators.check_quota_wrapper.
  destruct (QuotaDecorators.checkable kwargs) as [org_id|].
  2:{ cbn [fst snd]. split; [|split].
      - split; [discriminate|]. intros [[o [H _]] _]. discriminate H.
      - discriminate.
      - intros H. contradiction H. reflexivity. }
  destruct (Usage.check_quota db org_id metric_type amount now)
    as [can_use quota_info] eqn:Echk.
  destruct can_use; cbn [negb fst snd].
  2:{ split; [|split].
      - split; [discriminate|]. intros [[o [H1 H2]] _].
        injection H1 as <-. rewrite Echk in H2. discriminate H2.
      - discriminate.
      - intros H. contradiction H. reflexivity. }
  destruct (func 0%nat) as [a|sc|].
  - destruct (Usage._track_usage db org_id metric_type amount now')
      as [ok db'].
    cbn [fst snd]. split; [|split].
    + split; [discriminate|]. intros [_ H]. discriminate H.
    + discriminate.
    + intros _. exists a. auto.
  - cbn [fst snd]. split; [|split].
    + split; [discriminate|]. intros [_ H]. discriminate H.
    + discriminate.
    + intros H. contradiction H. reflexivity.
  - cbn [fst snd]. split; [|split].
    + split; [|reflexivity]. intros _. split; [|reflexivity].
      exists org_id. rewrite Echk. auto.
    + auto.
    + intros H. contradiction H. reflexivity.
Qed.

Lemma retried_endpoint_is_not_recorded_witness :
  fst (fst (QuotaDecorators.check_quota_wrapper fails_then_returns
              Usage.API_CALLS 1 None acme_kwargs acme_db mid_january
              mid_january))
  = QuotaDecorators.Result 200
  /\ snd (QuotaDecorators.check_quota_wrapper fails_then_returns
            Usage.API_CALLS 1 None acme_kwargs acme_db mid_january
            mid_january)
     = acme_db.
Proof.
  destruct (retried_endpoint_is_not_recorded Z fails_then_returns
              Usage.API_CALLS 1 None acme_kwargs acme_db mid_january
              mid_january) as [_ [H _]].
  exact (H eq_refl).
Defined.

(** X24.  Under [require_subscription], with a session, an organization
    and the database answering: an organization without a current
    subscription is refused with 403 whatever plan is required, also
    ["free"]; a subscription of the plan ["enterprise"] passes whatever is
    required; and a required plan that is not one of the four known names
    is treated as ["basic"].  When the database does not answer the
    function is run unchecked. *)
Theorem subscription_levels
    (A : Type) (func : nat -> QuotaDecorators.Completion A)
    (plan_type : Usage.Subscription -> string) (min_plan_type : string)
    (error_message : option string) (kwargs : QuotaDecorators.Kwargs)
    (db : Usage.Database) (org_id : string) :
  QuotaDecorators.checkable kwargs = Some org_id ->
  let run min :=
    QuotaDecorators.require_subscription_wrapper func plan_type min
      error_message kwargs db in
  (Usage.db_available db = false ->
   run min_plan_type = (QuotaDecorators.returning (func 0%nat), 1%nat))
  /\ (Usage.db_available db = true ->
      (Usage.get_organization_subscription db org_id = None ->
       run min_plan_type
       = (QuotaDecorators.SubscriptionRequired
            (QuotaDecorators.message_or error_message
               ("This feature requires a " ++ min_plan_type ++ " subscription"))
            min_plan_type "free", 0%nat))
      /\ (forall subscription,
            Usage.get_organization_subscription db org_id = Some subscription ->
            plan_type subscription = "enterprise"%string ->
            run min_plan_type = (QuotaDecorators.returning (func 0%nat), 1%nat))
      /\ (~ In min_plan_type
              ["free"; "basic"; "professional"; "enterprise"]%string ->
          snd (run min_plan_type) = snd (run "basic"%string))).
Proof.
  intros Hkw. cbn zeta.
  unfold QuotaDecorators.require_subscription_wrapper. rewrite Hkw.
  split.
  - intros ->. reflexivity.
  - intros ->. split; [|split].
    + intros ->. reflexivity.
    + intros subscription -> ->.
      unfold QuotaDecorators.plan_hierarchy. cbn [ErrorHandling.dict_get].
      repeat match goal with
             | |- context [String.eqb ?a min_plan_type] =>
                 destruct (String.eqb a min_plan_type)
             end; reflexivity.
    + intros Hnot.
      destruct (Usage.get_organization_subscription db org_id)
        as [subscription|]; [|reflexivity].
      assert (Hlevel :
        ErrorHandling.dict_get QuotaDecorators.plan_hierarchy min_plan_type 1
        = ErrorHandling.dict_get QuotaDecorators.plan_hierarchy "basic" 1).
      { unfold QuotaDecorators.plan_hierarchy. cbn [ErrorHandling.dict_get].
        repeat match goal with
               | |- context [String.eqb ?a min_plan_type] =>
                   destruct (String.eqb_spec a min_plan_type) as [<-|?];
                   [exfalso; apply Hnot; cbn; tauto|]
               end.
        reflexivity. }
      rewrite Hlevel.
      destruct (_ <? _); reflexivity.
Qed.

Lemma subscription_levels_witness :
  QuotaDecorators.require_subscription_wrapper
    (fun _ => QuotaDecorators.Returned 200) (fun _ => "basic"%string) "free"
    None
    {| QuotaDecorators.has_session := true;
       QuotaDecorators.kw_org_id := Some "lapsed"%string |} lapsed_db
  = (QuotaDecorators.SubscriptionRequired
       "This feature requires a free subscription" "free" "free", 0%nat).
Proof.
  destruct (subscription_levels Z (fun _ => QuotaDecorators.Returned 200)
              (fun _ => "basic"%string) "free" None
              {| QuotaDecorators.has_session := true;
                 QuotaDecorators.kw_org_id := Some "lapsed"%string |}
              lapsed_db "lapsed" eq_refl) as [_ H].
  destruct (H eq_refl) as [Hnone _].
  exact (Hnone eq_refl).
Defined.

(** ** The usage tracking middleware *)

Section Tracking.

Import Usage UsageTracking.

Lemma prefix_app_l (a b s : string) :
  String.prefix (a ++ b) s = true -> String.prefix a s = true.
Proof.
  revert s. induction a as [|c a IH]; intros s; [destruct s; reflexivity|].
  change (String c a ++ b)%string with (String c (a ++ b)).
  destruct s as [|c' s]; cbn [String.prefix]; [discriminate|].
  destruct (Ascii.ascii_dec c c'); [apply IH|discriminate].
Qed.

(** Every path whose quota is enforced is a tracked path. *)
Lemma enforced_is_tracked (path : string) :
  _should_enforce_quota path = true -> _should_track_endpoint path = true.
Proof.
  unfold _should_enforce_quota, _should_track_endpoint,
         quota_enforced_endpoints, tracked_endpoints, Py.startswith.
  cbn [existsb]. rewrite !orb_false_r.
  intros H. apply orb_true_iff in H. destruct H as [H|H].
  - rewrite H. reflexivity.
  - apply orb_true_iff in H. destruct H as [H|H].
    + rewrite (prefix_app_l "/api/v1/flows" "/run" path H).
      rewrite orb_true_r. reflexivity.
    + rewrite (prefix_app_l "/api/v1/endpoints" "/run" path H).
      rewrite !orb_true_r. reflexivity.
Qed.

(** What [track_flow_execution] adds, metric by metric. *)
Lemma flow_execution_leaves_other_metrics (db : Database)
    (organization_id : string) (execution_time_ms : Z) (now now' : DateTime) :
  db_available db = true ->
  let db' :=
    snd (track_flow_execution db organization_id execution_time_ms now now') in
  used_in_period db' organization_id now FLOW_EXECUTIONS
  = used_in_period db organization_id now FLOW_EXECUTIONS + 1
  /\ forall m t, m <> FLOW_EXECUTIONS -> m <> COMPUTE_MINUTES ->
       used_in_period db' organization_id t m
       = used_in_period db organization_id t m.
Proof.
  intros Hup. cbn zeta. unfold track_flow_execution.
  pose proof (track_usage_available db organization_id FLOW_EXECUTIONS 1
                now Hup) as H1.
  pose proof (track_usage_adds db organization_id FLOW_EXECUTIONS 1 now Hup)
    as A1.
  cbn zeta in H1, A1.
  destruct (_track_usage db organization_id FLOW_EXECUTIONS 1 now)
    as [success db1].
  cbn [fst snd] in H1, A1. destruct H1 as [_ [Hup1 _]].
  destruct A1 as [Hadd1 [Hother1 _]].
  pose proof (track_usage_adds db1 organization_id COMPUTE_MINUTES
                (Z.max 1 (execution_time_ms / 60000)) now' Hup1) as A2.
  cbn zeta in A2.
  destruct (_track_usage db1 organization_id COMPUTE_MINUTES _ now')
    as [success2 db2].
  cbn [fst snd] in A2 |- *. destruct A2 as [_ [Hother2 _]].
  split.
  - rewrite Hother2 by (right; discriminate). exact Hadd1.
  - intros m t Hm1 Hm2. rewrite Hother2 by (right; exact Hm2).
    apply Hother1. right. exact Hm1.
Qed.

(** What [_track_request_usage] adds when there is a session. *)
Lemma request_usage_added (request : Request) (org_id : string)
    (execution_time_ms : Z) (t : Readings) (db : Database) :
  has_db_session request = true ->
  db_available db = true ->
  let db' := _track_request_usage request org_id execution_time_ms t db in
  used_in_period db' org_id (at_api_call t) API_CALLS
  = used_in_period db org_id (at_api_call t) API_CALLS + 1
  /\ used_in_period db' org_id (at_execution t) FLOW_EXECUTIONS
     = used_in_period db org_id (at_execution t) FLOW_EXECUTIONS
       + (if Py.contains "run" (url_path request)
             || Py.contains "execute" (url_path request)
          then 1 else 0).
Proof.
  intros Hsession Hup. cbn zeta. unfold _track_request_usage, track_api_call.
  rewrite Hsession.
  pose proof (track_usage_available db org_id API_CALLS 1 (at_api_call t) Hup)
    as H1.
  pose proof (track_usage_adds db org_id API_CALLS 1 (at_api_call t) Hup) as A1.
  cbn zeta in H1, A1.
  destruct (_track_usage db org_id API_CALLS 1 (at_api_call t)) as [ok db1].
  cbn [fst snd] in H1, A1. destruct H1 as [_ [Hup1 _]].
  destruct A1 as [Hadd1 [Hother1 _]].
  destruct (Py.contains "run" (url_path request)
            || Py.contains "execute" (url_path request)).
  - destruct (flow_execution_leaves_other_metrics db1 org_id execution_time_ms
                (at_execution t) (at_minutes t) Hup1) as [Hexec Hrest].
    split.
    + rewrite Hrest by discriminate. exact Hadd1.
    + rewrite Hexec. rewrite Hother1 by (right; discriminate). reflexivity.
  - split; [exact Hadd1|].
    rewrite Hother1 by (right; discriminate). lia.
Qed.

End Tracking.

(** X25.  On a path whose quota is enforced, for a request with an
    organization and a session, with the database answering, the summary
    built and a plan limit of API calls other than [-1]: when one more
    call would exceed the limit the middleware answers 429 without
    calling the handler and without recording anything; otherwise the
    handler is called, one API call is recorded exactly when its first
    call answers with a status from 200 to 299, and, the billing period
    being the same, the API calls of the period stay within the limit. *)
Theorem enforced_endpoint_keeps_api_calls_within_the_limit
    (call_next : nat -> option Z)
    (user_organizations : string -> option (list string))
    (request : UsageTracking.Request) (execution_time_ms : Z)
    (t : UsageTracking.Readings) (db : Usage.Database) (org_id : string)
    (summary : Usage.UsageSummary) :
  UsageTracking._should_enforce_quota (UsageTracking.url_path request) = true ->
  UsageTracking._get_organization_id user_organizations request = Some org_id ->
  org_id <> EmptyString ->
  UsageTracking.has_db_session request = true ->
  Usage.db_available db = true ->
  Usage.get_usage_summary db org_id (UsageTracking.at_check t) = Some summary ->
  limit_of db org_id Usage.API_CALLS <> -1 ->
  Usage._get_current_billing_period db org_id (UsageTracking.at_check t)
  = Usage._get_current_billing_period db org_id (UsageTracking.at_api_call t) ->
  let used := used_in_period db org_id (UsageTracking.at_check t) Usage.API_CALLS in
  let limit := limit_of db org_id Usage.API_CALLS in
  let res :=
    UsageTracking.dispatch call_next user_organizations request
      execution_time_ms t db in
  (limit < used + 1 ->
   res = (UsageTracking.QuotaExceeded
            (Usage.Quota "api_calls" used limit 1
               (if limit >? 0 then limit - used else -1) false),
          0%nat, db))
  /\ (used + 1 <= limit ->
      (1 <= snd (fst res))%nat
      /\ used_in_period (snd res) org_id (UsageTracking.at_api_call t)
           Usage.API_CALLS
         = used + match call_next 0%nat with
                  | Some status_code =>
                      if (200 <=? status_code) && (status_code <? 300)
                      then 1 else 0
                  | None => 0
                  end
      /\ used_in_period (snd res) org_id (UsageTracking.at_api_call t)
           Usage.API_CALLS <= limit).
Proof.
  intros Henf Horg Hne Hsession Hup Hsum Hlimit Hperiod. cbn zeta.
  unfold UsageTracking.dispatch.
  rewrite (enforced_is_tracked _ Henf), Horg, (truthy_nonempty org_id Hne),
          Henf, Hsession.
  cbn [negb].
  pose proof (check_quota_unfold db org_id (UsageTracking.at_check t) summary
                Usage.API_CALLS 1 Hup Hsum) as Hunfold.
  destruct (summary_snapshot db org_id (UsageTracking.at_check t) summary
              Usage.API_CALLS Hsum) as [Hused Hlim].
  rewrite Hused, Hlim in Hunfold.
  destruct (Z.eqb_spec (limit_of db org_id Usage.API_CALLS) (-1)) as [E|_];
    [contradiction|].
  rewrite Hunfold.
  pose proof (used_in_same_period db org_id (UsageTracking.at_check t)
                (UsageTracking.at_api_call t) Usage.API_CALLS Hperiod) as Hsame.
  split.
  - intros Hover.
    destruct (Z.leb_spec
                (used_in_period db org_id (UsageTracking.at_check t)
                   Usage.API_CALLS + 1)
                (limit_of db org_id Usage.API_CALLS)); [lia|].
    reflexivity.
  - intros Hwithin.
    destruct (Z.leb_spec
                (used_in_period db org_id (UsageTracking.at_check t)
                   Usage.API_CALLS + 1)
                (limit_of db org_id Usage.API_CALLS)); [|lia].
    cbn [negb].
    destruct (call_next 0%nat) as [status_code|].
    + destruct ((200 <=? status_code) && (status_code <? 300)).
      * destruct (request_usage_added request org_id execution_time_ms t db
                    Hsession Hup) as [Hadd _].
        cbn [fst snd]. rewrite Hadd, <- Hsame. repeat split; lia.
      * cbn [fst snd]. rewrite <- Hsame. repeat split; lia.
    + cbn [fst snd]. rewrite <- Hsame. repeat split; lia.
Qed.

Lemma enforced_endpoint_keeps_api_calls_within_the_limit_witness :
  used_in_period
    (snd (UsageTracking.dispatch answers_ok no_organizations chat_request 1500
            in_january acme_db)) "acme" mid_january Usage.API_CALLS
  <= 100.
Proof.
  destruct (enforced_endpoint_keeps_api_calls_within_the_limit answers_ok
              no_organizations chat_request 1500 in_january acme_db "acme"
              acme_summary) as [_ H].
  - reflexivity.
  - reflexivity.
  - discriminate.
  - reflexivity.
  - reflexivity.
  - reflexivity.
  - vm_compute. discriminate.
  - reflexivity.
  - apply H. vm_compute. discriminate.
Defined.

(** X26.  On a tracked path whose quota is not enforced, such as the run
    of a flow by its identifier, a request with an organization and a
    session is never refused, whatever the plan allows; with the database
    answering, a first call of the handler that answers with a status
    from 200 to 299 records one API call and, when the path contains
    ["run"] or ["execute"], one flow execution; any other answer records
    nothing; and when the first call raises the handler is called a
    second time and nothing is recorded. *)
Theorem unenforced_endpoint_records_without_a_limit
    (call_next : nat -> option Z)
    (user_organizations : string -> option (list string))
    (request : UsageTracking.Request) (execution_time_ms : Z)
    (t : UsageTracking.Readings) (db : Usage.Database) (org_id : string) :
  UsageTracking._should_track_endpoint (UsageTracking.url_path request) = true ->
  UsageTracking._should_enforce_quota (UsageTracking.url_path request) = false ->
  UsageTracking._get_organization_id user_organizations request = Some org_id ->
  org_id <> EmptyString ->
  UsageTracking.has_db_session request = true ->
  Usage.db_available db = true ->
  let res :=
    UsageTracking.dispatch call_next user_organizations request
      execution_time_ms t db in
  let recorded :=
    match call_next 0%nat with
    | Some status_code => (200 <=? status_code) && (status_code <? 300)
    | None => false
    end in
  fst res
  = match call_next 0%nat with
    | Some status_code => (UsageTracking.Answered status_code, 1%nat)
    | None => (UsageTracking.passing call_next 1%nat, 2%nat)
    end
  /\ (recorded = false -> snd res = db)
  /\ used_in_period (snd res) org_id (UsageTracking.at_api_call t)
       Usage.API_CALLS
     = used_in_period db org_id (UsageTracking.at_api_call t) Usage.API_CALLS
       + (if recorded then 1 else 0)
  /\ used_in_period (snd res) org_id (UsageTracking.at_execution t)
       Usage.FLOW_EXECUTIONS
     = used_in_period db org_id (UsageTracking.at_execution t)
         Usage.FLOW_EXECUTIONS
       + (if recorded
             && (Py.contains "run" (UsageTracking.url_path request)
                 || Py.contains "execute" (UsageTracking.url_path request))
          then 1 else 0).
Proof.
  intros Htracked Henf Horg Hne Hsession Hup. cbn zeta.
  unfold UsageTracking.dispatch.
  rewrite Htracked, Horg, (truthy_nonempty org_id Hne), Henf.
  cbn [negb].
  destruct (call_next 0%nat) as [status_code|].
  - destruct ((200 <=? status_code) && (status_code <? 300)); cbn [fst snd andb].
    + destruct (request_usage_added request org_id execution_time_ms t db
                  Hsession Hup) as [Hadd Hexec].
      repeat split; [discriminate|exact Hadd|exact Hexec].
    + repeat split; lia.
  - cbn [fst snd andb]. repeat split; lia.
Qed.

Lemma unenforced_endpoint_records_without_a_limit_witness :
  fst (Usage.check_quota acme_db "acme" Usage.API_CALLS 10 mid_january) = false
  /\ fst (UsageTracking.dispatch answers_ok no_organizations run_flow_request
            1500 in_january acme_db)
     = (UsageTracking.Answered 200, 1%nat).
Proof.
  split; [reflexivity|].
  destruct (unenforced_endpoint_records_without_a_limit answers_ok
              no_organizations run_flow_request 1500 in_january acme_db "acme")
    as [H _].
  - reflexivity.
  - reflexivity.
  - reflexivity.
  - discriminate.
  - reflexivity.
  - reflexivity.
  - exact H.
Defined.

(** ** The subscription of an organization *)

Section Newest.

Import Usage.

Lemma dt_compare_lex (a b : DateTime) :
  dt_compare a b = lex (fields a) (fields b).
Proof.
  unfold dt_compare, fields. cbn [lex].
  repeat match goal with
         | |- context [?x ?= ?y] => destruct (x ?= y); try reflexivity
         end.
Qed.

Lemma lex_le_trans (a : list Z) :
  forall b c, length a = length b -> length b = length c ->
              lex a b <> Gt -> lex b c <> Gt -> lex a c <> Gt.
Proof.
  induction a as [|x a IH]; intros [|y b] [|z c] Hab Hbc; cbn [lex];
    try discriminate; try (intros; discriminate).
  cbn [length] in Hab, Hbc.
  destruct (Z.compare_spec x y), (Z.compare_spec y z), (Z.compare_spec x z);
    try lia; try (intros; discriminate); try (intros ? ?; congruence).
  apply IH; lia.
Qed.

Lemma lex_total (a : list Z) :
  forall b, length a = length b -> lex a b = Gt -> lex b a <> Gt.
Proof.
  induction a as [|x a IH]; intros [|y b] Hab; cbn [lex]; try discriminate.
  cbn [length] in Hab.
  destruct (Z.compare_spec x y), (Z.compare_spec y x); try lia;
    try discriminate; try (intros; discriminate).
  apply IH. lia.
Qed.

Lemma dt_leb_trans (a b c : DateTime) :
  dt_leb a b = true -> dt_leb b c = true -> dt_leb a c = true.
Proof.
  unfold dt_leb. rewrite !dt_compare_lex. intros Hab Hbc.
  assert (H : lex (fields a) (fields c) <> Gt).
  { apply (lex_le_trans _ (fields b)); try reflexivity.
    - destruct (lex (fields a) (fields b)); discriminate.
    - destruct (lex (fields b) (fields c)); discriminate. }
  destruct (lex (fields a) (fields c)); congruence.
Qed.

Lemma dt_leb_total (a b : DateTime) :
  dt_leb a b = false -> dt_leb b a = true.
Proof.
  unfold dt_leb. rewrite !dt_compare_lex. intros Hab.
  assert (H : lex (fields b) (fields a) <> Gt).
  { apply lex_total; [reflexivity|].
    destruct (lex (fields a) (fields b)); congruence. }
  destruct (lex (fields b) (fields a)); congruence.
Qed.

Lemma newest_latest (l : list Subscription) (s : Subscription) :
  newest l = Some s ->
  In s l
  /\ forall s', In s' l -> dt_leb (sub_created_at s') (sub_created_at s) = true.
Proof.
  revert s. induction l as [|x l IH]; intros s; cbn [newest]; [discriminate|].
  destruct (newest l) as [s0|] eqn:E.
  - destruct (IH s0 eq_refl) as [Hin Hall].
    destruct (dt_leb (sub_created_at s0) (sub_created_at x)) eqn:Hle;
      intros H; injection H as <-.
    + split; [left; reflexivity|].
      intros s' [<-|Hs']; [apply dt_leb_refl|].
      apply (dt_leb_trans _ (sub_created_at s0)); [apply Hall; exact Hs'|exact Hle].
    + split; [right; exact Hin|].
      intros s' [<-|Hs']; [apply dt_leb_total; exact Hle|apply Hall; exact Hs'].
  - intros H. injection H as <-.
    destruct l as [|y l]; [|cbn [newest] in E; destruct (newest l);
                             [destruct (dt_leb _ _)|]; discriminate E].
    split; [left; reflexivity|].
    intros s' [<-|[]]. apply dt_leb_refl.
Qed.

Lemma newest_none (l : list Subscription) : newest l = None -> l = [].
Proof.
  destruct l as [|x l]; [reflexivity|]. cbn [newest].
  destruct (newest l); [destruct (dt_leb _ _)|]; discriminate.
Qed.

End Newest.

(** X27.  [get_organization_subscription] gives a subscription of the
    organization that is active or trialing and was created last among
    those; it gives none exactly when the organization has no active or
    trialing subscription, whatever canceled, unpaid or incomplete ones it
    has. *)
Theorem subscription_is_the_newest_current_one
    (db : Usage.Database) (org_id : string) :
  match Usage.get_organization_subscription db org_id with
  | Some subscription =>
      In subscription (Usage.subscriptions db)
      /\ Usage.sub_organization_id subscription = org_id
      /\ (Usage.sub_status subscription = Usage.ACTIVE
          \/ Usage.sub_status subscription = Usage.TRIALING)
      /\ forall other,
           In other (current_subscriptions db org_id) ->
           Usage.dt_leb (Usage.sub_created_at other)
             (Usage.sub_created_at subscription) = true
  | None =>
      forall other,
        In other (Usage.subscriptions db) ->
        Usage.sub_organization_id other = org_id ->
        Usage.sub_status other <> Usage.ACTIVE
        /\ Usage.sub_status other <> Usage.TRIALING
  end.
Proof.
  unfold Usage.get_organization_subscription.
  fold (current_subscriptions db org_id).
  destruct (Usage.newest (current_subscriptions db org_id)) as [s|] eqn:E.
  - destruct (newest_latest _ s E) as [Hin Hall].
    unfold current_subscriptions in Hin.
    apply List.filter_In in Hin. destruct Hin as [Hin Hcond].
    apply andb_true_iff in Hcond. destruct Hcond as [Horg Hcur].
    apply String.eqb_eq in Horg.
    repeat split; try assumption.
    unfold Usage.is_current in Hcur.
    destruct (Usage.sub_status s); try discriminate; auto.
  - apply newest_none in E. intros other Hin Horg.
    assert (Hnot : ~ In other (current_subscriptions db org_id))
      by (rewrite E; intros []).
    unfold current_subscriptions in Hnot. rewrite List.filter_In in Hnot.
    split; intros Hst; apply Hnot; (split; [exact Hin|]);
      apply andb_true_iff; (split; [apply String.eqb_eq; exact Horg|]);
      unfold Usage.is_current; rewrite Hst; reflexivity.
Qed.

Lemma subscription_is_the_newest_current_one_witness :
  Usage.get_organization_subscription lapsed_db "lapsed" = None
  /\ forall other,
       In other (Usage.subscriptions lapsed_db) ->
       Usage.sub_organization_id other = "lapsed"%string ->
       Usage.sub_status other <> Usage.ACTIVE
       /\ Usage.sub_status other <> Usage.TRIALING.
Proof.
  split; [reflexivity|].
  exact (subscription_is_the_newest_current_one lapsed_db "lapsed").
Defined.

(** ** The local cache of the manager *)

Section LocalCacheFacts.

Import LocalCache.

Variable V : Type.

Lemma insert_by_expiry_perm (e : Entry V) (l : list (Entry V)) :
  Permutation (insert_by_expiry V e l) (e :: l).
Proof.
  induction l as [|e' l IH]; cbn [insert_by_expiry]; [reflexivity|].
  destruct (Clock.ltb _ _); [|reflexivity].
  rewrite IH. apply perm_swap.
Qed.

Lemma sorted_by_expiry_perm (d : list (Entry V)) :
  Permutation (sorted_by_expiry_desc V d) d.
Proof.
  induction d as [|e d IH]; [reflexivity|].
  cbn [sorted_by_expiry_desc fold_right].
  fold (sorted_by_expiry_desc V d).
  rewrite insert_by_expiry_perm, IH. reflexivity.
Qed.

Lemma insert_by_expiry_sorted (e : Entry V) (l : list (Entry V)) :
  StronglySorted (outlives V) l ->
  StronglySorted (outlives V) (insert_by_expiry V e l).
Proof.
  induction l as [|e' l IH]; intros Hs; cbn [insert_by_expiry].
  - constructor; constructor.
  - inversion Hs as [|? ? Hs' Hall]; subst.
    destruct (Clock.ltb (entry_expiry V e) (entry_expiry V e')) eqn:E.
    + apply ltb_lt in E. constructor; [apply IH; exact Hs'|].
      rewrite (insert_by_expiry_perm e l). constructor; [|exact Hall].
      unfold outlives. lra.
    + apply ltb_ge in E. constructor; [exact Hs|].
      constructor; [exact E|].
      eapply List.Forall_impl; [|exact Hall].
      intros x Hx. unfold outlives in *. lra.
Qed.

Lemma sorted_by_expiry_sorted (d : list (Entry V)) :
  StronglySorted (outlives V) (sorted_by_expiry_desc V d).
Proof.
  induction d as [|e d IH]; [constructor|].
  cbn [sorted_by_expiry_desc fold_right].
  apply insert_by_expiry_sorted. exact IH.
Qed.

Lemma sorted_split (a b : list (Entry V)) :
  StronglySorted (outlives V) (a ++ b) ->
  forall x y, In x a -> In y b -> outlives V x y.
Proof.
  induction a as [|e a IH]; intros Hs x y Hx Hy; [destruct Hx|].
  inversion Hs as [|? ? Hs' Hall]; subst.
  destruct Hx as [<-|Hx].
  - rewrite List.Forall_forall in Hall. apply Hall.
    apply in_or_app. right. exact Hy.
  - apply (IH Hs' x y Hx Hy).
Qed.

Lemma cleanup_length (d : list (Entry V)) (t : Q) :
  (length (_cleanup_local_cache V d t) <= 500)%nat.
Proof.
  unfold _cleanup_local_cache.
  match goal with
  | |- context [(500 <? ?n)%nat] => destruct (Nat.ltb_spec 500 n) as [H|H]
  end.
  - rewrite length_firstn. lia.
  - exact H.
Qed.

Lemma lookup_store_same (d : list (Entry V)) (key : string) (item : V * Q) :
  dict_lookup V (dict_store V d key item) key = Some item.
Proof.
  induction d as [|[k old] d IH]; cbn.
  - rewrite String.eqb_refl. reflexivity.
  - destruct (String.eqb k key) eqn:E; cbn.
    + rewrite String.eqb_refl. reflexivity.
    + rewrite E. exact IH.
Qed.

Lemma lookup_store_other (d : list (Entry V)) (key key' : string)
    (item : V * Q) :
  key' <> key ->
  dict_lookup V (dict_store V d key item) key' = dict_lookup V d key'.
Proof.
  intros Hne. induction d as [|[k old] d IH]; cbn.
  - destruct (String.eqb_spec key key'); [congruence|reflexivity].
  - destruct (String.eqb_spec k key) as [->|Hk]; cbn.
    + destruct (String.eqb_spec key key'); [congruence|reflexivity].
    + destruct (String.eqb k key'); [reflexivity|exact IH].
Qed.

Lemma lookup_remove_same (d : list (Entry V)) (key : string) :
  dict_lookup V (dict_remove V d key) key = None.
Proof.
  unfold dict_remove. induction d as [|[k item] d IH]; cbn; [reflexivity|].
  unfold entry_key at 1. cbn [fst].
  destruct (String.eqb k key) eqn:E; cbn; [exact IH|].
  rewrite E. exact IH.
Qed.

End LocalCacheFacts.

(** X28.  The cleanup of the local cache keeps at most 500 entries, all of
    them entries that were there and have not expired; when it drops an
    entry that has not expired, every entry it keeps expires at least as
    late; and it drops no such entry unless more than 500 are left.
    Hence after every [set] the local cache holds at most 1000 entries. *)
Theorem cleanup_keeps_the_longest_lived
    (V : Type) (d : list (LocalCache.Entry V)) (t : Q) :
  let kept := LocalCache._cleanup_local_cache V d t in
  (length kept <= 500)%nat
  /\ (forall e, In e kept -> In e d /\ unexpired V t e = true)
  /\ (forall e e',
        In e d -> unexpired V t e = true -> ~ In e kept -> In e' kept ->
        outlives V e' e)
  /\ ((length (List.filter (unexpired V t) d) <= 500)%nat ->
      kept = List.filter (unexpired V t) d)
  /\ (forall key value ttl now,
        (length (snd (LocalCache.set V d key value ttl now t)) <= 1000)%nat).
Proof.
  cbn zeta.
  split; [apply cleanup_length|].
  unfold LocalCache._cleanup_local_cache.
  fold (unexpired V t).
  set (alive := List.filter (unexpired V t) d).
  assert (Halive : forall e, In e alive <-> In e d /\ unexpired V t e = true)
    by (intros e; apply List.filter_In).
  pose proof (sorted_by_expiry_perm V alive) as Hperm.
  pose proof (sorted_by_expiry_sorted V alive) as Hsorted.
  rewrite <- (firstn_skipn 500 (LocalCache.sorted_by_expiry_desc V alive))
    in Hperm, Hsorted.
  split; [|split; [|split]].
  - intros e He. apply Halive.
    destruct (500 <? length alive)%nat; [|exact He].
    apply (Permutation_in e Hperm). apply in_or_app. left. exact He.
  - intros e e' Hin Hun Hnot He'.
    destruct (500 <? length alive)%nat.
    + assert (Hsome : In e (firstn 500 (LocalCache.sorted_by_expiry_desc V alive)
                            ++ skipn 500 (LocalCache.sorted_by_expiry_desc V alive))).
      { apply (Permutation_in e (Permutation_sym Hperm)).
        apply Halive. split; assumption. }
      apply in_app_or in Hsome. destruct Hsome as [H|H]; [contradiction|].
      apply (sorted_split V _ _ Hsorted e' e He' H).
    + exfalso. apply Hnot. apply Halive. split; assumption.
  - intros Hfew.
    destruct (Nat.ltb_spec 500 (length alive)); [lia|reflexivity].
  - intros key value ttl now. unfold LocalCache.set. cbn [snd].
    destruct (Nat.ltb_spec 1000
                (length (LocalCache.dict_store V d key
                           (value, (now + inject_Z ttl)%Q)))) as [H|H].
    + pose proof (cleanup_length V
                    (LocalCache.dict_store V d key
                       (value, (now + inject_Z ttl)%Q)) t).
      lia.
    + exact H.
Qed.

Lemma cleanup_keeps_the_longest_lived_witness :
  LocalCache._cleanup_local_cache Z small_cache 50
  = [ ("metadata:a"%string, (1, 100%Q)); ("metadata:c"%string, (3, 400%Q)) ].
Proof.
  destruct (cleanup_keeps_the_longest_lived Z small_cache 50)
    as [_ [_ [_ [H _]]]].
  rewrite H; [reflexivity|]. apply Nat.leb_le. reflexivity.
Defined.

(** X29.  On the local cache, a value written with [set] is read back by
    [get] under the same key until its time to live has passed, provided
    the cache holds at most 1000 entries after the write (otherwise the
    cleanup decides); reading another key is not affected by the write.
    From the moment the time to live has passed [get] gives nothing and
    deletes the entry; after [delete], [get] gives nothing. *)
Theorem local_cache_round_trip
    (V : Type) (d : list (LocalCache.Entry V)) (key : string) (value : V)
    (ttl : Z) (now now' t : Q) :
  (length (LocalCache.dict_store V d key (value, (now + inject_Z ttl)%Q))
   <= 1000)%nat ->
  let written := snd (LocalCache.set V d key value ttl now now') in
  ((t < now + inject_Z ttl)%Q ->
   LocalCache.get V written key t = (Some value, written))
  /\ ((now + inject_Z ttl <= t)%Q ->
      fst (LocalCache.get V written key t) = None
      /\ LocalCache.dict_lookup V (snd (LocalCache.get V written key t)) key
         = None)
  /\ (forall key', key' <> key ->
        fst (LocalCache.get V written key' t) = fst (LocalCache.get V d key' t))
  /\ fst (LocalCache.get V (snd (LocalCache.delete V written key)) key t) = None.
Proof.
  intros Hsize. cbn zeta. unfold LocalCache.set. cbn [snd].
  destruct (Nat.ltb_spec 1000
              (length (LocalCache.dict_store V d key
                         (value, (now + inject_Z ttl)%Q)))) as [H|_]; [lia|].
  split; [|split; [|split]].
  - intros Hlive. unfold LocalCache.get. rewrite lookup_store_same.
    apply ltb_lt in Hlive. rewrite Hlive. reflexivity.
  - intros Hdead. unfold LocalCache.get. rewrite lookup_store_same.
    apply ltb_ge in Hdead. rewrite Hdead. cbn [fst snd].
    split; [reflexivity|apply lookup_remove_same].
  - intros key' Hne. unfold LocalCache.get.
    rewrite (lookup_store_other V d key key' _ Hne).
    destruct (LocalCache.dict_lookup V d key') as [[v e]|]; [|reflexivity].
    destruct (Clock.ltb t e); reflexivity.
  - unfold LocalCache.delete, LocalCache.get. cbn [snd].
    rewrite lookup_remove_same. reflexivity.
Qed.

Lemma local_cache_round_trip_witness :
  LocalCache.get Z (snd (LocalCache.set Z [] "metadata:c4" 7 300 10 10))
    "metadata:c4" 309
  = (Some 7, [("metadata:c4"%string, (7, (10 + inject_Z 300)%Q))]).
Proof.
  apply (local_cache_round_trip Z [] "metadata:c4" 7 300 10 10 309).
  - cbn. lia.
  - vm_compute. reflexivity.
Defined.

(** ** A circuit record that is left alone *)


